(** * Investing Portfolio: the polling coordinator, its parsers and the API client

    A shallow embedding of
    [custom_components/investing_portfolio/coordinator.py],
    [custom_components/investing_portfolio/api.py] and
    [custom_components/investing_portfolio/const.py], followed by the
    properties of the schedule policy, the number and time parsers, the
    error classification of the API client and the update cycle of the
    coordinator.

    Conventions of the embedding.
    - A Python [str] is a Rocq [string]: the UTF-8 bytes of the text.  The
      character classes of the interpreter (whitespace, decimal digits) are
      modelled on the ASCII range; a non-ASCII code point is an ordinary
      character here.
    - A Python [int] is a [Z]; [%] is [Z.modulo] (the sign follows the
      divisor, as in Python), with [ZeroDivisionError] on a zero divisor.
    - A Python [float] is a binary64 [spec_float]; the conversion from text
      is correctly rounded (round to nearest, ties to even).
    - An exception is a class and a message; a message is the list of the
      fragments of the f-string that built it.
    - An [async def] is run to completion: one call is one transition.
    - Calls of [_LOGGER] have no effect that the code can observe and are
      left out. *)

From Stdlib Require Import ZArith List String Ascii Bool Lia.
From Stdlib Require Import Floats.SpecFloat.
From Stdlib Require Floats.PrimFloat Floats.FloatOps.
Import ListNotations.

Local Open Scope string_scope.
Local Open Scope Z_scope.

(** ** The part of the Python runtime that the code relies on *)

Module Py.

(** *** Values decoded from JSON *)

#[warnings="-register-all"]
Inductive value : Type :=
| VNone
| VBool (b : bool)
| VInt (z : Z)
| VFloat (f : spec_float)
| VStr (s : string)
| VList (l : list value)
| VDict (d : list (string * value)).

(** [type(v).__name__] *)
Definition type_name (v : value) : string :=
  match v with
  | VNone => "NoneType"
  | VBool _ => "bool"
  | VInt _ => "int"
  | VFloat _ => "float"
  | VStr _ => "str"
  | VList _ => "list"
  | VDict _ => "dict"
  end.

(** [bool(v)]: the truth value tested by [if v] and [not v]. *)
Definition truthy (v : value) : bool :=
  match v with
  | VNone => false
  | VBool b => b
  | VInt z => negb (z =? 0)
  | VFloat (S754_zero _) => false
  | VFloat _ => true
  | VStr s => negb (s =? "")%string
  | VList l => match l with [] => false | _ => true end
  | VDict d => match d with [] => false | _ => true end
  end.

(** [v == "lit"] against a string literal: only a [str] can be equal. *)
Definition eq_str (v : value) (lit : string) : bool :=
  match v with
  | VStr s => (s =? lit)%string
  | _ => false
  end.

(** *** Exceptions *)

Inductive exn_class : Type :=
| Exception
| ArithmeticError | ZeroDivisionError
| LookupError | IndexError | KeyError
| AttributeError | TypeError
| ValueError | JSONDecodeError
| TimeoutError
| ClientError | ContentTypeError
| HomeAssistantError | UpdateFailed
| InvestingAPIError
| AuthenticationError | TokenExpiredError
| PortfolioError | PortfolioNotFoundError.

Definition exn_class_eqb (c d : exn_class) : bool :=
  match c, d with
  | Exception, Exception
  | ArithmeticError, ArithmeticError
  | ZeroDivisionError, ZeroDivisionError
  | LookupError, LookupError
  | IndexError, IndexError
  | KeyError, KeyError
  | AttributeError, AttributeError
  | TypeError, TypeError
  | ValueError, ValueError
  | JSONDecodeError, JSONDecodeError
  | TimeoutError, TimeoutError
  | ClientError, ClientError
  | ContentTypeError, ContentTypeError
  | HomeAssistantError, HomeAssistantError
  | UpdateFailed, UpdateFailed
  | InvestingAPIError, InvestingAPIError
  | AuthenticationError, AuthenticationError
  | TokenExpiredError, TokenExpiredError
  | PortfolioError, PortfolioError
  | PortfolioNotFoundError, PortfolioNotFoundError => true
  | _, _ => false
  end.

(** The direct base class; [class TokenExpiredError(AuthenticationError)]
    and the like are from api.py, the others from the interpreter, aiohttp
    and Home Assistant. *)
Definition base (c : exn_class) : option exn_class :=
  match c with
  | Exception => None
  | ZeroDivisionError => Some ArithmeticError
  | IndexError | KeyError => Some LookupError
  | JSONDecodeError => Some ValueError
  | ContentTypeError => Some ClientError
  | UpdateFailed => Some HomeAssistantError
  | AuthenticationError | PortfolioError => Some InvestingAPIError
  | TokenExpiredError => Some AuthenticationError
  | PortfolioNotFoundError => Some PortfolioError
  | ArithmeticError | LookupError | AttributeError | TypeError
  | ValueError | TimeoutError | ClientError | HomeAssistantError
  | InvestingAPIError => Some Exception
  end.

Fixpoint subclass_upto (fuel : nat) (c d : exn_class) : bool :=
  exn_class_eqb c d ||
  match fuel with
  | O => false
  | S k => match base c with
           | Some b => subclass_upto k b d
           | None => false
           end
  end.

(** [issubclass(c, d)]; no chain of bases is longer than four. *)
Definition issubclass (c d : exn_class) : bool := subclass_upto 4 c d.

(** One piece of an f-string: literal text, [{v}] or [{v!r}]. *)
Inductive frag : Type :=
| Lit (s : string)
| Str (v : value)
| Repr (v : value).

Definition text := list frag.

Record exn : Type := Exn { exn_cls : exn_class; exn_msg : text }.

(** [isinstance(e, c)], the test of an [except c] clause. *)
Definition isinstance (e : exn) (c : exn_class) : bool :=
  issubclass (exn_cls e) c.

(** *** Computations that return or raise *)

Inductive outcome (A : Type) : Type :=
| Return (a : A)
| Raise (e : exn).
Arguments Return {A} a.
Arguments Raise {A} e.

Definition bind {A B} (m : outcome A) (k : A -> outcome B) : outcome B :=
  match m with
  | Return a => k a
  | Raise e => Raise e
  end.

(** [try: m  except c1, ..: h] *)
Definition try_except {A} (m : outcome A) (cs : list exn_class)
    (h : exn -> outcome A) : outcome A :=
  match m with
  | Return a => Return a
  | Raise e => if existsb (isinstance e) cs then h e else Raise e
  end.

(** *** Methods of [str] *)

(** [c.isspace()] on the ASCII range: TAB, LF, VT, FF, CR, FS, GS, RS, US
    and the space. *)
Definition is_space (c : ascii) : bool :=
  let n := nat_of_ascii c in
  ((9 <=? n) && (n <=? 13) || (28 <=? n) && (n <=? 32))%nat.

Definition is_digit (c : ascii) : bool :=
  let n := nat_of_ascii c in ((48 <=? n) && (n <=? 57))%nat.

Definition digit_value (c : ascii) : Z := Z.of_nat (nat_of_ascii c) - 48.

Fixpoint mem_char (c : ascii) (chars : string) : bool :=
  match chars with
  | EmptyString => false
  | String d rest => Ascii.eqb c d || mem_char c rest
  end.

(** [s.startswith(p)] *)
Definition startswith (s p : string) : bool := String.prefix p s.

(** [s.lstrip(chars)]: drops the longest prefix made of characters of
    [chars]. *)
Fixpoint lstrip_chars (s chars : string) : string :=
  match s with
  | EmptyString => EmptyString
  | String c rest =>
      if mem_char c chars then lstrip_chars rest chars else s
  end.

Fixpoint lstrip (s : string) : string :=
  match s with
  | EmptyString => EmptyString
  | String c rest => if is_space c then lstrip rest else s
  end.

Fixpoint rstrip (s : string) : string :=
  match s with
  | EmptyString => EmptyString
  | String c rest =>
      match rstrip rest with
      | EmptyString => if is_space c then EmptyString else String c EmptyString
      | r => String c r
      end
  end.

(** [s.strip()] *)
Definition strip (s : string) : string := rstrip (lstrip s).

(** [replace_from old new s skip]: the scan of [str.replace] over [s],
    where the next [skip] characters belong to an occurrence of [old] that
    has just been replaced. *)
Fixpoint replace_from (old new s : string) (skip : nat) : string :=
  match s with
  | EmptyString => EmptyString
  | String c rest =>
      match skip with
      | S k => replace_from old new rest k
      | O =>
          if String.prefix old s
          then new ++ replace_from old new rest (String.length old - 1)
          else String c (replace_from old new rest 0)
      end
  end.

Fixpoint intersperse (new s : string) : string :=
  match s with
  | EmptyString => new
  | String c rest => new ++ String c (intersperse new rest)
  end.

(** [s.replace(old, new)]: every occurrence, left to right, without
    overlap; an empty [old] matches between any two characters. *)
Definition replace (s old new : string) : string :=
  match old with
  | EmptyString => intersperse new s
  | _ => replace_from old new s 0
  end.

(** [s.split(sep)] for a separator of one character. *)
Fixpoint split (s : string) (sep : ascii) : list string :=
  match s with
  | EmptyString => [EmptyString]
  | String c rest =>
      if Ascii.eqb c sep then EmptyString :: split rest sep
      else match split rest sep with
           | [] => [String c EmptyString]
           | part :: parts => String c part :: parts
           end
  end.

(** [parts[i]] on a list *)
Definition list_item {A} (l : list A) (i : nat) : outcome A :=
  match nth_error l i with
  | Some a => Return a
  | None => Raise (Exn IndexError [Lit "list index out of range"])
  end.

(** *** [int(s)] on a [str] *)

(** [digitpart ::= digit (["_"] digit)*], read in base ten.  [prev] says
    that the character before was a digit. *)
Fixpoint digitpart (s : string) (acc : Z) (prev : bool) : option Z :=
  match s with
  | EmptyString => if prev then Some acc else None
  | String c rest =>
      if is_digit c then digitpart rest (10 * acc + digit_value c) true
      else if Ascii.eqb c "_" then
        if prev then digitpart rest acc false else None
      else None
  end.

Definition int_literal (s : string) : option Z :=
  match strip s with
  | String "-" rest => option_map Z.opp (digitpart rest 0 false)
  | String "+" rest => digitpart rest 0 false
  | t => digitpart t 0 false
  end.

(** [int(s)]: surrounding whitespace, an optional sign, decimal digits with
    single underscores between them.  The interpreter's optional cap on the
    number of digits ([sys.set_int_max_str_digits]) is taken as off. *)
Definition int_of_str (s : string) : outcome Z :=
  match int_literal s with
  | Some z => Return z
  | None =>
      Raise (Exn ValueError
               [Lit "invalid literal for int() with base 10: "; Repr (VStr s)])
  end.

(** [a % b] on [int] *)
Definition int_mod (a b : Z) : outcome Z :=
  if b =? 0 then Raise (Exn ZeroDivisionError [Lit "integer modulo by zero"])
  else Return (a mod b).

(** *** Methods of [dict] and subscripts *)

Fixpoint lookup (d : list (string * value)) (k : string) : option value :=
  match d with
  | [] => None
  | (k', v) :: rest => if (k' =? k)%string then Some v else lookup rest k
  end.

Definition no_attribute (v : value) (attr : string) : exn :=
  Exn AttributeError
    [Lit "'"; Lit (type_name v); Lit "' object has no attribute '"; Lit attr;
     Lit "'"].

(** [v.get(k, default)]: only a [dict] has the method. *)
Definition get (v : value) (k : string) (default : value) : outcome value :=
  match v with
  | VDict d =>
      Return (match lookup d k with Some x => x | None => default end)
  | _ => Raise (no_attribute v "get")
  end.

(** The number of bytes of the UTF-8 character that starts with [c]. *)
Definition utf8_width (c : ascii) : nat :=
  let n := nat_of_ascii c in
  if (n <? 192)%nat then 1%nat
  else if (n <? 224)%nat then 2%nat
  else if (n <? 240)%nat then 3%nat
  else 4%nat.

(** [v[0]].  The keys of a dict decoded from JSON are strings, so the key
    [0] is never found. *)
Definition item0 (v : value) : outcome value :=
  match v with
  | VList l =>
      match l with
      | x :: _ => Return x
      | [] => Raise (Exn IndexError [Lit "list index out of range"])
      end
  | VDict _ => Raise (Exn KeyError [Repr (VInt 0)])
  | VStr s =>
      match s with
      | String c _ => Return (VStr (String.substring 0 (utf8_width c) s))
      | EmptyString => Raise (Exn IndexError [Lit "string index out of range"])
      end
  | _ =>
      Raise (Exn TypeError
               [Lit "'"; Lit (type_name v); Lit "' object is not subscriptable"])
  end.

(** *** [float(s)] on a [str] *)

(** binary64 *)
Definition prec : Z := 53.
Definition emax : Z := 1024.

Definition float := spec_float.

Definition zero : float := S754_zero false.

(** [-x] *)
Definition neg (x : float) : float := SFopp x.

(** The nearest binary64 to [(-1)^sign * m * 10^e10], ties to even; what
    the interpreter's string-to-double conversion computes for a decimal
    literal of mantissa [m] and decimal exponent [e10]. *)
Definition float_of_decimal (sign : bool) (m e10 : Z) : float :=
  match m with
  | Zpos p =>
      if 0 <=? e10 then
        match Zpos p * 10 ^ e10 with
        | Zpos q => binary_round prec emax sign q 0
        | _ => S754_zero sign
        end
      else
        let '(q, e, l) :=
          SFdiv_core_binary prec emax (Zpos p) 0 (10 ^ (- e10)) 0 in
        binary_round_aux prec emax sign q e l
  | _ => S754_zero sign
  end.

(** Underscores of a numeric literal: allowed only between two digits;
    [prev] is the character before. *)
Fixpoint drop_underscores (s : string) (prev : option ascii) : option string :=
  match s with
  | EmptyString =>
      match prev with
      | Some "_"%char => None
      | _ => Some EmptyString
      end
  | String c rest =>
      if Ascii.eqb c "_" then
        match prev with
        | Some p => if is_digit p then drop_underscores rest (Some c) else None
        | None => None
        end
      else
        match prev with
        | Some "_"%char =>
            if is_digit c
            then option_map (String c) (drop_underscores rest (Some c))
            else None
        | _ => option_map (String c) (drop_underscores rest (Some c))
        end
  end.

(** A maximal run of decimal digits: its value on top of [acc], its length
    on top of [n], and what follows it. *)
Fixpoint scan_digits (s : string) (acc : Z) (n : nat) : Z * nat * string :=
  match s with
  | EmptyString => (acc, n, EmptyString)
  | String c rest =>
      if is_digit c then scan_digits rest (10 * acc + digit_value c) (S n)
      else (acc, n, s)
  end.

Definition scan_sign (s : string) : bool * string :=
  match s with
  | String "-" rest => (true, rest)
  | String "+" rest => (false, rest)
  | _ => (false, s)
  end.

Definition lower (c : ascii) : ascii :=
  let n := nat_of_ascii c in
  if ((65 <=? n) && (n <=? 90))%nat then ascii_of_nat (n + 32) else c.

Fixpoint lowercase (s : string) : string :=
  match s with
  | EmptyString => EmptyString
  | String c rest => String (lower c) (lowercase rest)
  end.

(** [[sign] ("inf" | "infinity" | "nan")], letters in either case. *)
Definition inf_or_nan (s : string) : option float :=
  let '(sign, body) := scan_sign s in
  let body := lowercase body in
  if (body =? "inf")%string || (body =? "infinity")%string
  then Some (S754_infinity sign)
  else if (body =? "nan")%string then Some S754_nan
  else None.

(** [[sign] (digits ["." [digits]] | "." digits) [("e"|"E") [sign] digits]]:
    the sign, the mantissa and the decimal exponent, when the whole of [s]
    is such a literal. *)
Definition decimal_literal (s : string) : option (bool * Z * Z) :=
  let '(sign, s1) := scan_sign s in
  let '(ip, ni, s2) := scan_digits s1 0 0 in
  let '(m, nf, s3) :=
    match s2 with
    | String "." r => scan_digits r ip 0
    | _ => (ip, O, s2)
    end in
  match (ni + nf)%nat with
  | O => None
  | _ =>
      match s3 with
      | EmptyString => Some (sign, m, - Z.of_nat nf)
      | String c r =>
          if Ascii.eqb (lower c) "e" then
            let '(esign, r1) := scan_sign r in
            let '(ev, ne, r2) := scan_digits r1 0 0 in
            match ne, r2 with
            | S _, EmptyString =>
                Some (sign, m, (if esign then - ev else ev) - Z.of_nat nf)
            | _, _ => None
            end
          else None
      end
  end.

Definition float_literal (s : string) : option float :=
  match drop_underscores s None with
  | None => None
  | Some t =>
      let t := strip t in
      match decimal_literal t with
      | Some (sign, m, e10) => Some (float_of_decimal sign m e10)
      | None => inf_or_nan t
      end
  end.

(** [float(s)] *)
Definition float_of_str (s : string) : outcome float :=
  match float_literal s with
  | Some x => Return x
  | None =>
      Raise (Exn ValueError
               [Lit "could not convert string to float: "; Repr (VStr s)])
  end.

(** *** Iteration, membership and subscripts by key *)

(** The characters of a [str], one UTF-8 sequence each. *)
Fixpoint chars_of (fuel : nat) (s : string) : list value :=
  match fuel, s with
  | S k, String c _ =>
      let n := utf8_width c in
      VStr (String.substring 0 n s)
      :: chars_of k (String.substring n (String.length s - n) s)
  | _, _ => []
  end.

(** What [for x in v] walks through: the items of a list, the keys of a
    dict, the characters of a str. *)
Definition iterate (v : value) : outcome (list value) :=
  match v with
  | VList l => Return l
  | VDict d => Return (map (fun kv => VStr (fst kv)) d)
  | VStr s => Return (chars_of (String.length s) s)
  | _ =>
      Raise (Exn TypeError
               [Lit "'"; Lit (type_name v); Lit "' object is not iterable"])
  end.

Fixpoint occurs (p s : string) : bool :=
  String.prefix p s ||
  match s with
  | EmptyString => false
  | String _ rest => occurs p rest
  end.

(** ["lit" in v]: a key of a dict, an item of a list, a piece of a str. *)
Definition contains_str (lit : string) (v : value) : outcome bool :=
  match v with
  | VDict d => Return (match lookup d lit with Some _ => true | None => false end)
  | VList l => Return (existsb (fun x => eq_str x lit) l)
  | VStr s => Return (occurs lit s)
  | _ =>
      Raise (Exn TypeError
               [Lit "argument of type '"; Lit (type_name v);
                Lit "' is not iterable"])
  end.

(** [v["lit"]] *)
Definition item_str (v : value) (lit : string) : outcome value :=
  match v with
  | VDict d =>
      match lookup d lit with
      | Some x => Return x
      | None => Raise (Exn KeyError [Repr (VStr lit)])
      end
  | VList _ =>
      Raise (Exn TypeError [Lit "list indices must be integers or slices, not str"])
  | VStr _ =>
      Raise (Exn TypeError [Lit "string indices must be integers, not 'str'"])
  | _ =>
      Raise (Exn TypeError
               [Lit "'"; Lit (type_name v); Lit "' object is not subscriptable"])
  end.

End Py.

(** ** const.py *)

Module const.

Definition DOMAIN : string := "investing_portfolio".
Definition DEFAULT_X_APP_VER : string := "1408".
Definition DEFAULT_X_META_VER : string := "14".
Definition API_BASE_URL : string := "https://aappapi.investing.com".

Definition DEFAULT_UPDATE_WEEKDAY_INTERVAL : Z := 15.
Definition DEFAULT_UPDATE_WEEKDAY_START : Z := 9.
Definition DEFAULT_UPDATE_WEEKDAY_END : Z := 21.
Definition DEFAULT_UPDATE_NIGHT_TIME : string := "22:05".
Definition DEFAULT_UPDATE_MORNING_TIME : string := "04:00".

Definition ERROR_TOKEN_EXPIRED : string := "1001".
Definition ERROR_INVALID_PORTFOLIO : string := "203".

Definition NOTIFICATION_TITLE : string := "Investing Portfolio".

End const.

(** ** The host: what the code asks of aiohttp and of Home Assistant, and
    what they answer *)

Module hass.

Import Py.

(** [datetime.now()]: the attributes that the code reads. *)
Record datetime : Type := {
  weekday : Z;           (* now.weekday(), 0 = Monday .. 6 = Sunday *)
  hour : Z;              (* now.hour *)
  minute : Z;            (* now.minute *)
  isoformat : string     (* now.isoformat() *)
}.

(** A reading of the wall clock. *)
Definition on_clock (now : datetime) : Prop :=
  0 <= weekday now <= 6 /\ 0 <= hour now <= 23 /\ 0 <= minute now <= 59.

(** The request of one [session.get(url, headers=headers, timeout=30)]: the
    path, the dict that goes JSON-encoded into the [data] parameter of the
    query, the other query parameters, and the headers. *)
Record request : Type := {
  req_path : string;
  req_data : list (string * value);
  req_params : list (string * string);
  req_headers : list (string * string);
  req_timeout : Z
}.

(** How [response.json()] ends. *)
Inductive body : Type :=
| Decoded (v : value)
| WrongContentType (msg : string)   (* aiohttp.ContentTypeError *)
| NotJson (msg : string).           (* json.JSONDecodeError *)

(** How the request ends: no response (the timeout of 30 elapsed, or the
    connection failed), or a response with a status and a body. *)
Inductive reply : Type :=
| TimedOut
| Unreachable (msg : string)        (* aiohttp.ClientError *)
| Response (status : Z) (b : body).

(** What the code does to the outside. *)
Inductive event : Type :=
| HttpGet (r : request)
| PersistentNotification (message title notification_id : text)
| SetUpdatedData (data : value).

(** A method with [self] of type [St]: it returns or raises, leaves [self]
    in a new state either way, and emits events. *)
Definition M (St A : Type) : Type := St -> outcome A * St * list event.

Definition ret {St A} (a : A) : M St A := fun s => (Return a, s, []).

Definition raise {St A} (e : exn) : M St A := fun s => (Raise e, s, []).

Definition bind {St A B} (m : M St A) (k : A -> M St B) : M St B :=
  fun s =>
    match m s with
    | (Return a, s1, ev) =>
        let '(r, s2, ev') := k a s1 in (r, s2, (ev ++ ev')%list)
    | (Raise e, s1, ev) => (Raise e, s1, ev)
    end.

Definition lift {St A} (o : outcome A) : M St A := fun s => (o, s, []).

Definition emit {St} (e : event) : M St unit := fun s => (Return tt, s, [e]).

Definition gets {St A} (f : St -> A) : M St A := fun s => (Return (f s), s, []).

Definition modify {St} (f : St -> St) : M St unit :=
  fun s => (Return tt, f s, []).

(** The first [except] clause of a [try] that names a class of [e]. *)
Fixpoint handler_for {H} (e : exn) (hs : list (list exn_class * H)) : option H :=
  match hs with
  | [] => None
  | (cs, h) :: rest =>
      if existsb (isinstance e) cs then Some h else handler_for e rest
  end.

(** [try: m  except cs1 as err: h1 err  except cs2 as err: h2 err ...] *)
Definition try_ {St A} (m : M St A)
    (hs : list (list exn_class * (exn -> M St A))) : M St A :=
  fun s =>
    match m s with
    | (Return a, s1, ev) => (Return a, s1, ev)
    | (Raise e, s1, ev) =>
        match handler_for e hs with
        | Some h => let '(r, s2, ev') := h e s1 in (r, s2, (ev ++ ev')%list)
        | None => (Raise e, s1, ev)
        end
    end.

(** [async with session.get(...) as response]: the request goes out, and
    the response comes back or the call raises. *)
Definition session_get {St} (r : request) (w : reply) : M St (Z * body) :=
  bind (emit (HttpGet r)) (fun _ =>
  match w with
  | TimedOut => raise (Exn TimeoutError [])
  | Unreachable msg => raise (Exn ClientError [Lit msg])
  | Response status b => ret (status, b)
  end).

(** [await response.json()] *)
Definition response_json {St} (b : body) : M St value :=
  match b with
  | Decoded v => ret v
  | WrongContentType msg => raise (Exn ContentTypeError [Lit msg])
  | NotJson msg => raise (Exn JSONDecodeError [Lit msg])
  end.

(** [persistent_notification.async_create(hass, message, title=...,
    notification_id=...)] *)
Definition async_create {St} (message title notification_id : text) : M St unit :=
  emit (PersistentNotification message title notification_id).

(** [DataUpdateCoordinator.async_set_updated_data(data)]: hands [data] to
    the listeners. *)
Definition async_set_updated_data {St} (data : value) : M St unit :=
  emit (SetUpdatedData data).

End hass.

Declare Scope py_scope.
Delimit Scope py_scope with py.
Notation "x <- m ;; k" := (hass.bind m (fun x => k))
  (at level 61, m at next level, right associativity) : py_scope.
Notation "m ;; k" := (hass.bind m (fun _ => k))
  (at level 61, right associativity) : py_scope.

(** ** api.py *)

Module api.

Import Py hass.
Local Open Scope py_scope.

(** [c.isalnum()] on the ASCII range. *)
Definition is_alnum (c : ascii) : bool :=
  let n := nat_of_ascii c in
  is_digit c || ((65 <=? n) && (n <=? 90) || (97 <=? n) && (n <=? 122))%nat.

Fixpoint keep_identifier_chars (s : string) : string :=
  match s with
  | EmptyString => EmptyString
  | String c rest =>
      if is_alnum c || Ascii.eqb c "_"
      then String c (keep_identifier_chars rest)
      else keep_identifier_chars rest
  end.

(** [normalize_portfolio_name] on an ASCII name (on which the NFD
    decomposition and the removal of the accents change nothing): lowercase,
    spaces to underscores, then only letters, digits and underscores. *)
Definition normalize_portfolio_name (name : string) : string :=
  let result := replace (lowercase name) " " "_" in
  keep_identifier_chars result.

Definition USER_AGENT : string :=
  "Dalvik/2.1.0 (Linux; U; Android 10; Pixel 3 Build/QQ1D.200105.002)".

(** The request of [get_portfolio_summary]: [query_data], [query_params]
    and [headers] of the source. *)
Definition summary_request (portfolio_id : Z) (x_token x_udid : string) : request :=
  {| req_path := const.API_BASE_URL ++ "/portfolio_api.php";
     req_data :=
       [("action", VStr "get_portfolio_positions");
        ("bring_sums", VBool false);
        ("include_pair_attr", VBool false);
        ("pair_id", VInt 0);
        ("portfolioid", VInt portfolio_id);
        ("positionType", VStr "summary")];
     req_params := [("lang_ID", "4"); ("time_utc_offset", "3600"); ("skinID", "2")];
     req_headers :=
       [("x-udid", x_udid);
        ("x-token", x_token);
        ("x-app-ver", const.DEFAULT_X_APP_VER);
        ("x-meta-ver", const.DEFAULT_X_META_VER);
        ("User-Agent", USER_AGENT)];
     req_timeout := 30 |}.

(** [InvestingAPI.get_portfolio_summary]; [w] is what the network answers
    to the one request it sends. *)
Definition get_portfolio_summary {St} (portfolio_id : Z) (x_token x_udid : string)
    (w : reply) : M St value :=
  response <- session_get (summary_request portfolio_id x_token x_udid) w ;;
  let '(status, b) := response in
  (if negb (status =? 200)
   then raise (Exn PortfolioError [Lit "HTTP error "; Str (VInt status)])
   else ret tt) ;;
  result <- response_json b ;;
  (* Check for system errors *)
  system <- lift (get result "system" (VDict [])) ;;
  system_status <- lift (get system "status" VNone) ;;
  if eq_str system_status "failed" then
    error_code <- lift (get system "message_error_code" (VStr "unknown")) ;;
    if eq_str error_code "1001" then
      raise (Exn TokenExpiredError [Lit "Token expired or invalid"])
    else if eq_str error_code "203" then
      raise (Exn PortfolioNotFoundError
               [Lit "Portfolio "; Str (VInt portfolio_id); Lit " not found"])
    else
      raise (Exn PortfolioError [Lit "API error: "; Str error_code])
  else
  (* Parse logic *)
  try_ (
    data_list <- lift (get result "data" (VList [])) ;;
    if negb (truthy data_list) then
      raise (Exn PortfolioError [Lit "No data in response"])
    else
    first <- lift (item0 data_list) ;;
    summary <- lift (get first "screen_data" (VDict [])) ;;
    if negb (truthy summary) then
      raise (Exn PortfolioError [Lit "Missing expected screen_data"])
    else
    market_value <- lift (get summary "MarketValue" (VStr "0")) ;;
    open_pl <- lift (get summary "OpenPL" (VStr "0")) ;;
    open_pl_perc <- lift (get summary "OpenPLPerc" (VStr "0")) ;;
    daily_pl <- lift (get summary "DailyPL" (VStr "0")) ;;
    daily_pl_perc <- lift (get summary "DailyPLPerc" (VStr "0")) ;;
    ret (VDict [("market_value", market_value);
                ("open_pl", open_pl);
                ("open_pl_perc", open_pl_perc);
                ("daily_pl", daily_pl);
                ("daily_pl_perc", daily_pl_perc);
                ("raw_data", summary)]))
  [([KeyError; IndexError],
    fun err =>
      raise (Exn PortfolioError
               (Lit "Error parsing summary response: " :: exn_msg err)))].

End api.

Notation "'let*' x := m 'in' k" := (Py.bind m (fun x => k))
  (at level 10, x pattern, m at level 100, k at level 200) : py_scope.

(** ** coordinator.py *)

Module coordinator.

Import Py hass.
Local Open Scope py_scope.

(** [parse_european_number(value)].  The annotation says [str]; the caller
    passes whatever the JSON holds, so the argument is any value: a falsy
    one gives 0.0 at the first test, and a truthy one that is not a [str]
    has no [replace]. *)
Definition parse_european_number (value : Py.value) : outcome float :=
  if negb (truthy value) then Return zero else
  match value with
  | VStr value =>
      (* Remove currency symbols, percentage signs, and spaces *)
      let cleaned :=
        strip (replace (replace (replace value "%" "") "€" "") " " "") in
      (* Handle positive/negative signs *)
      let is_negative := startswith cleaned "-" in
      let cleaned := lstrip_chars cleaned "+-" in
      (* Convert European format: remove dots, replace comma with dot *)
      let cleaned := replace (replace cleaned "." "") "," "." in
      try_except
        (let* result := float_of_str cleaned in
         Return (if is_negative then neg result else result))
        [ValueError]
        (fun _ => Return zero)
  | _ => Raise (no_attribute value "replace")
  end.

(** [parse_time(time_str)] *)
Definition parse_time (time_str : string) : outcome (Z * Z) :=
  let parts := split time_str ":" in
  let* part0 := list_item parts 0 in
  let* h := int_of_str part0 in
  let* part1 := list_item parts 1 in
  let* m := int_of_str part1 in
  Return (h, m).

(** The attributes of an [InvestingDataCoordinator]. *)
Record coordinator : Type := {
  x_token : string;
  x_udid : string;
  portfolio_id : Z;
  portfolio_name : string;
  normalized_name : string;
  _last_successful_data : value;      (* a dict, or None *)
  _last_update_minute : Z;
  _error_notified : bool;
  update_weekday_interval : Z;
  update_weekday_start : Z;
  update_weekday_end : Z;
  update_night_time : string;
  update_morning_time : string
}.

Definition set_last_successful_data (v : value) (self : coordinator) : coordinator :=
  {| x_token := x_token self;
     x_udid := x_udid self;
     portfolio_id := portfolio_id self;
     portfolio_name := portfolio_name self;
     normalized_name := normalized_name self;
     _last_successful_data := v;
     _last_update_minute := _last_update_minute self;
     _error_notified := _error_notified self;
     update_weekday_interval := update_weekday_interval self;
     update_weekday_start := update_weekday_start self;
     update_weekday_end := update_weekday_end self;
     update_night_time := update_night_time self;
     update_morning_time := update_morning_time self |}.

Definition set_last_update_minute (n : Z) (self : coordinator) : coordinator :=
  {| x_token := x_token self;
     x_udid := x_udid self;
     portfolio_id := portfolio_id self;
     portfolio_name := portfolio_name self;
     normalized_name := normalized_name self;
     _last_successful_data := _last_successful_data self;
     _last_update_minute := n;
     _error_notified := _error_notified self;
     update_weekday_interval := update_weekday_interval self;
     update_weekday_start := update_weekday_start self;
     update_weekday_end := update_weekday_end self;
     update_night_time := update_night_time self;
     update_morning_time := update_morning_time self |}.

Definition set_error_notified (b : bool) (self : coordinator) : coordinator :=
  {| x_token := x_token self;
     x_udid := x_udid self;
     portfolio_id := portfolio_id self;
     portfolio_name := portfolio_name self;
     normalized_name := normalized_name self;
     _last_successful_data := _last_successful_data self;
     _last_update_minute := _last_update_minute self;
     _error_notified := b;
     update_weekday_interval := update_weekday_interval self;
     update_weekday_start := update_weekday_start self;
     update_weekday_end := update_weekday_end self;
     update_night_time := update_night_time self;
     update_morning_time := update_morning_time self |}.

(** The [options] dict of a config entry, as the options flow fills it: an
    integer or a string under each key that is present. *)
Record options : Type := {
  opt_update_weekday_interval : option Z;
  opt_update_weekday_start : option Z;
  opt_update_weekday_end : option Z;
  opt_update_night_time : option string;
  opt_update_morning_time : option string
}.

Definition no_options : options :=
  {| opt_update_weekday_interval := None;
     opt_update_weekday_start := None;
     opt_update_weekday_end := None;
     opt_update_night_time := None;
     opt_update_morning_time := None |}.

(** [options.get(key, default)] *)
Definition options_get {A} (entry : option A) (default : A) : A :=
  match entry with
  | Some v => v
  | None => default
  end.

(** [InvestingDataCoordinator.__init__] *)
Definition __init__ (x_token x_udid : string) (portfolio_id : Z)
    (portfolio_name : string) (options : option options) : coordinator :=
  let options := match options with Some o => o | None => no_options end in
  {| x_token := x_token;
     x_udid := x_udid;
     portfolio_id := portfolio_id;
     portfolio_name := portfolio_name;
     normalized_name := api.normalize_portfolio_name portfolio_name;
     _last_successful_data := VNone;
     _last_update_minute := -1;
     _error_notified := false;
     update_weekday_interval :=
       options_get (opt_update_weekday_interval options)
         const.DEFAULT_UPDATE_WEEKDAY_INTERVAL;
     update_weekday_start :=
       options_get (opt_update_weekday_start options)
         const.DEFAULT_UPDATE_WEEKDAY_START;
     update_weekday_end :=
       options_get (opt_update_weekday_end options)
         const.DEFAULT_UPDATE_WEEKDAY_END;
     update_night_time :=
       options_get (opt_update_night_time options)
         const.DEFAULT_UPDATE_NIGHT_TIME;
     update_morning_time :=
       options_get (opt_update_morning_time options)
         const.DEFAULT_UPDATE_MORNING_TIME |}.

(** [should_update_now]; [now] is what [datetime.now()] returns in it. *)
Definition should_update_now (self : coordinator) (now : datetime)
    : outcome (bool * Z) :=
  let weekday := weekday now in
  let hour := hour now in
  let minute := minute now in
  (* Parse configurable times *)
  let* (morning_hour, morning_minute) := parse_time (update_morning_time self) in
  let* (night_hour, night_minute) := parse_time (update_night_time self) in
  (* Check morning update (daily) *)
  if (hour =? morning_hour) && (minute =? morning_minute) then Return (true, 60)
  else
  (* Check night update (daily) *)
  if (hour =? night_hour) && (minute =? night_minute) then Return (true, 60)
  else
  (* Check weekday trading hours *)
  let* in_interval :=
    if weekday <? 5 then
      if (update_weekday_start self <=? hour) && (hour <? update_weekday_end self)
      then
        let* r := int_mod minute (update_weekday_interval self) in
        Return (r =? 0)
      else Return false
    else Return false in
  if in_interval then Return (true, 60)
  else
  let next_check := 60 in
  Return (false, next_check).

(** [_notify_error] *)
Definition _notify_error (message : text) : M coordinator unit :=
  self <- gets id ;;
  async_create message
    [Lit const.NOTIFICATION_TITLE; Lit " - "; Lit (portfolio_name self)]
    [Lit const.DOMAIN; Lit "_"; Lit (normalized_name self); Lit "_error"].

(** [_fetch_data]; [w] is the answer of the network to the request of the
    API client, [stamp] what [datetime.now()] returns for the timestamp. *)
Definition _fetch_data (w : reply) (stamp : datetime) : M coordinator value :=
  self <- gets id ;;
  summary <-
    try_ (api.get_portfolio_summary (portfolio_id self) (x_token self) (x_udid self) w)
      [([TokenExpiredError],
        fun err =>
          let error_message :=
            ([Lit "❌ Authentication token expired or invalid for '";
             Lit (portfolio_name self); Lit "'. ";
             Lit "Please delete the integration entry and re-configure it with your credentials. ";
             Lit "Error: "] ++ exn_msg err)%list in
          notified <- gets _error_notified ;;
          (if negb notified then
             _notify_error error_message ;;
             modify (set_error_notified true)
           else ret tt) ;;
          raise (Exn UpdateFailed error_message));
       ([PortfolioNotFoundError],
        fun err =>
          let error_message :=
            ([Lit "❌ Invalid portfolio ID for '"; Lit (portfolio_name self);
              Lit "'. "; Lit "Error: "] ++ exn_msg err)%list in
          raise (Exn UpdateFailed error_message));
       ([PortfolioError],
        fun err =>
          let error_message :=
            ([Lit "API error for '"; Lit (portfolio_name self); Lit "': "]
             ++ exn_msg err)%list in
          raise (Exn UpdateFailed error_message));
       ([Exception],
        fun err =>
          let error_message :=
            ([Lit "Unexpected error fetching data for '";
              Lit (portfolio_name self); Lit "': "] ++ exn_msg err)%list in
          raise (Exn UpdateFailed error_message))] ;;
  (* Reset error notification flag on success *)
  modify (set_error_notified false) ;;
  (* Parse the response *)
  try_ (
    v1 <- lift (get summary "market_value" (VStr "0")) ;;
    market_value <- lift (parse_european_number v1) ;;
    v2 <- lift (get summary "open_pl" (VStr "0")) ;;
    open_pl <- lift (parse_european_number v2) ;;
    v3 <- lift (get summary "open_pl_perc" (VStr "0")) ;;
    open_pl_perc <- lift (parse_european_number v3) ;;
    v4 <- lift (get summary "daily_pl" (VStr "0")) ;;
    daily_pl <- lift (parse_european_number v4) ;;
    v5 <- lift (get summary "daily_pl_perc" (VStr "0")) ;;
    daily_pl_perc <- lift (parse_european_number v5) ;;
    raw_data <- lift (get summary "raw_data" VNone) ;;
    let parsed_data :=
      VDict [("portfolio_name", VStr (portfolio_name self));
             ("market_value", VFloat market_value);
             ("open_pl", VFloat open_pl);
             ("open_pl_perc", VFloat open_pl_perc);
             ("daily_pl", VFloat daily_pl);
             ("daily_pl_perc", VFloat daily_pl_perc);
             ("timestamp", VStr (isoformat stamp));
             ("raw_data", raw_data)] in
    modify (set_last_successful_data parsed_data) ;;
    ret parsed_data)
  [([KeyError; IndexError],
    fun err =>
      raise (Exn UpdateFailed (Lit "Error parsing API response: " :: exn_msg err)))].

(** What one tick reads from outside, in the order of the reads: the clock
    in [_async_update_data], the clock in [should_update_now], the answer of
    the network, and the clock for the timestamp. *)
Record tick : Type := {
  now : datetime;
  now_schedule : datetime;
  answer : reply;
  now_stamp : datetime
}.

(** [_async_update_data] *)
Definition _async_update_data (t : tick) : M coordinator value :=
  let current_minute := hour (now t) * 60 + minute (now t) in
  (* Check if we should update based on cron schedule *)
  self <- gets id ;;
  r <- lift (should_update_now self (now_schedule t)) ;;
  let '(should_update, _) := r in
  let fetch :=
    modify (set_last_update_minute current_minute) ;;
    _fetch_data (answer t) (now_stamp t) in
  (* Avoid duplicate updates in the same minute *)
  last_update_minute <- gets _last_update_minute ;;
  if current_minute =? last_update_minute then
    data <- gets _last_successful_data ;;
    if truthy data then ret data
    else raise (Exn UpdateFailed [Lit "Waiting for scheduled update"])
  else
  if negb should_update then
    (* Return cached data if available *)
    data <- gets _last_successful_data ;;
    if truthy data then ret data
    else (* First run - fetch initial data *) fetch
  else fetch.

(** [async_force_refresh] *)
Definition async_force_refresh (w : reply) (stamp : datetime) : M coordinator unit :=
  modify (set_last_update_minute (-1)) ;;
  _fetch_data w stamp ;;
  data <- gets _last_successful_data ;;
  async_set_updated_data data.

End coordinator.

(** ** Vocabulary of the properties *)

Module props.

Import Py hass coordinator.

(** The three parts of a run of a method. *)
Definition result_of {St A} (r : outcome A * St * list event) : outcome A :=
  fst (fst r).
Definition state_of {St A} (r : outcome A * St * list event) : St :=
  snd (fst r).
Definition events_of {St A} (r : outcome A * St * list event) : list event :=
  snd r.

(** [now.hour * 60 + now.minute] *)
Definition minute_of_day (now : datetime) : Z := hour now * 60 + minute now.

Definition is_http_get (e : event) : bool :=
  match e with
  | HttpGet _ => true
  | _ => false
  end.

Definition is_notification (e : event) : bool :=
  match e with
  | PersistentNotification _ _ _ => true
  | _ => false
  end.

(** The number of network calls, and of user notifications, among events. *)
Definition network_calls (ev : list event) : nat :=
  List.length (filter is_http_get ev).
Definition notifications (ev : list event) : nat :=
  List.length (filter is_notification ev).

Definition raises {A} (r : outcome A) (c : exn_class) : Prop :=
  exists msg, r = Raise (Exn c msg).

(** *** Time strings *)

Fixpoint all_digits (s : string) : bool :=
  match s with
  | EmptyString => true
  | String c rest => is_digit c && all_digits rest
  end.

(** A decimal-integer numeral: one or more decimal digits. *)
Definition numeral (s : string) : bool :=
  negb (s =? "")%string && all_digits s.

Fixpoint decimal (s : string) (acc : Z) : Z :=
  match s with
  | EmptyString => acc
  | String c rest => decimal rest (10 * acc + digit_value c)
  end.

(** The integer that a numeral denotes. *)
Definition numeral_value (s : string) : Z := decimal s 0.



(** The schedule options within the ranges that the options flow accepts;
    the two time strings are free text there. *)
Definition in_range (self : coordinator) : Prop :=
  1 <= update_weekday_interval self <= 60 /\
  0 <= update_weekday_start self <= 23 /\
  0 <= update_weekday_end self <= 23.

(** *** The locale number parser in the words of the specification *)

Fixpoint delete_char (c : ascii) (s : string) : string :=
  match s with
  | EmptyString => EmptyString
  | String a rest =>
      if Ascii.eqb a c then delete_char c rest else String a (delete_char c rest)
  end.

Fixpoint subst_char (c d : ascii) (s : string) : string :=
  match s with
  | EmptyString => EmptyString
  | String a rest =>
      String (if Ascii.eqb a c then d else a) (subst_char c d rest)
  end.

(** The text that is parsed as a float: whitespace, currency glyphs and
    percent signs stripped, the leading sign removed, every ['.'] stripped
    and every [','] replaced with ['.']. *)
Definition locale_digits (s : string) : string :=
  let t := strip (delete_char " " (replace (delete_char "%" s) "€" "")) in
  subst_char "," "." (delete_char "." (lstrip_chars t "+-")).

(** The captured sign: the text starts, once stripped, with a minus. *)
Definition locale_negative (s : string) : bool :=
  match strip (delete_char " " (replace (delete_char "%" s) "€" "")) with
  | String "-" _ => true
  | _ => false
  end.

Definition parse_locale_number_spec (s : string) : float :=
  match float_literal (locale_digits s) with
  | Some x => if locale_negative s then neg x else x
  | None => zero
  end.

(** *** The API client *)

(** What [get_portfolio_summary] returns or raises for the portfolio
    [portfolio_id] on the answer [w]; the credentials only go into the
    request. *)
Definition summary_outcome (portfolio_id : Z) (w : reply) : outcome value :=
  result_of (api.get_portfolio_summary portfolio_id "" "" w tt).

(** [v[k]] when [v] is a dict with the key [k]. *)
Definition member (v : value) (k : string) : option value :=
  match v with
  | VDict d => lookup d k
  | _ => None
  end.

(** The decoded body is an object whose ["system"], if present, is an
    object. *)
Definition envelope_shaped (body : value) : bool :=
  match body with
  | VDict d =>
      match lookup d "system" with
      | None | Some (VDict _) => true
      | Some _ => false
      end
  | _ => false
  end.

(** The error code of an upstream failure envelope: [system.status] is
    ["failed"]; the code is [system.message_error_code], ["unknown"] when
    there is none. *)
Definition upstream_failure (body : value) : option value :=
  match member body "system" with
  | Some system =>
      match member system "status" with
      | Some st =>
          if eq_str st "failed" then
            Some (match member system "message_error_code" with
                  | Some code => code
                  | None => VStr "unknown"
                  end)
          else None
      | None => None
      end
  | None => None
  end.

(** Where [data[0].screen_data] stands in a body: found as a non-empty
    object; absent (a key or the first element is missing, or what is there
    is empty); or of a type that has no such member. *)
Inductive located : Type :=
| Found (summary : value)
| Absent
| Mistyped.

Definition locate_summary (body : value) : located :=
  match member body "data" with
  | None => Absent
  | Some data =>
      if truthy data then
        match data with
        | VList (VDict first :: _) =>
            match lookup first "screen_data" with
            | None => Absent
            | Some summary =>
                if truthy summary then
                  match summary with
                  | VDict _ => Found summary
                  | _ => Mistyped
                  end
                else Absent
            end
        | VDict _ => Absent
        | _ => Mistyped
        end
      else Absent
  end.

Definition field (summary : value) (k : string) : value :=
  match member summary k with
  | Some v => v
  | None => VStr "0"
  end.

(** The dict that the operation returns for a summary. *)
Definition summary_dict (summary : value) : value :=
  VDict [("market_value", field summary "MarketValue");
         ("open_pl", field summary "OpenPL");
         ("open_pl_perc", field summary "OpenPLPerc");
         ("daily_pl", field summary "DailyPL");
         ("daily_pl_perc", field summary "DailyPLPerc");
         ("raw_data", summary)].

Definition parsed_as (l : located) (r : outcome value) : Prop :=
  match l with
  | Found summary => r = Return (summary_dict summary)
  | Absent => raises r PortfolioError
  | Mistyped => raises r AttributeError \/ raises r TypeError
  end.

(** The outcome on a body that came with status 200. *)
Definition classified_as (pid : Z) (body : value) (r : outcome value) : Prop :=
  match upstream_failure body with
  | Some code =>
      if eq_str code "1001" then
        r = Raise (Exn TokenExpiredError [Lit "Token expired or invalid"])
      else if eq_str code "203" then
        r = Raise (Exn PortfolioNotFoundError
                     [Lit "Portfolio "; Str (VInt pid); Lit " not found"])
      else r = Raise (Exn PortfolioError [Lit "API error: "; Str code])
  | None => parsed_as (locate_summary body) r
  end.


(** *** Fetch cycles *)

(** The request that a cycle of [self] sends. *)
Definition request_of (self : coordinator) : event :=
  HttpGet (api.summary_request (portfolio_id self) (x_token self) (x_udid self)).

(** What the API call of a cycle of [self] does on the answer [w]. *)
Definition api_outcome (self : coordinator) (w : reply) : outcome value :=
  summary_outcome (portfolio_id self) w.

(** The attributes that no method assigns after [__init__]. *)
Definition settings (self : coordinator) :=
  (x_token self, x_udid self, portfolio_id self, portfolio_name self,
   normalized_name self,
   (update_weekday_interval self, update_weekday_start self,
    update_weekday_end self, update_night_time self, update_morning_time self)).

(** A cycle by what its API call does: it returns, it fails with
    [TokenExpiredError], or it fails with anything else. *)
Inductive cycle_kind : Type :=
| ApiReturned
| Expired
| OtherFailure.

Definition kind_of (self : coordinator) (w : reply) : cycle_kind :=
  match api_outcome self w with
  | Return _ => ApiReturned
  | Raise err =>
      if isinstance err TokenExpiredError then Expired else OtherFailure
  end.

Definition is_expired (k : cycle_kind) : bool :=
  match k with
  | Expired => true
  | _ => false
  end.

Definition is_api_returned (k : cycle_kind) : bool :=
  match k with
  | ApiReturned => true
  | _ => false
  end.

Definition kinds (self : coordinator) (cycles : list (reply * datetime))
    : list cycle_kind :=
  map (fun c => kind_of self (fst c)) cycles.

(** A run of fetch cycles: the events of each cycle, and the final state. *)
Fixpoint run_cycles (cycles : list (reply * datetime)) (self : coordinator)
    : list (list event) * coordinator :=
  match cycles with
  | [] => ([], self)
  | (w, stamp) :: rest =>
      let r := _fetch_data w stamp self in
      let '(evs, final) := run_cycles rest (state_of r) in
      (events_of r :: evs, final)
  end.

(** Which cycles notify, in the words of the specification: a streak is a
    contiguous run of failures of one class, and the first token-expired
    failure of a streak notifies.  [prev] says that the cycle before failed
    with [TokenExpiredError]. *)
Fixpoint first_of_each_expired_run (prev : bool) (ks : list cycle_kind)
    : list bool :=
  match ks with
  | [] => []
  | k :: rest =>
      (is_expired k && negb prev) :: first_of_each_expired_run (is_expired k) rest
  end.

Definition once_per_identical_class_streak : Prop :=
  forall self cycles,
    _error_notified self = false ->
    map notifications (fst (run_cycles cycles self))
    = map Nat.b2n (first_of_each_expired_run false (kinds self cycles)).

(** Which cycles notify, as the flag [_error_notified] decides: a
    token-expired failure notifies unless [flag] is set, and sets it; a
    cycle whose API call returns clears it; any other failure leaves it. *)
Fixpoint first_since_success (flag : bool) (ks : list cycle_kind) : list bool :=
  match ks with
  | [] => []
  | Expired :: rest => negb flag :: first_since_success true rest
  | ApiReturned :: rest => false :: first_since_success false rest
  | OtherFailure :: rest => false :: first_since_success flag rest
  end.

(** What a tick raises while it waits for the schedule. *)
Definition waiting : exn :=
  Exn UpdateFailed [Lit "Waiting for scheduled update"].

(** The number of true entries. *)
Definition count_true (l : list bool) : nat := List.length (filter id l).

End props.

(** ** Concrete inputs *)

Module sample.

Import Py hass coordinator.

(** A coordinator as [async_setup_entry] builds it, without options. *)
Definition fresh : coordinator := __init__ "token" "udid" 42 "My Portfolio" None.

Definition at_time (wd h m : Z) : datetime :=
  {| weekday := wd; hour := h; minute := m; isoformat := "2024-01-03T10:15:00" |}.

(** Bodies of the upstream: a summary, and the failure envelopes. *)
Definition summary_body : value :=
  VDict [("data",
          VList [VDict [("screen_data",
                         VDict [("MarketValue", VStr "240.937,98");
                                ("OpenPL", VStr "+70.864,27");
                                ("OpenPLPerc", VStr "41,71%");
                                ("DailyPL", VStr "-1.615,47");
                                ("DailyPLPerc", VStr "-0,67%")])]])].

Definition failed_body (code : string) : value :=
  VDict [("system",
          VDict [("status", VStr "failed"); ("message_error_code", VStr code)])].

Definition ok : reply := Response 200 (Decoded summary_body).
Definition created : reply := Response 201 (Decoded summary_body).
Definition token_expired : reply := Response 200 (Decoded (failed_body "1001")).
Definition not_found : reply := Response 200 (Decoded (failed_body "203")).

(** The snapshot that [ok] yields for [fresh], stamped by [at_time]. *)
Definition snapshot : value :=
  VDict [("portfolio_name", VStr "My Portfolio");
         ("market_value", VFloat (float_of_decimal false 24093798 (-2)));
         ("open_pl", VFloat (float_of_decimal false 7086427 (-2)));
         ("open_pl_perc", VFloat (float_of_decimal false 4171 (-2)));
         ("daily_pl", VFloat (float_of_decimal true 161547 (-2)));
         ("daily_pl_perc", VFloat (float_of_decimal true 67 (-2)));
         ("timestamp", VStr "2024-01-03T10:15:00");
         ("raw_data",
          VDict [("MarketValue", VStr "240.937,98");
                 ("OpenPL", VStr "+70.864,27");
                 ("OpenPLPerc", VStr "41,71%");
                 ("DailyPL", VStr "-1.615,47");
                 ("DailyPLPerc", VStr "-0,67%")])].

(** A coordinator whose weekday window starts after it ends. *)
Definition inverted : coordinator :=
  __init__ "token" "udid" 42 "My Portfolio"
    (Some {| opt_update_weekday_interval := Some 15;
             opt_update_weekday_start := Some 18;
             opt_update_weekday_end := Some 9;
             opt_update_night_time := None;
             opt_update_morning_time := None |}).

(** A coordinator that has fetched once, at minute 615 of the day. *)
Definition warm : coordinator :=
  set_last_update_minute 615 (set_last_successful_data snapshot fresh).

(** Three cycles: token expired, portfolio not found, token expired. *)
Definition interrupted_streak : list (reply * datetime) :=
  [(token_expired, at_time 2 10 15);
   (not_found, at_time 2 10 16);
   (token_expired, at_time 2 10 17)].

Definition tick_at (wd h m : Z) (w : reply) : tick :=
  {| now := at_time wd h m;
     now_schedule := at_time wd h m;
     answer := w;
     now_stamp := at_time wd h m |}.

End sample.

(** ** api.py: the operations of the config flow *)

Module onboarding.

Import Py hass.
Local Open Scope py_scope.

(** One call of the session: the method, the path, the query parameters
    (the value under ["data"] goes out JSON-encoded), the headers, the form
    fields of the body, and the timeout. *)
Record http_call : Type := {
  call_method : string;
  call_path : string;
  call_data : value;
  call_params : list (string * string);
  call_headers : list (string * string);
  call_form : list (string * string);
  call_timeout : Z
}.

(** The response of the call, or what the call raises. *)
Definition response_of (w : reply) : outcome (Z * body) :=
  match w with
  | TimedOut => Raise (Exn TimeoutError [])
  | Unreachable msg => Raise (Exn ClientError [Lit msg])
  | Response status b => Return (status, b)
  end.

(** [await response.json()] *)
Definition json_of (b : body) : outcome value :=
  match b with
  | Decoded v => Return v
  | WrongContentType msg => Raise (Exn ContentTypeError [Lit msg])
  | NotJson msg => Raise (Exn JSONDecodeError [Lit msg])
  end.

Definition DEFAULT_INTERNAL_VERSION : string := "1293".

(** The call of [login]; [password_hash] is
    [hashlib.md5(password.encode()).hexdigest()]. *)
Definition login_call (email password_hash x_udid : string) : http_call :=
  {| call_method := "POST";
     call_path := const.API_BASE_URL ++ "/login_api.php";
     call_data := VDict [("action", VStr "login")];
     call_params := [("time_utc_offset", "3600"); ("skinID", "2"); ("lang_ID", "4")];
     call_headers :=
       [("x-udid", x_udid);
        ("x-app-ver", const.DEFAULT_X_APP_VER);
        ("x-meta-ver", const.DEFAULT_X_META_VER);
        ("Content-Type", "application/x-www-form-urlencoded");
        ("User-Agent", api.USER_AGENT)];
     call_form :=
       [("internal_version", DEFAULT_INTERNAL_VERSION);
        ("reg_initiator", "Side Menu Sign In");
        ("email", email);
        ("smssupport", "1");
        ("password", password_hash);
        ("reg_source", "android")];
     call_timeout := 30 |}.

(** [InvestingAPI.login]: the call it makes and, on the answer [w], what it
    returns or raises.  [md5_hexdigest] is the digest of the standard
    library. *)
Definition login (md5_hexdigest : string -> string)
    (email password x_udid : string) (w : reply) : http_call * outcome value :=
  (* Hash password with MD5 *)
  let password_hash := md5_hexdigest password in
  (login_call email password_hash x_udid,
   let* response := response_of w in
   let (status, b) := response in
   let* _ :=
     if negb (status =? 200)
     then Raise (Exn AuthenticationError [Lit "HTTP error "; Str (VInt status)])
     else Return tt in
   let* result := json_of b in
   (* Check for errors in response *)
   let* system := get result "system" (VDict []) in
   let* system_status := get system "status" VNone in
   let* _ :=
     if eq_str system_status "error" then
       let* messages := get system "messages" (VDict []) in
       let* error_msg := get messages "display_message" (VStr "Unknown error") in
       Raise (Exn AuthenticationError [Str error_msg])
     else Return tt in
   (* Extract user data *)
   let* data := get result "data" (VDict []) in
   let* has_errors := contains_str "errors" data in
   let* _ :=
     if has_errors then
       let* errors := item_str data "errors" in
       let* error :=
         if truthy errors then
           let* errors' := item_str data "errors" in item0 errors'
         else Return (VDict []) in
       let* field_error := get error "fieldError" (VStr "Login failed") in
       Raise (Exn AuthenticationError [Str field_error])
     else Return tt in
   let* has_token := contains_str "token" data in
   let* _ :=
     if negb has_token
     then Raise (Exn AuthenticationError [Lit "No token in response"])
     else Return tt in
   (* the argument of [_LOGGER.info(.., data.get("user_email"))] *)
   let* _ := get data "user_email" VNone in
   let* token := item_str data "token" in
   let* user_id := get data "user_ID" VNone in
   let* user_email := get data "user_email" VNone in
   let* user_firstname := get data "user_firstname" VNone in
   let* user_lastname := get data "user_lastname" VNone in
   Return (VDict [("token", token);
                  ("user_id", user_id);
                  ("user_email", user_email);
                  ("user_firstname", user_firstname);
                  ("user_lastname", user_lastname)])).

(** The call of [get_portfolios]. *)
Definition portfolios_call (x_token x_udid : string) : http_call :=
  {| call_method := "GET";
     call_path := const.API_BASE_URL ++ "/portfolio_api.php";
     call_data :=
       VList [VDict [("action", VStr "get_all_portfolios_new");
                     ("bring_sums", VBool false);
                     ("include_pair_attr", VBool false);
                     ("include_pairs", VBool true)]];
     call_params := [("time_utc_offset", "3600"); ("skinID", "2"); ("lang_ID", "4")];
     call_headers :=
       [("User-Agent", api.USER_AGENT);
        ("Accept", "application/json");
        ("x-token", x_token);
        ("x-udid", x_udid);
        ("x-app-ver", const.DEFAULT_X_APP_VER);
        ("x-meta-ver", const.DEFAULT_X_META_VER);
        ("Accept-Encoding", "gzip")];
     call_form := [];
     call_timeout := 30 |}.

(** [[p for p in portfolios if p.get("portfolioType") == "position"]] on the
    items that the iteration yields. *)
Fixpoint keep_positions (items : list value) : outcome (list value) :=
  match items with
  | [] => Return []
  | p :: rest =>
      let* portfolio_type := get p "portfolioType" VNone in
      let* kept := keep_positions rest in
      Return (if eq_str portfolio_type "position" then p :: kept else kept)
  end.

(** [InvestingAPI.get_portfolios] *)
Definition get_portfolios (x_token x_udid : string) (position_only : bool)
    (w : reply) : http_call * outcome value :=
  (portfolios_call x_token x_udid,
   let* response := response_of w in
   let (status, b) := response in
   let* _ :=
     if negb (status =? 200)
     then Raise (Exn PortfolioError [Lit "HTTP error "; Str (VInt status)])
     else Return tt in
   let* result := json_of b in
   (* Check for errors *)
   let* system := get result "system" (VDict []) in
   let* system_status := get system "status" VNone in
   if eq_str system_status "failed" then
     let* error_code := get system "message_error_code" (VStr "unknown") in
     if eq_str error_code "1001" then
       Raise (Exn TokenExpiredError [Lit "Token expired or invalid"])
     else Raise (Exn PortfolioError [Lit "API error: "; Str error_code])
   else
   (* Extract portfolios *)
   try_except
     (let* data := get result "data" (VList []) in
      if negb (truthy data) then Return (VList [])
      else
      let* first := item0 data in
      let* screen_data := get first "screen_data" (VDict []) in
      let* portfolios := get screen_data "portfolio" (VList []) in
      if position_only then
        let* items := iterate portfolios in
        let* kept := keep_positions items in
        Return (VList kept)
      else Return portfolios)
     [KeyError; IndexError]
     (fun err =>
        Raise (Exn PortfolioError (Lit "Error parsing response: " :: exn_msg err)))).

End onboarding.

(** ** sensor.py *)

Module sensor.

Import Py hass coordinator.
Local Open Scope py_scope.

(** [native_value] of the five sensors: [data] is [self.coordinator.data],
    [key] the key that the sensor reads. *)
Definition native_value (key : string) (data : value) : outcome value :=
  match data with
  | VNone => Return VNone
  | _ => get data key VNone
  end.

(** The keys of [InvestingSensor], [OpenPLSensor], [OpenPLPercSensor],
    [DailyPLSensor] and [DailyPLPercSensor]. *)
Definition sensor_keys : list string :=
  ["market_value"; "open_pl"; "open_pl_perc"; "daily_pl"; "daily_pl_perc"].

(** [InvestingSensor.extra_state_attributes] *)
Definition extra_state_attributes (c : coordinator) (_portfolio_name : string)
    (data : value) : outcome value :=
  match data with
  | VNone => Return (VDict [])
  | _ =>
      let* openpl := get data "open_pl" VNone in
      let* openplperc := get data "open_pl_perc" VNone in
      let* dailypl := get data "daily_pl" VNone in
      let* dailyplperc := get data "daily_pl_perc" VNone in
      let* timestamp := get data "timestamp" VNone in
      Return (VDict [("openpl", openpl);
                     ("openplperc", openplperc);
                     ("dailypl", dailypl);
                     ("dailyplperc", dailyplperc);
                     ("timestamp", timestamp);
                     ("portfolio_id", VInt (portfolio_id c));
                     ("portfolio_name", VStr _portfolio_name)])
  end.

End sensor.

(** ** Vocabulary of the further properties *)

Module extra.

Import Py hass coordinator props.
Local Open Scope py_scope.

(** *** Texts *)

Fixpoint all_chars (p : ascii -> bool) (s : string) : bool :=
  match s with
  | EmptyString => true
  | String c rest => p c && all_chars p rest
  end.

(** Digits in groups: decimal digits and the dots between them. *)
Definition grouped (s : string) : bool :=
  all_chars (fun c => is_digit c || Ascii.eqb c ".") s.

(** A character of a signed decimal in the European format. *)
Definition plain (c : ascii) : bool := is_digit c || mem_char c ".,+-".

Definition is_ascii (s : string) : bool :=
  all_chars (fun c => (nat_of_ascii c <? 128)%nat) s.

(** A lowercase letter, a digit or an underscore. *)
Definition identifier_char (c : ascii) : bool :=
  let n := nat_of_ascii c in
  is_digit c || ((97 <=? n) && (n <=? 122))%nat || Ascii.eqb c "_".

(** *** Ticks *)

Definition is_published (e : event) : bool :=
  match e with
  | SetUpdatedData _ => true
  | _ => false
  end.

(** A run of ticks: the events of each tick, and the final state. *)
Fixpoint run_ticks (ts : list tick) (self : coordinator)
    : list (list event) * coordinator :=
  match ts with
  | [] => ([], self)
  | t :: rest =>
      let r := _async_update_data t self in
      let '(evs, final) := run_ticks rest (state_of r) in
      (events_of r :: evs, final)
  end.

(** *** Snapshots *)

Definition numbers : Type := (float * float * float * float * float)%type.

(** The five numbers of a summary, parsed in the order of the source. *)
Definition parsed_numbers (summary : value) : outcome numbers :=
  let* market_value := parse_european_number (field summary "MarketValue") in
  let* open_pl := parse_european_number (field summary "OpenPL") in
  let* open_pl_perc := parse_european_number (field summary "OpenPLPerc") in
  let* daily_pl := parse_european_number (field summary "DailyPL") in
  let* daily_pl_perc := parse_european_number (field summary "DailyPLPerc") in
  Return (market_value, open_pl, open_pl_perc, daily_pl, daily_pl_perc).

(** The dict [parsed_data] of [_fetch_data]. *)
Definition snapshot_of (name iso : string) (raw : value) (n : numbers) : value :=
  let '(market_value, open_pl, open_pl_perc, daily_pl, daily_pl_perc) := n in
  VDict [("portfolio_name", VStr name);
         ("market_value", VFloat market_value);
         ("open_pl", VFloat open_pl);
         ("open_pl_perc", VFloat open_pl_perc);
         ("daily_pl", VFloat daily_pl);
         ("daily_pl_perc", VFloat daily_pl_perc);
         ("timestamp", VStr iso);
         ("raw_data", raw)].

Definition is_snapshot (name : string) (d : value) : Prop :=
  exists iso raw n, d = snapshot_of name iso raw n.

(** The cache holds nothing, or a snapshot of this portfolio. *)
Definition cache_ok (self : coordinator) : Prop :=
  _last_successful_data self = VNone \/
  is_snapshot (portfolio_name self) (_last_successful_data self).

(** The states that a coordinator built as [init] goes through: ticks at
    readings of the clock, and force refreshes. *)
Inductive reachable (init : coordinator) : coordinator -> Prop :=
| reach_init : reachable init init
| reach_tick (self : coordinator) (t : tick) :
    reachable init self -> on_clock (now t) ->
    reachable init (state_of (_async_update_data t self))
| reach_refresh (self : coordinator) (w : reply) (stamp : datetime) :
    reachable init self ->
    reachable init (state_of (async_force_refresh w stamp self)).

(** *** The config flow operations *)

(** A portfolio of type ["position"]. *)
Definition is_position (p : value) : bool :=
  match p with
  | VDict d =>
      match lookup d "portfolioType" with
      | Some t => eq_str t "position"
      | None => false
      end
  | _ => false
  end.

Definition is_dict (v : value) : bool :=
  match v with
  | VDict _ => true
  | _ => false
  end.

Definition or_default (o : option value) (default : value) : value :=
  match o with
  | Some v => v
  | None => default
  end.

(** [data[0].screen_data.portfolio] of a body, with the defaults of the
    source where a key is missing; nothing where a step has another type. *)
Definition listed (body : value) : option value :=
  match member body "data" with
  | None | Some (VList []) => Some (VList [])
  | Some (VList (VDict first :: _)) =>
      match lookup first "screen_data" with
      | None => Some (VList [])
      | Some (VDict sd) => Some (or_default (lookup sd "portfolio") (VList []))
      | Some _ => None
      end
  | Some _ => None
  end.

(** [system.status] of a body, when there is one. *)
Definition system_status (body : value) : option value :=
  match member body "system" with
  | Some system => member system "status"
  | None => None
  end.

(** The error that a login body carries in its envelope: [system.status]
    is ["error"]; the text is [system.messages.display_message]. *)
Definition login_error (body : value) : option value :=
  match member body "system" with
  | Some system =>
      match member system "status" with
      | Some st =>
          if eq_str st "error" then
            Some (match member system "messages" with
                  | Some messages =>
                      or_default (member messages "display_message")
                        (VStr "Unknown error")
                  | None => VStr "Unknown error"
                  end)
          else None
      | None => None
      end
  | None => None
  end.

(** The envelope of a login body is an object whose ["system"], if present,
    is an object, whose ["messages"], if present, is an object. *)
Definition login_shaped (body : value) : bool :=
  match body with
  | VDict d =>
      match lookup d "system" with
      | None => true
      | Some (VDict sys) =>
          match lookup sys "messages" with
          | None | Some (VDict _) => true
          | Some _ => false
          end
      | Some _ => false
      end
  | _ => false
  end.

(** The profile that [login] returns around the token. *)
Definition profile (token : value) (data : list (string * value)) : value :=
  VDict [("token", token);
         ("user_id", or_default (lookup data "user_ID") VNone);
         ("user_email", or_default (lookup data "user_email") VNone);
         ("user_firstname", or_default (lookup data "user_firstname") VNone);
         ("user_lastname", or_default (lookup data "user_lastname") VNone)].

(** *** Concrete inputs *)

(** A coordinator with every schedule option given. *)
Definition configured (interval start stop : Z) (night morning : string)
    : coordinator :=
  __init__ "token" "udid" 42 "My Portfolio"
    (Some {| opt_update_weekday_interval := Some interval;
             opt_update_weekday_start := Some start;
             opt_update_weekday_end := Some stop;
             opt_update_night_time := Some night;
             opt_update_morning_time := Some morning |}).

(** The same with a snapshot cached at minute [m] of the day. *)
Definition cached_at (m : Z) (self : coordinator) : coordinator :=
  set_last_update_minute m (set_last_successful_data sample.snapshot self).

Definition tick_with (now_ : datetime) (w : reply) : tick :=
  {| now := now_; now_schedule := now_; answer := w; now_stamp := now_ |}.

(** A summary whose market value came as a JSON number. *)
Definition numeric_body : value :=
  VDict [("data",
          VList [VDict [("screen_data",
                         VDict [("MarketValue", VInt 240937);
                                ("OpenPL", VStr "+70.864,27")])]])].

(** Bodies of the portfolio list and of the login. *)
Definition position (id : Z) (name : string) : value :=
  VDict [("portfolio_id", VInt id); ("portfolio_name", VStr name);
         ("portfolioType", VStr "position")].

Definition watchlist (id : Z) (name : string) : value :=
  VDict [("portfolio_id", VInt id); ("portfolio_name", VStr name);
         ("portfolioType", VStr "watchlist")].

Definition portfolios_body (l : list value) : value :=
  VDict [("data", VList [VDict [("screen_data", VDict [("portfolio", VList l)])]])].

Definition login_body : value :=
  VDict [("system", VDict [("status", VStr "ok")]);
         ("data", VDict [("token", VStr "secret-token");
                         ("user_ID", VStr "1234");
                         ("user_email", VStr "me@example.org")])].

End extra.

(** ** Properties *)

Import Py hass coordinator props.
Local Open Scope py_scope.

(** *** Strings *)

Section Strings.

Lemma prefix_empty (s : string) : String.prefix "" s = true.
Proof. now destruct s. Qed.

Lemma prefix_char (c a : ascii) (rest : string) :
  String.prefix (String c "") (String a rest) = Ascii.eqb a c.
Proof.
  cbn [String.prefix].
  destruct (ascii_dec c a) as [->|Hne].
  - now rewrite prefix_empty, Ascii.eqb_refl.
  - destruct (Ascii.eqb_spec a c); congruence.
Qed.

Lemma replace_char_delete (c : ascii) (s : string) :
  replace s (String c "") "" = delete_char c s.
Proof.
  unfold replace.
  induction s as [|a rest IH]; [reflexivity|].
  cbn [replace_from delete_char String.length Nat.sub].
  rewrite prefix_char, IH.
  now destruct (Ascii.eqb a c).
Qed.

Lemma replace_char_subst (c d : ascii) (s : string) :
  replace s (String c "") (String d "") = subst_char c d s.
Proof.
  unfold replace.
  induction s as [|a rest IH]; [reflexivity|].
  cbn [replace_from subst_char String.length Nat.sub].
  rewrite prefix_char, IH.
  now destruct (Ascii.eqb a c).
Qed.

Lemma float_of_str_raises_value_error (s : string) (e : exn) :
  float_of_str s = Raise e -> isinstance e ValueError = true.
Proof.
  unfold float_of_str.
  destruct (float_literal s); [discriminate|].
  intros [= <-]. reflexivity.
Qed.

End Strings.

(** *** Splitting, stripping and integer literals *)

Section IntLiterals.


Lemma split_at_first_sep (h r : string) (sep : ascii) :
  mem_char sep h = false ->
  split (h ++ String sep r) sep = h :: split r sep.
Proof.
  induction h as [|c rest IH]; cbn [mem_char split String.append].
  - intros _. now rewrite Ascii.eqb_refl.
  - intros H. apply orb_false_iff in H as [Hc Hrest].
    rewrite Ascii.eqb_sym, Hc, (IH Hrest). reflexivity.
Qed.

Lemma split_nonempty (s : string) (sep : ascii) : split s sep <> [].
Proof.
  destruct s as [|c rest]; cbn [split]; [discriminate|].
  destruct (Ascii.eqb c sep); [discriminate|].
  destruct (split rest sep); discriminate.
Qed.

Lemma digit_not_space (c : ascii) : is_digit c = true -> is_space c = false.
Proof. destruct c as [[] [] [] [] [] [] [] []]; cbv; congruence. Qed.

Lemma digit_not_colon (c : ascii) : is_digit c = true -> Ascii.eqb ":" c = false.
Proof. destruct c as [[] [] [] [] [] [] [] []]; cbv; congruence. Qed.

Lemma all_digits_no_colon (s : string) :
  all_digits s = true -> mem_char ":" s = false.
Proof.
  induction s as [|c rest IH]; [reflexivity|].
  cbn [all_digits mem_char]. intros H.
  apply andb_true_iff in H as [Hc Hrest].
  now rewrite (digit_not_colon c Hc), (IH Hrest).
Qed.

Lemma rstrip_digits (s : string) : all_digits s = true -> rstrip s = s.
Proof.
  induction s as [|c rest IH]; [reflexivity|].
  cbn [all_digits rstrip]. intros H.
  apply andb_true_iff in H as [Hc Hrest].
  rewrite (IH Hrest), (digit_not_space c Hc).
  now destruct rest.
Qed.

Lemma strip_digits (s : string) : all_digits s = true -> strip s = s.
Proof.
  intros H. unfold strip.
  destruct s as [|c rest]; [reflexivity|].
  cbn [lstrip].
  cbn [all_digits] in H. pose proof H as H'.
  apply andb_true_iff in H' as [Hc _].
  rewrite (digit_not_space c Hc).
  now apply rstrip_digits.
Qed.

Lemma digitpart_digits (s : string) (acc : Z) (prev : bool) :
  all_digits s = true -> (s <> "" \/ prev = true) ->
  digitpart s acc prev = Some (decimal s acc).
Proof.
  revert acc prev.
  induction s as [|c rest IH]; intros acc prev Hd Hne.
  - destruct Hne as [Hne| ->]; [congruence|reflexivity].
  - cbn [all_digits] in Hd. apply andb_true_iff in Hd as [Hc Hrest].
    cbn [digitpart decimal]. rewrite Hc.
    apply IH; auto.
Qed.

(** The first character decides the sign. *)
Lemma int_literal_cases (s : string) :
  int_literal s =
  match strip s with
  | EmptyString => None
  | String c rest =>
      if Ascii.eqb c "-" then option_map Z.opp (digitpart rest 0 false)
      else if Ascii.eqb c "+" then digitpart rest 0 false
      else digitpart (String c rest) 0 false
  end.
Proof.
  unfold int_literal.
  destruct (strip s) as [|c rest]; [reflexivity|].
  destruct c as [[] [] [] [] [] [] [] []]; reflexivity.
Qed.

Lemma digit_not_sign (c : ascii) :
  is_digit c = true -> Ascii.eqb c "-" = false /\ Ascii.eqb c "+" = false.
Proof. destruct c as [[] [] [] [] [] [] [] []]; cbv; split; congruence. Qed.

(** [int] reads a numeral as the integer it denotes. *)
Lemma int_of_numeral (s : string) :
  numeral s = true -> int_of_str s = Return (numeral_value s).
Proof.
  unfold numeral, int_of_str, numeral_value. intros H.
  apply andb_true_iff in H as [Hne Hd].
  rewrite int_literal_cases, (strip_digits s Hd).
  destruct s as [|c rest]; [discriminate|].
  cbn [all_digits] in Hd. pose proof Hd as Hd'.
  apply andb_true_iff in Hd' as [Hc _].
  destruct (digit_not_sign c Hc) as [-> ->].
  rewrite (digitpart_digits (String c rest) 0 false); auto.
  left; discriminate.
Qed.






End IntLiterals.

(** *** The locale number parser *)

Section NumberParser.

Lemma startswith_minus (t : string) :
  startswith t "-" = match t with String "-" _ => true | _ => false end.
Proof.
  unfold startswith.
  destruct t as [|a rest]; [reflexivity|].
  rewrite prefix_char.
  destruct a as [[] [] [] [] [] [] [] []]; reflexivity.
Qed.

(** The code computes what the specification describes. *)
Lemma parse_european_number_str (s : string) :
  parse_european_number (VStr s) = Return (parse_locale_number_spec s).
Proof.
  unfold parse_european_number, parse_locale_number_spec, locale_digits,
    locale_negative.
  destruct s as [|a rest]; [reflexivity|].
  cbn [truthy negb String.eqb].
  set (s := String a rest).
  rewrite !replace_char_delete, replace_char_subst, startswith_minus.
  unfold float_of_str.
  destruct (float_literal _); reflexivity.
Qed.


End NumberParser.

Section NumberParserClaims.

Import PrimFloat.



End NumberParserClaims.

(** *** The time parser and the schedule policy *)

Section Schedule.




(** What [should_update_now] computes once both times are parsed. *)
Lemma should_update_now_parsed (self : coordinator) (now : datetime)
    (mh mm nh nm : Z) :
  parse_time (update_morning_time self) = Return (mh, mm) ->
  parse_time (update_night_time self) = Return (nh, nm) ->
  should_update_now self now =
  if (hour now =? mh) && (minute now =? mm) then Return (true, 60)
  else if (hour now =? nh) && (minute now =? nm) then Return (true, 60)
  else if (weekday now <? 5)
          && ((update_weekday_start self <=? hour now)
              && (hour now <? update_weekday_end self))
  then let* r := int_mod (minute now) (update_weekday_interval self) in
       Return (r =? 0, 60)
  else Return (false, 60).
Proof.
  intros Hm Hn. unfold should_update_now. rewrite Hm, Hn. cbn [Py.bind].
  destruct ((hour now =? mh) && (minute now =? mm)); [reflexivity|].
  destruct ((hour now =? nh) && (minute now =? nm)); [reflexivity|].
  destruct (weekday now <? 5); [|reflexivity].
  destruct ((update_weekday_start self <=? hour now)
            && (hour now <? update_weekday_end self)); [|reflexivity].
  cbn [andb]. unfold int_mod.
  destruct (update_weekday_interval self =? 0); [reflexivity|].
  cbn [Py.bind]. now destruct (minute now mod update_weekday_interval self =? 0).
Qed.

Lemma should_update_now_raises_morning (self : coordinator) (now : datetime) (e : exn) :
  parse_time (update_morning_time self) = Raise e ->
  should_update_now self now = Raise e.
Proof. intros H. unfold should_update_now. now rewrite H. Qed.

Lemma should_update_now_raises_night (self : coordinator) (now : datetime)
    (e : exn) (hm : Z * Z) :
  parse_time (update_morning_time self) = Return hm ->
  parse_time (update_night_time self) = Raise e ->
  should_update_now self now = Raise e.
Proof.
  intros Hm Hn. unfold should_update_now. rewrite Hm, Hn.
  now destruct hm.
Qed.



End Schedule.

Section ScheduleClaims.


Ltac bool_cases :=
  repeat match goal with
         | |- context [?a =? ?b] => destruct (Z.eqb_spec a b)
         | |- context [?a <? ?b] => destruct (Z.ltb_spec a b)
         | |- context [?a <=? ?b] => destruct (Z.leb_spec a b)
         end.

Lemma should_update_now_iff (self : coordinator) (now : datetime)
    (mh mm nh nm : Z) :
  parse_time (update_morning_time self) = Return (mh, mm) ->
  parse_time (update_night_time self) = Return (nh, nm) ->
  update_weekday_interval self <> 0 ->
  exists b,
    should_update_now self now = Return (b, 60) /\
    (b = true <->
     (hour now = mh /\ minute now = mm) \/
     (hour now = nh /\ minute now = nm) \/
     (weekday now < 5 /\
      update_weekday_start self <= hour now < update_weekday_end self /\
      minute now mod update_weekday_interval self = 0)).
Proof.
  intros Hm Hn Hi.
  rewrite (should_update_now_parsed self now mh mm nh nm Hm Hn).
  unfold int_mod.
  destruct (Z.eqb_spec (update_weekday_interval self) 0) as [|_]; [contradiction|].
  cbn [Py.bind].
  bool_cases; cbn [andb orb];
    eexists; (split; [reflexivity|]); split; intros; try discriminate;
    try reflexivity; try lia; intuition lia.
Qed.

(** C4.  With both times parsed and a non-zero interval,
    [should_update_now] returns true exactly when the instant matches the
    morning time to the minute, or the night time to the minute, or falls
    on a weekday (Monday to Friday) with the hour in
    [[weekdayStartHour, weekdayEndHour)] and the minute a multiple of the
    interval.  With the default configuration it is true at 04:00 and at
    22:05 on any day, true on Wednesday at 10:15, false on Wednesday at
    10:16 and false on Saturday at 10:15. *)
Theorem should_update_now_exactly_when :
  (forall self now mh mm nh nm,
      parse_time (update_morning_time self) = Return (mh, mm) ->
      parse_time (update_night_time self) = Return (nh, nm) ->
      update_weekday_interval self <> 0 ->
      exists b,
        should_update_now self now = Return (b, 60) /\
        (b = true <->
         (hour now = mh /\ minute now = mm) \/
         (hour now = nh /\ minute now = nm) \/
         (weekday now < 5 /\
          update_weekday_start self <= hour now < update_weekday_end self /\
          minute now mod update_weekday_interval self = 0))) /\
  (forall tok udid pid name wd iso,
      let self := __init__ tok udid pid name None in
      let at_ h m := {| weekday := wd; hour := h; minute := m; isoformat := iso |} in
      should_update_now self (at_ 4 0) = Return (true, 60) /\
      should_update_now self (at_ 22 5) = Return (true, 60)) /\
  (forall tok udid pid name iso,
      let self := __init__ tok udid pid name None in
      let at_ wd h m := {| weekday := wd; hour := h; minute := m; isoformat := iso |} in
      update_weekday_interval self = 15 /\
      should_update_now self (at_ 2 10 15) = Return (true, 60) /\
      should_update_now self (at_ 2 10 16) = Return (false, 60) /\
      should_update_now self (at_ 5 10 15) = Return (false, 60)).
Proof.
  split; [exact should_update_now_iff|].
  split; intros; repeat split; reflexivity.
Qed.

Lemma should_update_now_exactly_when_witness :
  exists b,
    should_update_now sample.fresh (sample.at_time 0 9 30) = Return (b, 60) /\
    (b = true <->
     (9 = 4 /\ 30 = 0) \/ (9 = 22 /\ 30 = 5) \/
     (0 < 5 /\ 9 <= 9 < 21 /\ 30 mod 15 = 0)).
Proof.
  apply (proj1 should_update_now_exactly_when
           sample.fresh (sample.at_time 0 9 30) 4 0 22 5).
  - reflexivity.
  - reflexivity.
  - vm_compute. discriminate.
Defined.

(** C8.  When [weekdayStartHour >= weekdayEndHour] the weekday rule never
    fires: [should_update_now] returns, and returns true only when the
    instant matches the morning time or the night time to the minute. *)
Theorem degenerate_window_never_fires (self : coordinator) (now : datetime)
    (mh mm nh nm : Z) :
  parse_time (update_morning_time self) = Return (mh, mm) ->
  parse_time (update_night_time self) = Return (nh, nm) ->
  update_weekday_start self >= update_weekday_end self ->
  should_update_now self now
  = Return ((hour now =? mh) && (minute now =? mm)
            || (hour now =? nh) && (minute now =? nm), 60)
  /\ (should_update_now self now = Return (true, 60) <->
      (hour now = mh /\ minute now = mm) \/ (hour now = nh /\ minute now = nm))
  /\ (should_update_now self now = Return (false, 60) <->
      ~ ((hour now = mh /\ minute now = mm) \/ (hour now = nh /\ minute now = nm))).
Proof.
  intros Hm Hn Hw.
  rewrite (should_update_now_parsed self now mh mm nh nm Hm Hn).
  bool_cases; cbn [andb orb]; try lia;
    (split; [reflexivity|]); split; split; intros; try discriminate;
    try reflexivity; try lia; try intuition lia.
Qed.

Lemma degenerate_window_never_fires_witness :
  18 >= 9 /\
  should_update_now sample.inverted (sample.at_time 2 10 15) = Return (false, 60).
Proof.
  split; [lia|].
  refine (proj1 (degenerate_window_never_fires sample.inverted
                   (sample.at_time 2 10 15) 4 0 22 5 _ _ _));
    [reflexivity | reflexivity | vm_compute; discriminate].
Defined.

End ScheduleClaims.

(** *** Running a method *)

Section Monad.

Context {St : Type}.

Lemma run_eta {A} (r : outcome A * St * list event) :
  r = (result_of r, state_of r, events_of r).
Proof. now destruct r as [[o s] ev]. Qed.

Lemma bind_lift {A B} (o : outcome A) (k : A -> M St B) (s : St) :
  hass.bind (lift o) k s =
  match o with
  | Return a => k a s
  | Raise e => (Raise e, s, [])
  end.
Proof.
  unfold hass.bind, lift. destruct o as [a|e]; [|reflexivity].
  now destruct (k a s) as [[r s2] ev].
Qed.

Lemma bind_ret {A B} (a : A) (k : A -> M St B) (s : St) :
  hass.bind (ret a) k s = k a s.
Proof. unfold hass.bind, ret. now destruct (k a s) as [[r s2] ev]. Qed.

Lemma bind_gets {A B} (f : St -> A) (k : A -> M St B) (s : St) :
  hass.bind (gets f) k s = k (f s) s.
Proof. unfold hass.bind, gets. now destruct (k (f s) s) as [[r s2] ev]. Qed.

Lemma bind_modify {B} (f : St -> St) (k : unit -> M St B) (s : St) :
  hass.bind (modify f) k s = k tt (f s).
Proof. unfold hass.bind, modify. now destruct (k tt (f s)) as [[r s2] ev]. Qed.

Lemma bind_emit {B} (e : event) (k : unit -> M St B) (s : St) :
  hass.bind (emit e) k s =
  (result_of (k tt s), state_of (k tt s), e :: events_of (k tt s)).
Proof. unfold hass.bind, emit. now destruct (k tt s) as [[r s2] ev]. Qed.

Lemma bind_assoc {A B C} (m : M St A) (f : A -> M St B) (k : B -> M St C)
    (s : St) :
  hass.bind (hass.bind m f) k s = hass.bind m (fun a => hass.bind (f a) k) s.
Proof.
  unfold hass.bind.
  destruct (m s) as [[[a|e] s1] ev]; [|reflexivity].
  destruct (f a s1) as [[[b|e] s2] ev']; [|reflexivity].
  destruct (k b s2) as [[r s3] ev'']. now rewrite app_assoc.
Qed.

End Monad.

(** Unfolds the plumbing of a method and leaves the calls that decide. *)
Ltac norm :=
  lazy beta iota zeta
    delta [hass.bind lift ret raise emit gets modify try_ session_get
           response_json async_create async_set_updated_data _notify_error
           handler_for result_of state_of events_of fst snd app negb id].

Ltac norm_in H :=
  lazy beta iota zeta
    delta [hass.bind lift ret raise emit gets modify try_ session_get
           response_json async_create async_set_updated_data _notify_error
           handler_for result_of state_of events_of fst snd app negb id] in H.

(** The same, and evaluates the accesses to decoded values. *)
Ltac eval_py :=
  lazy beta iota zeta
    delta [hass.bind lift ret raise emit gets modify try_ session_get
           response_json handler_for result_of state_of events_of fst snd app
           negb id get item0 member truthy existsb isinstance issubclass
           subclass_upto exn_cls exn_class_eqb base orb field no_attribute
           type_name locate_summary].

Ltac split_atom :=
  match goal with
  | |- context [get ?v ?k ?d] => destruct (get v k d)
  | |- context [item0 ?v] => destruct (item0 v)
  | |- context [truthy ?v] => destruct (truthy v)
  | |- context [eq_str ?v ?s] => destruct (eq_str v s)
  | |- context [existsb ?f ?l] => destruct (existsb f l)
  end.

Ltac split_atom_in H :=
  match type of H with
  | context [get ?v ?k ?d] => destruct (get v k d)
  | context [parse_european_number ?v] => destruct (parse_european_number v)
  | context [existsb ?f ?l] => destruct (existsb f l)
  end.

Ltac conclude :=
  cbn [parsed_as]; unfold raises, summary_dict, field; cbn [member];
  first [ reflexivity
        | eexists; reflexivity
        | left; eexists; reflexivity
        | right; eexists; reflexivity ].

(** The parse logic of [get_portfolio_summary] on the dict [d], case by
    case on what is under ["data"]. *)
Ltac parse_logic d :=
  eval_py;
  destruct (lookup d "data") as [data|]; eval_py; [|conclude];
  destruct data as [| [] | z | f | s | l | dd]; eval_py; try conclude;
  [ destruct (z =? 0); eval_py; conclude
  | destruct f; eval_py; conclude
  | destruct s; eval_py; conclude
  | destruct l as [|first rest]; eval_py; [conclude|];
    destruct first as [| | | | | |fd]; eval_py; try conclude;
    destruct (lookup fd "screen_data") as [summary|]; eval_py; [|conclude];
    destruct summary as [| [] | z | f | s | l | sd]; eval_py; try conclude;
    [ destruct (z =? 0); eval_py; conclude
    | destruct f; eval_py; conclude
    | destruct s; eval_py; conclude
    | destruct l; eval_py; conclude
    | destruct sd; eval_py; conclude ]
  | destruct dd; eval_py; conclude ].

(** *** The API client *)

Section ApiClient.

(** The operation sends one request, touches no state of its caller, and
    its outcome depends on the answer and the portfolio id alone. *)
Lemma get_portfolio_summary_run {St} (s : St) (pid : Z) (tok udid : string)
    (w : reply) :
  api.get_portfolio_summary pid tok udid w s
  = (summary_outcome pid w, s, [HttpGet (api.summary_request pid tok udid)]).
Proof.
  unfold summary_outcome, api.get_portfolio_summary.
  destruct w as [|msg|status b]; try reflexivity.
  norm. destruct (status =? 200); norm; [|reflexivity].
  destruct b; try reflexivity.
  repeat (norm; split_atom); reflexivity.
Qed.

Lemma summary_outcome_not_200 (pid status : Z) (b : body) :
  status <> 200 ->
  summary_outcome pid (Response status b)
  = Raise (Exn PortfolioError [Lit "HTTP error "; Str (VInt status)]).
Proof.
  intros H. unfold summary_outcome, api.get_portfolio_summary.
  norm. destruct (Z.eqb_spec status 200); [contradiction|]. reflexivity.
Qed.

Lemma summary_outcome_200 (pid : Z) (body : value) :
  envelope_shaped body = true ->
  classified_as pid body (summary_outcome pid (Response 200 (Decoded body))).
Proof.
  intros Hshape.
  unfold summary_outcome, api.get_portfolio_summary, session_get.
  destruct body as [| | | | |?|d]; try discriminate Hshape.
  rewrite bind_assoc, bind_emit, !bind_ret.
  cbn [result_of fst Z.eqb Pos.eqb negb response_json].
  rewrite !bind_ret.
  match goal with
  | |- context [try_ ?m ?hs] =>
      assert (Hp : parsed_as (locate_summary (VDict d)) (result_of (try_ m hs tt)))
        by parse_logic d
  end.
  unfold classified_as, upstream_failure.
  cbn [envelope_shaped] in Hshape.
  rewrite bind_lift.
  cbn [get member].
  destruct (lookup d "system") as [[| | | | | |sys]|];
    try discriminate Hshape; rewrite bind_lift; cbn [get member lookup eq_str];
    [|exact Hp].
  destruct (lookup sys "status") as [st|]; cbn [eq_str]; [|exact Hp].
  destruct (eq_str st "failed"); [|exact Hp].
  rewrite bind_lift. cbn [get].
  destruct (lookup sys "message_error_code") as [code|];
    [|reflexivity].
  destruct (eq_str code "1001"); [reflexivity|].
  destruct (eq_str code "203"); reflexivity.
Qed.




End ApiClient.

(** *** The fetch-and-parse cycle *)

Section FetchCycle.

Lemma isinstance_exception (e : exn) : isinstance e Exception = true.
Proof. unfold isinstance, issubclass. now destruct (exn_cls e). Qed.

(** One cycle, by what the API call does. *)
Lemma fetch_data_run (self s' : coordinator) (w : reply) (stamp : datetime)
    (r : outcome value) (ev : list event) :
  _fetch_data w stamp self = (r, s', ev) ->
  match api_outcome self w with
  | Raise err =>
      (exists msg, r = Raise (Exn UpdateFailed msg)) /\
      if isinstance err TokenExpiredError then
        if _error_notified self then s' = self /\ ev = [request_of self]
        else
          s' = set_error_notified true self /\
          exists m t i, ev = [request_of self; PersistentNotification m t i]
      else s' = self /\ ev = [request_of self]
  | Return summary =>
      ev = [request_of self] /\
      ((exists e, r = Raise e /\ s' = set_error_notified false self) \/
       (r = Return (_last_successful_data s') /\
        truthy (_last_successful_data s') = true /\
        s' = set_last_successful_data (_last_successful_data s')
               (set_error_notified false self)))
  end.
Proof.
  unfold _fetch_data, api_outcome, request_of. intros H.
  norm_in H. rewrite get_portfolio_summary_run in H.
  destruct (summary_outcome (portfolio_id self) w) as [summary|err].
  - repeat (norm_in H; split_atom_in H); norm_in H;
      injection H as <- <- <-; (split; [reflexivity|]);
      try (left; eexists; split; reflexivity).
    right. repeat split.
  - norm_in H. cbn [existsb] in H. rewrite !orb_false_r in H.
    rewrite (isinstance_exception err) in H.
    destruct (isinstance err TokenExpiredError).
    { destruct (_error_notified self); norm_in H; injection H as <- <- <-;
        (split; [eexists; reflexivity|]); split; try reflexivity.
      do 3 eexists. reflexivity. }
    destruct (isinstance err PortfolioNotFoundError);
      [|destruct (isinstance err PortfolioError)];
      norm_in H; injection H as <- <- <-;
      (split; [eexists; reflexivity|]); split; reflexivity.
Qed.

(** What a cycle leaves alone, and what it does to the snapshot. *)
Lemma fetch_data_frame (self : coordinator) (w : reply) (stamp : datetime) :
  let r := _fetch_data w stamp self in
  settings (state_of r) = settings self /\
  _last_update_minute (state_of r) = _last_update_minute self /\
  network_calls (events_of r) = 1%nat /\
  match result_of r with
  | Return d => _last_successful_data (state_of r) = d /\ truthy d = true
  | Raise _ => _last_successful_data (state_of r) = _last_successful_data self
  end.
Proof.
  cbv zeta.
  pose proof (fetch_data_run self _ w stamp _ _ (run_eta (_fetch_data w stamp self)))
    as H.
  destruct (api_outcome self w) as [summary|err].
  - destruct H as [-> [[e [-> ->]]|[-> [Ht Hs]]]].
    + repeat split.
    + rewrite Ht. rewrite Hs at 1 2. repeat split.
  - destruct H as [[msg ->] H].
    destruct (isinstance err TokenExpiredError);
      [destruct (_error_notified self)|].
    + destruct H as [-> ->]. repeat split.
    + destruct H as [-> [m [t [i ->]]]]. repeat split.
    + destruct H as [-> ->]. repeat split.
Qed.

(** The flag and the notification of a cycle, by its kind. *)
Lemma fetch_data_notifies (self : coordinator) (w : reply) (stamp : datetime) :
  let r := _fetch_data w stamp self in
  match kind_of self w with
  | Expired =>
      _error_notified (state_of r) = true /\
      notifications (events_of r) = Nat.b2n (negb (_error_notified self))
  | ApiReturned =>
      _error_notified (state_of r) = false /\
      notifications (events_of r) = 0%nat
  | OtherFailure =>
      _error_notified (state_of r) = _error_notified self /\
      notifications (events_of r) = 0%nat
  end.
Proof.
  cbv zeta. unfold kind_of.
  pose proof (fetch_data_run self _ w stamp _ _ (run_eta (_fetch_data w stamp self)))
    as H.
  destruct (api_outcome self w) as [summary|err].
  - destruct H as [-> [[e [_ ->]]|[_ [_ ->]]]]; split; reflexivity.
  - destruct H as [_ H].
    destruct (isinstance err TokenExpiredError);
      [destruct (_error_notified self) eqn:Hn|].
    + destruct H as [-> ->]. now rewrite Hn.
    + destruct H as [-> [m [t [i ->]]]]. split; reflexivity.
    + destruct H as [-> ->]. split; reflexivity.
Qed.

(** C7.  A failing cycle, whatever made it fail, leaves
    [_last_successful_data] as it was: the API call failing with any class
    of error makes the cycle raise [UpdateFailed] with the snapshot
    untouched, and so does a failure after the API call.  The snapshot
    changes only when the cycle returns, and then it is what the cycle
    returns. *)
Theorem failed_cycle_keeps_snapshot (self : coordinator) (w : reply)
    (stamp : datetime) :
  let r := _fetch_data w stamp self in
  (forall e, result_of r = Raise e ->
             _last_successful_data (state_of r) = _last_successful_data self) /\
  (forall err, api_outcome self w = Raise err ->
               (exists msg, result_of r = Raise (Exn UpdateFailed msg)) /\
               _last_successful_data (state_of r) = _last_successful_data self) /\
  (forall d, result_of r = Return d -> _last_successful_data (state_of r) = d) /\
  (_last_successful_data (state_of r) <> _last_successful_data self ->
   exists d, result_of r = Return d).
Proof.
  cbv zeta.
  pose proof (fetch_data_frame self w stamp) as F. cbv zeta in F.
  destruct F as [_ [_ [_ F]]].
  pose proof (fetch_data_run self _ w stamp _ _ (run_eta (_fetch_data w stamp self)))
    as H.
  split; [|split; [|split]].
  - intros e E. now rewrite E in F.
  - intros err Herr. rewrite Herr in H. destruct H as [[msg E] _].
    rewrite E in F. split; [now exists msg | exact F].
  - intros d E. rewrite E in F. now destruct F.
  - intros Hne. destruct (result_of (_fetch_data w stamp self)) as [d|e].
    + now exists d.
    + contradiction.
Qed.

(** A cycle on a summary: the five numbers parsed, the time stamped, the
    snapshot stored. *)
Example fetch_data_on_summary :
  _fetch_data sample.ok (sample.at_time 2 10 15) sample.fresh
  = (Return sample.snapshot,
     set_last_successful_data sample.snapshot sample.fresh,
     [request_of sample.fresh]).
Proof. vm_compute. reflexivity. Qed.

Lemma failed_cycle_keeps_snapshot_witness :
  _last_successful_data
    (state_of (_fetch_data sample.token_expired (sample.at_time 2 10 16) sample.warm))
  = sample.snapshot.
Proof.
  eapply (proj1 (failed_cycle_keeps_snapshot sample.warm sample.token_expired
                   (sample.at_time 2 10 16))).
  reflexivity.
Defined.

End FetchCycle.

(** *** Notifications over a run of cycles *)

Section Notifications.

Lemma kind_of_settings (s1 s2 : coordinator) (w : reply) :
  settings s1 = settings s2 -> kind_of s1 w = kind_of s2 w.
Proof.
  unfold settings, kind_of, api_outcome. intros H.
  injection H as _ _ H _ _ _. now rewrite H.
Qed.

Lemma kinds_settings (s1 s2 : coordinator) (cycles : list (reply * datetime)) :
  settings s1 = settings s2 -> kinds s1 cycles = kinds s2 cycles.
Proof.
  intros H. unfold kinds. apply map_ext.
  intros c. now apply kind_of_settings.
Qed.

(** The notifications of a run are those that the flag decides. *)
Lemma run_cycles_notifications (cycles : list (reply * datetime))
    (self : coordinator) :
  map notifications (fst (run_cycles cycles self))
  = map Nat.b2n (first_since_success (_error_notified self) (kinds self cycles)).
Proof.
  revert self.
  induction cycles as [|[w stamp] rest IH]; intros self; [reflexivity|].
  cbn [run_cycles kinds map fst].
  pose proof (fetch_data_notifies self w stamp) as N.
  pose proof (fetch_data_frame self w stamp) as [S _].
  cbv zeta in N, S |- *.
  specialize (IH (state_of (_fetch_data w stamp self))).
  rewrite (kinds_settings _ self rest S) in IH.
  destruct (run_cycles rest (state_of (_fetch_data w stamp self))) as [evs final].
  cbn [fst map] in *. fold (kinds self rest).
  destruct (kind_of self w); destruct N as [Hflag Hnote];
    rewrite Hflag in IH; cbn [first_since_success map];
    rewrite Hnote, IH; reflexivity.
Qed.

(** In a streak of failures, entered with the flag clear, one cycle
    notifies if some failure is token-expired, and none otherwise. *)
Lemma one_notification_per_failure_streak (ks : list cycle_kind) :
  forallb (fun k => negb (is_api_returned k)) ks = true ->
  count_true (first_since_success false ks)
  = Nat.b2n (existsb is_expired ks)
  /\ count_true (first_since_success true ks) = 0%nat.
Proof.
  induction ks as [|k rest IH]; [now split|].
  cbn [forallb]. intros H. apply andb_true_iff in H as [Hk Hrest].
  destruct (IH Hrest) as [IH0 IH1].
  destruct k; try discriminate Hk; cbn [first_since_success existsb is_expired
    orb negb]; unfold count_true in *; cbn [filter id List.length];
    split; auto.
  now rewrite IH1.
Qed.

(** A cycle whose API call returns clears the suppression. *)
Lemma success_clears_suppression (flag : bool) (before after : list cycle_kind) :
  first_since_success flag (before ++ ApiReturned :: after)
  = (first_since_success flag before ++ false :: first_since_success false after)%list.
Proof.
  revert flag.
  induction before as [|k rest IH]; intros flag; [reflexivity|].
  destruct k; cbn [first_since_success app]; now rewrite IH.
Qed.

(** C2, as amended.  In every run of fetch cycles a cycle notifies exactly
    when its API call fails with [TokenExpiredError] and the flag
    [_error_notified] is clear; the flag is set by such a failure, kept by
    a failure of any other class and cleared by a cycle whose API call
    returns.  So a streak is a contiguous run of failing cycles of any
    class: the first token-expired failure of a streak notifies, once;
    every later cycle of the streak is suppressed; and a cycle whose API
    call returns ends the streak, so that a later token-expired failure
    notifies again. *)
Theorem notification_once_per_failure_streak :
  (forall self cycles,
      map notifications (fst (run_cycles cycles self))
      = map Nat.b2n
          (first_since_success (_error_notified self) (kinds self cycles))) /\
  (forall ks,
      forallb (fun k => negb (is_api_returned k)) ks = true ->
      count_true (first_since_success false ks)
      = Nat.b2n (existsb is_expired ks)) /\
  (forall flag before after,
      first_since_success flag (before ++ ApiReturned :: Expired :: after)
      = (first_since_success flag before
         ++ false :: true :: first_since_success true after)%list).
Proof.
  split; [intros self cycles; apply run_cycles_notifications|].
  split; [intros ks H; apply (one_notification_per_failure_streak ks H)|].
  intros flag before after. now rewrite success_clears_suppression.
Qed.

Lemma notification_once_per_failure_streak_witness :
  count_true (first_since_success false [Expired; OtherFailure; Expired]) = 1%nat.
Proof.
  apply (proj1 (proj2 notification_once_per_failure_streak)
           [Expired; OtherFailure; Expired]).
  reflexivity.
Defined.

(** Token expired, portfolio not found, token expired: the third cycle
    opens a new run of token-expired failures and does not notify. *)
Lemma interrupted_streak_notifies_once : ~ once_per_identical_class_streak.
Proof.
  intros H.
  specialize (H sample.fresh sample.interrupted_streak eq_refl).
  vm_compute in H. discriminate H.
Qed.

End Notifications.

(** *** The tick *)

Section Tick.

(** The tick when the schedule evaluation returns. *)
Lemma async_update_data_run (self : coordinator) (t : tick) (b : bool) (n : Z) :
  should_update_now self (now_schedule t) = Return (b, n) ->
  _async_update_data t self =
  if minute_of_day (now t) =? _last_update_minute self then
    if truthy (_last_successful_data self)
    then (Return (_last_successful_data self), self, [])
    else (Raise waiting, self, [])
  else if negb b && truthy (_last_successful_data self)
  then (Return (_last_successful_data self), self, [])
  else _fetch_data (answer t) (now_stamp t)
         (set_last_update_minute (minute_of_day (now t)) self).
Proof.
  intros H. unfold _async_update_data, minute_of_day.
  rewrite bind_gets. unfold id at 1. rewrite bind_lift, H, bind_gets.
  destruct (hour (now t) * 60 + minute (now t) =? _last_update_minute self).
  - rewrite bind_gets. now destruct (truthy (_last_successful_data self)).
  - destruct b; cbn [negb andb].
    + now rewrite bind_modify.
    + rewrite bind_gets. destruct (truthy (_last_successful_data self));
        [reflexivity|]. now rewrite bind_modify.
Qed.

(** The tick when the schedule evaluation raises. *)
Lemma async_update_data_raises (self : coordinator) (t : tick) (e : exn) :
  should_update_now self (now_schedule t) = Raise e ->
  _async_update_data t self = (Raise e, self, []).
Proof.
  intros H. unfold _async_update_data.
  rewrite bind_gets. unfold id at 1. now rewrite bind_lift, H.
Qed.

Lemma should_update_now_settings (s1 s2 : coordinator) (now : datetime) :
  settings s1 = settings s2 -> should_update_now s1 now = should_update_now s2 now.
Proof.
  unfold settings, should_update_now. intros H.
  injection H as _ _ _ _ _ H1 H2 H3 H4 H5. now rewrite H1, H2, H3, H4, H5.
Qed.

(** C1.  A tick whose minute of the day equals [_last_update_minute]
    performs no fetch and no notification and changes nothing; when the
    schedule evaluation returns, the tick returns the cached snapshot if
    there is one and raises [UpdateFailed("Waiting for scheduled update")]
    if there is none.  In particular a second tick in the minute of a tick
    that fetched returns the very same snapshot without a network call. *)
Theorem same_minute_short_circuit (self : coordinator) (t : tick) :
  minute_of_day (now t) = _last_update_minute self ->
  let r := _async_update_data t self in
  (events_of r = [] /\ state_of r = self) /\
  (forall b n,
      should_update_now self (now_schedule t) = Return (b, n) ->
      (truthy (_last_successful_data self) = true ->
       result_of r = Return (_last_successful_data self)) /\
      (truthy (_last_successful_data self) = false ->
       result_of r = Raise (Exn UpdateFailed [Lit "Waiting for scheduled update"]))) /\
  (forall t0 before d b n,
      let r0 := _async_update_data t0 before in
      minute_of_day (now t0) <> _last_update_minute before ->
      network_calls (events_of r0) = 1%nat ->
      result_of r0 = Return d ->
      state_of r0 = self ->
      should_update_now self (now_schedule t) = Return (b, n) ->
      r = (Return d, self, [])).
Proof.
  intros Hmin. cbv zeta.
  assert (Hrun : forall b n,
    should_update_now self (now_schedule t) = Return (b, n) ->
    _async_update_data t self =
    if truthy (_last_successful_data self)
    then (Return (_last_successful_data self), self, [])
    else (Raise waiting, self, [])).
  { intros b n H. rewrite (async_update_data_run self t b n H).
    apply Z.eqb_eq in Hmin. now rewrite Hmin. }
  split; [|split].
  - destruct (should_update_now self (now_schedule t)) as [[b n]|e] eqn:H.
    + rewrite (Hrun b n eq_refl).
      now destruct (truthy (_last_successful_data self)).
    + now rewrite (async_update_data_raises self t e H).
  - intros b n H. rewrite (Hrun b n H).
    split; intros ->; reflexivity.
  - intros t0 before d b n Hne Hcalls Hd Hs H.
    rewrite (Hrun b n H).
    destruct (should_update_now before (now_schedule t0)) as [[b0 n0]|e0] eqn:H0.
    2:{ rewrite (async_update_data_raises before t0 e0 H0) in Hd.
        discriminate Hd. }
    rewrite (async_update_data_run before t0 b0 n0 H0) in Hcalls, Hd, Hs.
    apply Z.eqb_neq in Hne. rewrite Hne in Hcalls, Hd, Hs.
    destruct (negb b0 && truthy (_last_successful_data before));
      [cbn in Hcalls; discriminate Hcalls|].
    pose proof (fetch_data_frame
                  (set_last_update_minute (minute_of_day (now t0)) before)
                  (answer t0) (now_stamp t0)) as F.
    cbv zeta in F. destruct F as [_ [_ [_ F]]].
    rewrite Hd, Hs in F. destruct F as [-> ->]. reflexivity.
Qed.

Lemma same_minute_short_circuit_witness :
  minute_of_day (now (sample.tick_at 2 10 15 sample.ok)) = 615 /\
  result_of (_async_update_data (sample.tick_at 2 10 15 sample.ok) sample.warm)
  = Return sample.snapshot /\
  events_of (_async_update_data (sample.tick_at 2 10 15 sample.ok) sample.warm)
  = [].
Proof.
  split; [reflexivity|].
  pose proof (same_minute_short_circuit sample.warm
                (sample.tick_at 2 10 15 sample.ok) eq_refl) as H.
  cbv zeta in H. destruct H as [[Hev _] [Hres _]].
  split; [|exact Hev].
  apply (proj1 (Hres true 60 eq_refl)). reflexivity.
Defined.

(** C9.  A tick at a new minute of the day for which the schedule policy
    returns false: with a cached snapshot it returns the snapshot and does
    nothing else; without one it records the minute and runs the
    fetch-and-parse cycle, which sends one request. *)
Theorem unscheduled_tick (self : coordinator) (t : tick) (n : Z) :
  minute_of_day (now t) <> _last_update_minute self ->
  should_update_now self (now_schedule t) = Return (false, n) ->
  let r := _async_update_data t self in
  (truthy (_last_successful_data self) = true ->
   r = (Return (_last_successful_data self), self, []) /\
   network_calls (events_of r) = 0%nat) /\
  (truthy (_last_successful_data self) = false ->
   r = _fetch_data (answer t) (now_stamp t)
         (set_last_update_minute (minute_of_day (now t)) self) /\
   _last_update_minute (state_of r) = minute_of_day (now t) /\
   network_calls (events_of r) = 1%nat /\
   In (request_of self) (events_of r)).
Proof.
  intros Hne H. cbv zeta.
  rewrite (async_update_data_run self t false n H).
  apply Z.eqb_neq in Hne. rewrite Hne. cbn [negb andb].
  split; intros ->; [now split|].
  split; [reflexivity|].
  pose proof (fetch_data_frame
                (set_last_update_minute (minute_of_day (now t)) self)
                (answer t) (now_stamp t)) as F.
  cbv zeta in F. destruct F as [_ [Hmin [Hcalls _]]].
  split; [exact Hmin|]. split; [exact Hcalls|].
  pose proof (fetch_data_run
                (set_last_update_minute (minute_of_day (now t)) self) _
                (answer t) (now_stamp t) _ _
                (run_eta (_fetch_data (answer t) (now_stamp t)
                   (set_last_update_minute (minute_of_day (now t)) self))))
    as R.
  change (request_of (set_last_update_minute (minute_of_day (now t)) self))
    with (request_of self) in R.
  destruct (api_outcome _ (answer t)) as [summary|err].
  - destruct R as [-> _]. now left.
  - destruct R as [_ R].
    destruct (isinstance err TokenExpiredError);
      [destruct (_error_notified _)|].
    + destruct R as [_ ->]. now left.
    + destruct R as [_ [m [ti [i ->]]]]. now left.
    + destruct R as [_ ->]. now left.
Qed.

Lemma unscheduled_tick_witness :
  _async_update_data (sample.tick_at 5 11 20 sample.ok) sample.warm
  = (Return sample.snapshot, sample.warm, []) /\
  _last_update_minute
    (state_of (_async_update_data (sample.tick_at 5 10 15 sample.ok) sample.fresh))
  = 615.
Proof.
  split.
  - pose proof (unscheduled_tick sample.warm (sample.tick_at 5 11 20 sample.ok) 60
                  ltac:(vm_compute; discriminate) eq_refl) as H.
    cbv zeta in H. destruct H as [H _].
    destruct (H eq_refl) as [Hr _]. exact Hr.
  - pose proof (unscheduled_tick sample.fresh (sample.tick_at 5 10 15 sample.ok) 60
                  ltac:(vm_compute; discriminate) eq_refl) as H.
    cbv zeta in H. destruct H as [_ H].
    destruct (H eq_refl) as [_ [Hmin _]]. exact Hmin.
Defined.

End Tick.

(** *** Force refresh *)

Section ForceRefresh.

(** The refresh is the reset of the minute, the cycle, and on success the
    publication of the snapshot. *)
Lemma async_force_refresh_run (self : coordinator) (w : reply) (stamp : datetime) :
  let f := _fetch_data w stamp (set_last_update_minute (-1) self) in
  async_force_refresh w stamp self =
  match result_of f with
  | Return _ =>
      (Return tt, state_of f,
       (events_of f ++ [SetUpdatedData (_last_successful_data (state_of f))])%list)
  | Raise e => (Raise e, state_of f, events_of f)
  end.
Proof.
  cbv zeta. unfold async_force_refresh. rewrite bind_modify.
  unfold hass.bind at 1.
  destruct (_fetch_data w stamp (set_last_update_minute (-1) self))
    as [[[d|e] s1] ev]; reflexivity.
Qed.

(** No reading of the clock gives the sentinel. *)
Lemma sentinel_is_no_minute (now : datetime) :
  on_clock now -> 0 <= minute_of_day now <= 1439 /\ minute_of_day now <> -1.
Proof. unfold on_clock, minute_of_day. lia. Qed.

Lemma network_calls_app (ev1 ev2 : list event) :
  network_calls (ev1 ++ ev2) = (network_calls ev1 + network_calls ev2)%nat.
Proof. unfold network_calls. now rewrite filter_app, length_app. Qed.



End ForceRefresh.

(** ** Further properties *)

Import extra.

(** *** More on the time parser and the schedule *)

Section ScheduleEdges.

Lemma numeral_digits (s : string) : numeral s = true -> all_digits s = true.
Proof. unfold numeral. intros H. now apply andb_true_iff in H. Qed.

(** X1.  [parse_time] reads the first two components and ignores whatever
    follows a second colon: seconds, or any other text. *)
Theorem parse_time_ignores_the_rest (h m rest : string) :
  numeral h = true -> numeral m = true ->
  parse_time (h ++ ":" ++ m ++ ":" ++ rest)
  = Return (numeral_value h, numeral_value m).
Proof.
  intros Hh Hm. unfold parse_time.
  change (h ++ ":" ++ m ++ ":" ++ rest)%string
    with (h ++ String ":" (m ++ String ":" rest))%string.
  rewrite (split_at_first_sep h _ ":" (all_digits_no_colon h (numeral_digits h Hh))).
  rewrite (split_at_first_sep m _ ":" (all_digits_no_colon m (numeral_digits m Hm))).
  cbn [list_item nth_error Py.bind].
  rewrite (int_of_numeral h Hh). cbn [Py.bind].
  now rewrite (int_of_numeral m Hm).
Qed.

Lemma parse_time_ignores_the_rest_witness :
  parse_time "22:05:59.5 pm" = Return (22, 5).
Proof.
  apply (parse_time_ignores_the_rest "22" "05" "59.5 pm"); reflexivity.
Defined.

(** X2.  [parse_time] checks no range, and a configured morning time that
    is no time of the day is accepted and never fires: at every reading of
    the clock the policy is then true exactly for the night time and the
    weekday rule. *)
Theorem out_of_range_morning_never_fires (self : coordinator) (now : datetime)
    (mh mm nh nm : Z) :
  on_clock now ->
  parse_time (update_morning_time self) = Return (mh, mm) ->
  parse_time (update_night_time self) = Return (nh, nm) ->
  update_weekday_interval self <> 0 ->
  ~ (0 <= mh <= 23 /\ 0 <= mm <= 59) ->
  exists b,
    should_update_now self now = Return (b, 60) /\
    (b = true <->
     (hour now = nh /\ minute now = nm) \/
     (weekday now < 5 /\
      update_weekday_start self <= hour now < update_weekday_end self /\
      minute now mod update_weekday_interval self = 0)).
Proof.
  intros Hclock Hm Hn Hi Hout.
  destruct (should_update_now_iff self now mh mm nh nm Hm Hn Hi) as [b [Hb Hiff]].
  exists b. split; [exact Hb|].
  rewrite Hiff. unfold on_clock in Hclock.
  split; [intros [H|H]; [lia|exact H] | intros H; now right].
Qed.

Lemma out_of_range_morning_never_fires_witness :
  exists b,
    should_update_now (configured 15 9 21 "22:05" "24:00") (sample.at_time 6 0 0)
    = Return (b, 60) /\
    (b = true <->
     (0 = 22 /\ 0 = 5) \/ (6 < 5 /\ 9 <= 0 < 21 /\ 0 mod 15 = 0)).
Proof.
  apply (out_of_range_morning_never_fires
           (configured 15 9 21 "22:05" "24:00") (sample.at_time 6 0 0) 24 0 22 5);
    try reflexivity.
  - unfold on_clock. cbn. lia.
  - vm_compute. discriminate.
  - lia.
Defined.

(** X3.  With options in the ranges of the options flow the weekday rule
    cannot reach the last hour of the day: the end hour is at most 23 and is
    excluded, so between 23:00 and 23:59 the policy is true only at the
    morning time and at the night time. *)
Theorem last_hour_is_outside_the_window (self : coordinator) (now : datetime)
    (mh mm nh nm : Z) :
  in_range self ->
  hour now = 23 ->
  parse_time (update_morning_time self) = Return (mh, mm) ->
  parse_time (update_night_time self) = Return (nh, nm) ->
  should_update_now self now
  = Return ((hour now =? mh) && (minute now =? mm)
            || (hour now =? nh) && (minute now =? nm), 60).
Proof.
  intros [_ [_ Hend]] Hhour Hm Hn.
  rewrite (should_update_now_parsed self now mh mm nh nm Hm Hn).
  destruct ((hour now =? mh) && (minute now =? mm)); [reflexivity|].
  destruct ((hour now =? nh) && (minute now =? nm)); [reflexivity|].
  destruct (Z.ltb_spec (hour now) (update_weekday_end self)); [lia|].
  now rewrite !andb_false_r.
Qed.

Lemma last_hour_is_outside_the_window_witness :
  should_update_now (configured 1 0 23 "22:05" "04:00") (sample.at_time 0 23 30)
  = Return (false, 60).
Proof.
  refine (last_hour_is_outside_the_window (configured 1 0 23 "22:05" "04:00")
            (sample.at_time 0 23 30) 4 0 22 5 _ eq_refl eq_refl eq_refl).
  unfold in_range. cbn. lia.
Defined.

(** X4.  The two ends of the interval range.  Inside the weekday window,
    away from the two daily times, an interval of 1 fires at every minute
    and an interval of 60 only on the hour. *)
Theorem interval_at_its_bounds (self : coordinator) (now : datetime)
    (mh mm nh nm : Z) :
  on_clock now ->
  parse_time (update_morning_time self) = Return (mh, mm) ->
  parse_time (update_night_time self) = Return (nh, nm) ->
  (hour now =? mh) && (minute now =? mm) = false ->
  (hour now =? nh) && (minute now =? nm) = false ->
  weekday now < 5 ->
  update_weekday_start self <= hour now < update_weekday_end self ->
  (update_weekday_interval self = 1 ->
   should_update_now self now = Return (true, 60)) /\
  (update_weekday_interval self = 60 ->
   should_update_now self now = Return (minute now =? 0, 60)).
Proof.
  intros Hclock Hm Hn Em En Hwd Hwin.
  rewrite (should_update_now_parsed self now mh mm nh nm Hm Hn), Em, En.
  destruct (Z.ltb_spec (weekday now) 5); [|lia].
  destruct (Z.leb_spec (update_weekday_start self) (hour now)); [|lia].
  destruct (Z.ltb_spec (hour now) (update_weekday_end self)); [|lia].
  cbn [andb]. unfold on_clock in Hclock.
  split; intros ->; cbn [int_mod Z.eqb Py.bind].
  - now rewrite Z.mod_1_r.
  - rewrite Z.mod_small by lia. reflexivity.
Qed.

Lemma interval_at_its_bounds_witness :
  should_update_now (configured 60 9 21 "22:05" "04:00") (sample.at_time 2 10 30)
  = Return (false, 60).
Proof.
  refine (proj2 (interval_at_its_bounds (configured 60 9 21 "22:05" "04:00")
                   (sample.at_time 2 10 30) 4 0 22 5 _ eq_refl eq_refl eq_refl
                   eq_refl _ _) eq_refl).
  - unfold on_clock. cbn. lia.
  - cbn. lia.
  - cbn. lia.
Defined.

End ScheduleEdges.

(** *** More on the locale number parser *)

Section NumberFormat.

Lemma all_chars_app (p : ascii -> bool) (a b : string) :
  all_chars p (a ++ b) = all_chars p a && all_chars p b.
Proof.
  induction a as [|c rest IH]; [reflexivity|].
  cbn [String.append all_chars]. now rewrite IH, andb_assoc.
Qed.

Lemma all_chars_weaken (p q : ascii -> bool) (s : string) :
  (forall c, p c = true -> q c = true) ->
  all_chars p s = true -> all_chars q s = true.
Proof.
  intros Hpq. induction s as [|c rest IH]; [reflexivity|].
  cbn [all_chars]. intros H. apply andb_true_iff in H as [Hc Hrest].
  now rewrite (Hpq c Hc), (IH Hrest).
Qed.

Lemma all_digits_all_chars (s : string) : all_digits s = all_chars is_digit s.
Proof. induction s as [|c rest IH]; [reflexivity|]. cbn. now rewrite IH. Qed.

Lemma delete_char_absent (c : ascii) (s : string) :
  all_chars (fun a => negb (Ascii.eqb a c)) s = true -> delete_char c s = s.
Proof.
  induction s as [|a rest IH]; [reflexivity|].
  cbn [all_chars delete_char]. intros H.
  apply andb_true_iff in H as [Ha Hrest].
  apply negb_true_iff in Ha. now rewrite Ha, (IH Hrest).
Qed.

Lemma delete_char_app (c : ascii) (a b : string) :
  delete_char c (a ++ b) = (delete_char c a ++ delete_char c b)%string.
Proof.
  induction a as [|x rest IH]; [reflexivity|].
  cbn [String.append delete_char]. rewrite IH. now destruct (Ascii.eqb x c).
Qed.

Lemma subst_char_app (c d : ascii) (a b : string) :
  subst_char c d (a ++ b) = (subst_char c d a ++ subst_char c d b)%string.
Proof.
  induction a as [|x rest IH]; [reflexivity|].
  cbn [String.append subst_char]. now rewrite IH.
Qed.

Lemma subst_char_absent (c d : ascii) (s : string) :
  all_chars (fun a => negb (Ascii.eqb a c)) s = true -> subst_char c d s = s.
Proof.
  induction s as [|a rest IH]; [reflexivity|].
  cbn [all_chars subst_char]. intros H.
  apply andb_true_iff in H as [Ha Hrest].
  apply negb_true_iff in Ha. now rewrite Ha, (IH Hrest).
Qed.

Lemma plain_facts (c : ascii) :
  plain c = true ->
  Ascii.eqb c "%" = false /\ Ascii.eqb c " " = false /\ is_space c = false /\
  Ascii.eqb c "_" = false /\
  forall rest, String.prefix "€" (String c rest) = false.
Proof.
  destruct c as [[] [] [] [] [] [] [] []]; intros H;
    try discriminate H; repeat split.
Qed.

Lemma replace_euro_plain (s : string) :
  all_chars plain s = true -> replace s "€" "" = s.
Proof.
  unfold replace. induction s as [|c rest IH]; [reflexivity|].
  cbn [all_chars]. intros H. apply andb_true_iff in H as [Hc Hrest].
  destruct (plain_facts c Hc) as [_ [_ [_ [_ He]]]].
  cbn [replace_from]. now rewrite (He rest), (IH Hrest).
Qed.

Lemma lstrip_plain (s : string) : all_chars plain s = true -> lstrip s = s.
Proof.
  destruct s as [|c rest]; [reflexivity|].
  cbn [all_chars lstrip]. intros H. apply andb_true_iff in H as [Hc _].
  destruct (plain_facts c Hc) as [_ [_ [Hs _]]]. now rewrite Hs.
Qed.

Lemma rstrip_plain (s : string) : all_chars plain s = true -> rstrip s = s.
Proof.
  induction s as [|c rest IH]; [reflexivity|].
  cbn [all_chars rstrip]. intros H. apply andb_true_iff in H as [Hc Hrest].
  destruct (plain_facts c Hc) as [_ [_ [Hs _]]].
  rewrite (IH Hrest), Hs. now destruct rest.
Qed.

(** The cleaning leaves a text of plain characters as it is. *)
Lemma cleaning_plain (s : string) :
  all_chars plain s = true ->
  strip (delete_char " " (replace (delete_char "%" s) "€" "")) = s.
Proof.
  intros H.
  rewrite (delete_char_absent "%" s).
  2:{ apply (all_chars_weaken plain); [|exact H].
      intros c Hc. destruct (plain_facts c Hc) as [-> _]. reflexivity. }
  rewrite (replace_euro_plain s H).
  rewrite (delete_char_absent " " s).
  2:{ apply (all_chars_weaken plain); [|exact H].
      intros c Hc. destruct (plain_facts c Hc) as [_ [-> _]]. reflexivity. }
  unfold strip. now rewrite (lstrip_plain s H), (rstrip_plain s H).
Qed.

Lemma decimal_app (a b : string) (acc : Z) :
  decimal (a ++ b) acc = decimal b (decimal a acc).
Proof.
  revert acc. induction a as [|c rest IH]; intros acc; [reflexivity|].
  cbn [String.append decimal]. apply IH.
Qed.

Lemma scan_digits_end (d : string) (acc : Z) (n : nat) :
  all_digits d = true ->
  scan_digits d acc n = (decimal d acc, (n + String.length d)%nat, "").
Proof.
  revert acc n. induction d as [|c rest IH]; intros acc n H.
  - cbn. now rewrite Nat.add_0_r.
  - cbn [all_digits] in H. apply andb_true_iff in H as [Hc Hrest].
    cbn [scan_digits decimal String.length]. rewrite Hc, (IH _ _ Hrest).
    now rewrite Nat.add_succ_r.
Qed.

Lemma scan_digits_stop (d : string) (c : ascii) (rest : string) (acc : Z) (n : nat) :
  all_digits d = true -> is_digit c = false ->
  scan_digits (d ++ String c rest) acc n
  = (decimal d acc, (n + String.length d)%nat, String c rest).
Proof.
  revert acc n. induction d as [|x more IH]; intros acc n H Hc.
  - cbn [String.append scan_digits decimal String.length]. rewrite Hc.
    now rewrite Nat.add_0_r.
  - cbn [all_digits] in H. apply andb_true_iff in H as [Hx Hmore].
    cbn [String.append scan_digits decimal String.length].
    rewrite Hx, (IH _ _ Hmore Hc). now rewrite Nat.add_succ_r.
Qed.

Lemma drop_underscores_none_to_drop (s : string) (prev : option ascii) :
  all_chars (fun c => negb (Ascii.eqb c "_")) s = true ->
  match prev with Some p => Ascii.eqb p "_" = false | None => True end ->
  drop_underscores s prev = Some s.
Proof.
  revert prev. induction s as [|c rest IH]; intros prev H Hprev.
  - cbn [drop_underscores]. destruct prev as [p|]; [|reflexivity].
    destruct p as [[] [] [] [] [] [] [] []]; try reflexivity; discriminate Hprev.
  - cbn [all_chars] in H. apply andb_true_iff in H as [Hc Hrest].
    apply negb_true_iff in Hc. cbn [drop_underscores]. rewrite Hc.
    rewrite (IH (Some c) Hrest Hc).
    destruct prev as [p|]; [|reflexivity].
    destruct p as [[] [] [] [] [] [] [] []]; try reflexivity; discriminate Hprev.
Qed.

Lemma scan_sign_unsigned (c : ascii) (rest : string) :
  is_digit c = true \/ c = "."%char ->
  scan_sign (String c rest) = (false, String c rest).
Proof.
  intros [H| ->]; [|reflexivity].
  destruct c as [[] [] [] [] [] [] [] []]; try discriminate H; reflexivity.
Qed.

Lemma digits_plain (s : string) : all_digits s = true -> all_chars plain s = true.
Proof.
  rewrite all_digits_all_chars. apply all_chars_weaken.
  intros c H. unfold plain. now rewrite H.
Qed.

(** [float] on digits, a point and digits. *)
Lemma float_literal_decimal (i f : string) :
  all_digits i = true -> numeral f = true ->
  float_literal (i ++ "." ++ f)
  = Some (float_of_decimal false (numeral_value (i ++ f))
            (- Z.of_nat (String.length f))).
Proof.
  intros Hi Hf. pose proof (numeral_digits f Hf) as Hdf.
  assert (Hplain : all_chars plain (i ++ "." ++ f) = true).
  { rewrite !all_chars_app, (digits_plain i Hi), (digits_plain f Hdf).
    reflexivity. }
  unfold float_literal.
  rewrite (drop_underscores_none_to_drop _ None); [|
    apply (all_chars_weaken plain); [|exact Hplain];
    intros c Hc; destruct (plain_facts c Hc) as [_ [_ [_ [-> _]]]]; reflexivity
    | exact I].
  unfold strip. rewrite (lstrip_plain _ Hplain), (rstrip_plain _ Hplain).
  assert (Hlit : decimal_literal (i ++ "." ++ f)
                 = Some (false, numeral_value (i ++ f),
                         - Z.of_nat (String.length f))).
  { unfold decimal_literal.
    assert (Hsign : scan_sign (i ++ "." ++ f) = (false, (i ++ "." ++ f)%string)).
    { destruct i as [|c rest]; [reflexivity|].
      cbn [all_digits] in Hi. apply andb_true_iff in Hi as [Hc _].
      cbn [String.append]. apply scan_sign_unsigned. now left. }
    rewrite Hsign.
    change (i ++ "." ++ f)%string with (i ++ String "." f)%string.
    rewrite (scan_digits_stop i "." f 0 0 Hi eq_refl).
    rewrite (scan_digits_end f _ 0 Hdf).
    unfold numeral_value. rewrite decimal_app.
    destruct f as [|c rest]; [discriminate Hf|].
    cbn [String.length Nat.add].
    rewrite Nat.add_succ_r. reflexivity. }
  now rewrite Hlit.
Qed.

(** [float] on digits alone. *)
Lemma float_literal_integer (i : string) :
  numeral i = true ->
  float_literal i = Some (float_of_decimal false (numeral_value i) 0).
Proof.
  intros Hn. pose proof (numeral_digits i Hn) as Hi.
  pose proof (digits_plain i Hi) as Hplain.
  unfold float_literal.
  rewrite (drop_underscores_none_to_drop _ None); [|
    apply (all_chars_weaken plain); [|exact Hplain];
    intros c Hc; destruct (plain_facts c Hc) as [_ [_ [_ [-> _]]]]; reflexivity
    | exact I].
  unfold strip. rewrite (lstrip_plain _ Hplain), (rstrip_plain _ Hplain).
  assert (Hlit : decimal_literal i = Some (false, numeral_value i, 0)).
  { unfold decimal_literal.
    destruct i as [|c rest]; [discriminate Hn|].
    pose proof Hi as Hi'. cbn [all_digits] in Hi'.
    apply andb_true_iff in Hi' as [Hc _].
    rewrite (scan_sign_unsigned c rest (or_introl Hc)).
    rewrite (scan_digits_end _ 0 0 Hi).
    cbn [String.length Nat.add]. reflexivity. }
  now rewrite Hlit.
Qed.

Lemma grouped_plain (s : string) : grouped s = true -> all_chars plain s = true.
Proof.
  unfold grouped. apply all_chars_weaken.
  intros c H. unfold plain. apply orb_true_iff in H as [H|H].
  - now rewrite H.
  - apply Ascii.eqb_eq in H. subst c. reflexivity.
Qed.

Lemma grouped_digits_left (s : string) :
  grouped s = true -> all_digits (delete_char "." s) = true.
Proof.
  unfold grouped. induction s as [|c rest IH]; [reflexivity|].
  cbn [all_chars delete_char]. intros H.
  apply andb_true_iff in H as [Hc Hrest].
  destruct (Ascii.eqb c "."); [now apply IH|].
  cbn [orb] in Hc. rewrite orb_false_r in Hc.
  cbn [all_digits]. now rewrite Hc, (IH Hrest).
Qed.

Lemma digits_no (c : ascii) (s : string) :
  is_digit c = false -> all_digits s = true ->
  all_chars (fun a => negb (Ascii.eqb a c)) s = true.
Proof.
  intros Hc. rewrite all_digits_all_chars. apply all_chars_weaken.
  intros a Ha. destruct (Ascii.eqb_spec a c) as [->|]; [congruence|reflexivity].
Qed.

(** The signed body of a number: what the parser makes of the sign. *)
Lemma sign_is_removed (sign body : string) (c : ascii) (rest : string) :
  sign = "" \/ sign = "+" \/ sign = "-" ->
  body = String c rest -> mem_char c "+-" = false ->
  lstrip_chars (sign ++ body) "+-" = body /\
  match (sign ++ body)%string with
  | String "-" _ => true
  | _ => false
  end = (sign =? "-")%string.
Proof.
  intros Hs -> Hc.
  assert (Hl : lstrip_chars (String c rest) "+-" = String c rest)
    by (cbn [lstrip_chars]; now rewrite Hc).
  destruct Hs as [-> | [-> | ->]]; cbn [String.append].
  - split; [exact Hl|].
    destruct c as [[] [] [] [] [] [] [] []]; try reflexivity; discriminate Hc.
  - split; [|reflexivity]. cbn [lstrip_chars mem_char Ascii.eqb Bool.eqb orb andb].
    exact Hl.
  - split; [|reflexivity]. cbn [lstrip_chars mem_char Ascii.eqb Bool.eqb orb andb].
    exact Hl.
Qed.

(** X5.  On a number in the European format (an optional sign, digits in
    groups separated by dots, and either a comma and the decimals, or
    nothing) the parser gives the float of the number written: the digits
    without the dots, scaled by the number of decimals, and negated after
    the conversion when the sign is a minus. *)
Theorem european_format_is_read (sign i f : string) :
  sign = "" \/ sign = "+" \/ sign = "-" ->
  grouped i = true ->
  (numeral f = true ->
   parse_european_number (VStr (sign ++ i ++ "," ++ f))
   = Return (let x := float_of_decimal false
                        (numeral_value (delete_char "." i ++ f))
                        (- Z.of_nat (String.length f)) in
             if (sign =? "-")%string then neg x else x)) /\
  (numeral (delete_char "." i) = true ->
   parse_european_number (VStr (sign ++ i))
   = Return (let x := float_of_decimal false
                        (numeral_value (delete_char "." i)) 0 in
             if (sign =? "-")%string then neg x else x)).
Proof.
  intros Hs Hi.
  assert (Hsp : all_chars plain sign = true)
    by (destruct Hs as [-> | [-> | ->]]; reflexivity).
  pose proof (grouped_plain i Hi) as Hip.
  pose proof (grouped_digits_left i Hi) as Hid.
  split.
  - intros Hf. pose proof (numeral_digits f Hf) as Hdf.
    rewrite parse_european_number_str.
    unfold parse_locale_number_spec, locale_digits, locale_negative.
    rewrite cleaning_plain
      by (rewrite !all_chars_app, Hsp, Hip, (digits_plain f Hdf); reflexivity).
    assert (Hbody : exists c rest, (i ++ "," ++ f)%string = String c rest /\
                                   mem_char c "+-" = false).
    { destruct i as [|c rest]; cbn [String.append].
      - now exists ","%char, f.
      - exists c, (rest ++ "," ++ f)%string. split; [reflexivity|].
        unfold grouped in Hi. cbn [all_chars] in Hi.
        apply andb_true_iff in Hi as [Hc _].
        destruct c as [[] [] [] [] [] [] [] []]; try discriminate Hc; reflexivity. }
    destruct Hbody as [c [rest [Hb Hc]]].
    destruct (sign_is_removed sign _ c rest Hs Hb Hc) as [-> ->].
    change (i ++ "," ++ f)%string with (i ++ String "," f)%string.
    rewrite delete_char_app. cbn [delete_char Ascii.eqb Bool.eqb].
    rewrite (delete_char_absent "." f) by (apply digits_no; [reflexivity|exact Hdf]).
    rewrite subst_char_app. cbn [subst_char Ascii.eqb Bool.eqb].
    rewrite (subst_char_absent "," "." (delete_char "." i))
      by (apply digits_no; [reflexivity|exact Hid]).
    rewrite (subst_char_absent "," "." f) by (apply digits_no; [reflexivity|exact Hdf]).
    change (delete_char "." i ++ String "." f)%string
      with (delete_char "." i ++ "." ++ f)%string.
    now rewrite (float_literal_decimal _ f Hid Hf).
  - intros Hn.
    rewrite parse_european_number_str.
    unfold parse_locale_number_spec, locale_digits, locale_negative.
    rewrite cleaning_plain by (rewrite !all_chars_app, Hsp, Hip; reflexivity).
    assert (Hbody : exists c rest, i = String c rest /\ mem_char c "+-" = false).
    { destruct i as [|c rest]; [discriminate Hn|].
      exists c, rest. split; [reflexivity|].
      unfold grouped in Hi. cbn [all_chars] in Hi.
      apply andb_true_iff in Hi as [Hc _].
      destruct c as [[] [] [] [] [] [] [] []]; try discriminate Hc; reflexivity. }
    destruct Hbody as [c [rest [Hb Hc]]].
    destruct (sign_is_removed sign i c rest Hs Hb Hc) as [-> ->].
    rewrite (subst_char_absent "," "." (delete_char "." i))
      by (apply digits_no; [reflexivity|exact Hid]).
    now rewrite (float_literal_integer _ Hn).
Qed.

Lemma european_format_is_read_witness :
  parse_european_number (VStr "-1.240.937,98")
  = Return (neg (float_of_decimal false 124093798 (-2))).
Proof.
  apply (proj1 (european_format_is_read "-" "1.240.937" "98"
                  (or_intror (or_intror eq_refl)) eq_refl)).
  reflexivity.
Defined.

(** X6.  Percent signs count for nothing, wherever they stand. *)
Theorem percent_signs_are_ignored (a b : string) :
  parse_european_number (VStr (a ++ "%" ++ b))
  = parse_european_number (VStr (a ++ b)).
Proof.
  rewrite !parse_european_number_str.
  unfold parse_locale_number_spec, locale_digits, locale_negative.
  rewrite !delete_char_app. cbn [delete_char Ascii.eqb Bool.eqb String.append].
  reflexivity.
Qed.

End NumberFormat.

(** *** More on the fetch-and-parse cycle *)

Section Cycle.

Lemma parse_european_number_raises (v : value) (e : exn) :
  parse_european_number v = Raise e ->
  e = no_attribute v "replace" /\ truthy v = true.
Proof.
  destruct v as [| b | z | f | s | l | d].
  - discriminate.
  - destruct b; [|discriminate]. intros [= <-]. now split.
  - unfold parse_european_number. cbn [truthy].
    destruct (z =? 0); cbn [negb]; [discriminate|]. intros [= <-]. now split.
  - unfold parse_european_number.
    destruct (truthy (VFloat f)); cbn [negb]; [|discriminate].
    intros [= <-]. now split.
  - rewrite parse_european_number_str. discriminate.
  - destruct l; [discriminate|]. intros [= <-]. now split.
  - destruct d; [discriminate|]. intros [= <-]. now split.
Qed.

(** What the API client returns is the summary dict of a non-empty object. *)
Lemma summary_outcome_returns (pid : Z) (w : reply) (v : value) :
  summary_outcome pid w = Return v ->
  exists sd, v = summary_dict (VDict sd) /\ truthy (VDict sd) = true.
Proof.
  destruct w as [| msg | status b]; try discriminate.
  destruct (Z.eq_dec status 200) as [->|Hs];
    [|rewrite summary_outcome_not_200 by exact Hs; discriminate].
  destruct b as [body | msg | msg]; try discriminate.
  destruct (envelope_shaped body) eqn:Hshape.
  - pose proof (summary_outcome_200 pid body Hshape) as H.
    unfold classified_as in H. intros E. rewrite E in H.
    destruct (upstream_failure body) as [code|].
    { destruct (eq_str code "1001"); [discriminate H|].
      destruct (eq_str code "203"); discriminate H. }
    unfold locate_summary in H.
    destruct (member body "data") as [data|];
      [|destruct H as [m H]; discriminate H].
    destruct (truthy data); [|destruct H as [m H]; discriminate H].
    assert (Hno : forall r : outcome value,
              r = Return v -> ~ parsed_as Absent r /\ ~ parsed_as Mistyped r).
    { intros r ->. split; [intros [m Hm]; discriminate Hm|].
      intros [[m Hm]|[m Hm]]; discriminate Hm. }
    destruct (Hno _ eq_refl) as [HA HM].
    destruct data as [| | | | | [|[| | | | | |first] rest] |];
      try (now elim HM); try (now elim HA).
    destruct (lookup first "screen_data") as [summary|]; [|now elim HA].
    destruct (truthy summary) eqn:Ht; [|now elim HA].
    destruct summary as [| | | | | |sd]; try (now elim HM).
    cbn [parsed_as] in H. injection H as ->. now exists sd.
  - unfold summary_outcome, api.get_portfolio_summary.
    destruct body as [| | | | | |d]; try discriminate.
    cbn [envelope_shaped] in Hshape. eval_py.
    destruct (lookup d "system") as [[| | | | | |sys]|]; try discriminate Hshape;
      discriminate.
Qed.

(** A cycle whose API call returns a summary: the five numbers are parsed in
    turn, and a field that is no text and not falsy lets the error out. *)
Lemma fetch_data_on_dict (self : coordinator) (w : reply) (stamp : datetime)
    (sd : list (string * value)) :
  api_outcome self w = Return (summary_dict (VDict sd)) ->
  _fetch_data w stamp self =
  match parsed_numbers (VDict sd) with
  | Return n =>
      let snap := snapshot_of (portfolio_name self) (isoformat stamp) (VDict sd) n in
      (Return snap,
       set_last_successful_data snap (set_error_notified false self),
       [request_of self])
  | Raise e => (Raise e, set_error_notified false self, [request_of self])
  end.
Proof.
  unfold api_outcome, request_of. intros H.
  unfold _fetch_data. norm. rewrite get_portfolio_summary_run, H.
  unfold parsed_numbers, summary_dict.
  norm. cbn [get lookup String.eqb Ascii.eqb Bool.eqb].
  repeat match goal with
  | |- context [parse_european_number ?v] =>
      let E := fresh "E" in
      destruct (parse_european_number v) as [?x|?e] eqn:E;
      [ norm; cbn [Py.bind]
      | apply parse_european_number_raises in E as [-> _]; reflexivity ]
  end.
  reflexivity.
Qed.

End Cycle.

Section CycleProperties.

Lemma api_outcome_found (self : coordinator) (body : value)
    (sd : list (string * value)) :
  envelope_shaped body = true ->
  upstream_failure body = None ->
  locate_summary body = Found (VDict sd) ->
  api_outcome self (Response 200 (Decoded body)) = Return (summary_dict (VDict sd)).
Proof.
  intros Hshape Hup Hloc. unfold api_outcome.
  pose proof (summary_outcome_200 (portfolio_id self) body Hshape) as H.
  unfold classified_as in H. now rewrite Hup, Hloc in H.
Qed.

(** X7.  A cycle on a response with status 200 that carries a summary: the
    five fields are parsed in the order of the source; when all five parse,
    the snapshot holds the portfolio name, the five numbers, the time stamp
    and the raw summary, it is stored and returned, and the notification
    flag is cleared; when a field is neither text nor falsy, the error of
    the parser leaves the cycle as it is, with the flag cleared and the
    stored snapshot untouched.  One request goes out either way. *)
Theorem cycle_on_a_summary (self : coordinator) (stamp : datetime)
    (body : value) (sd : list (string * value)) :
  envelope_shaped body = true ->
  upstream_failure body = None ->
  locate_summary body = Found (VDict sd) ->
  _fetch_data (Response 200 (Decoded body)) stamp self =
  match parsed_numbers (VDict sd) with
  | Return n =>
      let snap := snapshot_of (portfolio_name self) (isoformat stamp) (VDict sd) n in
      (Return snap,
       set_last_successful_data snap (set_error_notified false self),
       [request_of self])
  | Raise e => (Raise e, set_error_notified false self, [request_of self])
  end.
Proof.
  intros Hshape Hup Hloc.
  apply fetch_data_on_dict. now apply api_outcome_found.
Qed.

Lemma cycle_on_a_summary_witness :
  _fetch_data (Response 200 (Decoded numeric_body)) (sample.at_time 2 10 15)
    sample.warm
  = (Raise (Exn AttributeError
              [Lit "'"; Lit "int"; Lit "' object has no attribute '";
               Lit "replace"; Lit "'"]),
     set_error_notified false sample.warm,
     [request_of sample.warm]).
Proof.
  exact (cycle_on_a_summary sample.warm (sample.at_time 2 10 15) numeric_body
           [("MarketValue", VInt 240937); ("OpenPL", VStr "+70.864,27")]
           eq_refl eq_refl eq_refl).
Defined.

Lemma fetch_data_api_failure (self : coordinator) (w : reply) (stamp : datetime)
    (err : exn) :
  api_outcome self w = Raise err ->
  exists head tl,
    result_of (_fetch_data w stamp self) = Raise (Exn UpdateFailed (Lit head :: tl)) /\
    head <> "Error parsing API response: ".
Proof.
  unfold api_outcome. intros Herr.
  destruct (_fetch_data w stamp self) as [[r s'] ev] eqn:H.
  unfold _fetch_data in H. norm_in H.
  rewrite get_portfolio_summary_run, Herr in H.
  norm_in H. cbn [existsb] in H. rewrite !orb_false_r in H.
  rewrite (isinstance_exception err) in H.
  destruct (isinstance err TokenExpiredError);
    [destruct (_error_notified self)
    |destruct (isinstance err PortfolioNotFoundError);
     [|destruct (isinstance err PortfolioError)]];
    norm_in H; injection H as <- _ _; cbn [result_of fst];
    do 2 eexists; (split; [reflexivity|discriminate]).
Qed.

Lemma parsed_numbers_raises (summary : value) (e : exn) :
  parsed_numbers summary = Raise e -> exn_cls e = AttributeError.
Proof.
  unfold parsed_numbers.
  repeat match goal with
  | |- context [parse_european_number ?v] =>
      let E := fresh "E" in
      destruct (parse_european_number v) eqn:E; cbn [Py.bind];
      [| apply parse_european_number_raises in E as [-> _];
         now intros [= <-] ]
  end.
  discriminate.
Qed.

(** X8.  What a cycle can raise.  When the API call fails, whatever the
    failure, the cycle raises [UpdateFailed]; when the API call returns, the
    cycle can only raise the [AttributeError] of the number parser, which
    the [except (KeyError, IndexError)] of the parse block does not catch.
    That clause never fires: no cycle raises
    [UpdateFailed("Error parsing API response: ...")]. *)
Theorem errors_of_a_cycle (self : coordinator) (w : reply) (stamp : datetime) :
  let r := result_of (_fetch_data w stamp self) in
  (forall e, r = Raise e ->
     (exn_cls e = UpdateFailed /\ exists err, api_outcome self w = Raise err) \/
     (exn_cls e = AttributeError /\ exists v, api_outcome self w = Return v)) /\
  (forall tl, r <> Raise (Exn UpdateFailed (Lit "Error parsing API response: " :: tl))).
Proof.
  cbv zeta.
  destruct (api_outcome self w) as [v|err] eqn:Hapi.
  - pose proof Hapi as Hv. unfold api_outcome in Hv.
    apply summary_outcome_returns in Hv as [sd [-> _]].
    rewrite (fetch_data_on_dict self w stamp sd Hapi).
    destruct (parsed_numbers (VDict sd)) as [n|e0] eqn:Hn; cbn [result_of fst].
    + split; [discriminate|discriminate].
    + apply parsed_numbers_raises in Hn.
      split.
      * intros e [= <-]. right. split; [exact Hn|]. eexists. reflexivity.
      * intros tl [= ->]. discriminate Hn.
  - destruct (fetch_data_api_failure self w stamp err Hapi) as [head [tl0 [-> Hhead]]].
    split.
    + intros e [= <-]. left. split; [reflexivity|]. now exists err.
    + intros tl [= -> _]. now elim Hhead.
Qed.

Lemma errors_of_a_cycle_witness :
  (exn_cls (no_attribute (VInt 240937) "replace") = UpdateFailed /\
   exists err,
     api_outcome sample.warm (Response 200 (Decoded numeric_body)) = Raise err) \/
  (exn_cls (no_attribute (VInt 240937) "replace") = AttributeError /\
   exists v,
     api_outcome sample.warm (Response 200 (Decoded numeric_body)) = Return v).
Proof.
  pose proof (errors_of_a_cycle sample.warm (Response 200 (Decoded numeric_body))
                (sample.at_time 2 10 15)) as H.
  cbv zeta in H. destruct H as [H _].
  apply H. vm_compute. reflexivity.
Defined.

(** X9.  Every failure of the transport, and every HTTP status other than
    200, ends the cycle with [UpdateFailed], after the one request, without
    a notification and with the coordinator as it was, flag and snapshot
    included: a timeout, a connection error and a body that is no JSON are
    reported as unexpected errors, a status as an API error. *)
Theorem transport_failures_are_update_failures (self : coordinator)
    (stamp : datetime) :
  let unexpected (m : text) : outcome value * coordinator * list event :=
    (Raise (Exn UpdateFailed
              ([Lit "Unexpected error fetching data for '";
                Lit (portfolio_name self); Lit "': "] ++ m)%list),
     self, [request_of self]) in
  _fetch_data TimedOut stamp self = unexpected [] /\
  (forall msg, _fetch_data (Unreachable msg) stamp self = unexpected [Lit msg]) /\
  (forall msg,
      _fetch_data (Response 200 (WrongContentType msg)) stamp self
      = unexpected [Lit msg]) /\
  (forall msg,
      _fetch_data (Response 200 (NotJson msg)) stamp self = unexpected [Lit msg]) /\
  (forall status b,
      status <> 200 ->
      _fetch_data (Response status b) stamp self
      = (Raise (Exn UpdateFailed
                  [Lit "API error for '"; Lit (portfolio_name self); Lit "': ";
                   Lit "HTTP error "; Str (VInt status)]),
         self, [request_of self])).
Proof.
  cbv zeta. unfold request_of.
  repeat split; intros; unfold _fetch_data; norm;
    rewrite get_portfolio_summary_run;
    try rewrite summary_outcome_not_200 by assumption; reflexivity.
Qed.

Lemma transport_failures_are_update_failures_witness :
  _fetch_data (Response 503 (NotJson "upstream down")) (sample.at_time 2 10 15)
    sample.warm
  = (Raise (Exn UpdateFailed
              [Lit "API error for '"; Lit "My Portfolio"; Lit "': ";
               Lit "HTTP error "; Str (VInt 503)]),
     sample.warm, [request_of sample.warm]).
Proof.
  pose proof (transport_failures_are_update_failures sample.warm
                (sample.at_time 2 10 15)) as H.
  cbv zeta in H. destruct H as [_ [_ [_ [_ H]]]].
  apply H. discriminate.
Defined.

End CycleProperties.

(** *** More on the tick *)

Section Ticks.

Lemma fetch_data_events (self : coordinator) (w : reply) (stamp : datetime) :
  events_of (_fetch_data w stamp self) = [request_of self] \/
  exists m t i,
    events_of (_fetch_data w stamp self)
    = [request_of self; PersistentNotification m t i].
Proof.
  pose proof (fetch_data_run self _ w stamp _ _ (run_eta (_fetch_data w stamp self)))
    as H.
  destruct (api_outcome self w) as [summary|err].
  - destruct H as [-> _]. now left.
  - destruct H as [_ H].
    destruct (isinstance err TokenExpiredError);
      [destruct (_error_notified self)|].
    + destruct H as [_ ->]. now left.
    + destruct H as [_ H]. now right.
    + destruct H as [_ ->]. now left.
Qed.

Lemma fetch_data_returns_snapshot (self : coordinator) (w : reply)
    (stamp : datetime) (d : value) :
  result_of (_fetch_data w stamp self) = Return d ->
  is_snapshot (portfolio_name self) d.
Proof.
  destruct (api_outcome self w) as [v|err] eqn:Hapi.
  - pose proof Hapi as Hv. unfold api_outcome in Hv.
    apply summary_outcome_returns in Hv as [sd [-> _]].
    rewrite (fetch_data_on_dict self w stamp sd Hapi).
    destruct (parsed_numbers (VDict sd)) as [n|e]; cbn [result_of fst];
      [|discriminate].
    intros [= <-]. now exists (isoformat stamp), (VDict sd), n.
  - destruct (fetch_data_api_failure self w stamp err Hapi) as [h [tl [-> _]]].
    discriminate.
Qed.

(** The three ways of a tick: it raises and does nothing, it returns the
    cached snapshot and does nothing, or it is a cycle at a new minute. *)
Lemma tick_cases (self : coordinator) (t : tick) :
  let r := _async_update_data t self in
  (exists e, r = (Raise e, self, [])) \/
  (r = (Return (_last_successful_data self), self, []) /\
   truthy (_last_successful_data self) = true) \/
  (minute_of_day (now t) <> _last_update_minute self /\
   r = _fetch_data (answer t) (now_stamp t)
         (set_last_update_minute (minute_of_day (now t)) self)).
Proof.
  cbv zeta.
  destruct (should_update_now self (now_schedule t)) as [[b n]|e] eqn:H.
  - rewrite (async_update_data_run self t b n H).
    destruct (Z.eqb_spec (minute_of_day (now t)) (_last_update_minute self)).
    + destruct (truthy (_last_successful_data self)) eqn:Ht.
      * right. left. now split.
      * left. now exists waiting.
    + destruct (truthy (_last_successful_data self)) eqn:Ht;
        destruct b; cbn [negb andb].
      * right. right. now split.
      * right. left. now split.
      * right. right. now split.
      * right. right. now split.
  - left. exists e. now apply async_update_data_raises.
Qed.

(** X10.  The footprint of one tick: at most one request and at most one
    notification, and a notification only with a request; nothing is
    published to the listeners; the settings stay.  A tick without a request
    does nothing at all, and a tick with a request begins with it and
    records its minute of the day, whether the cycle then fails or not. *)
Theorem tick_footprint (self : coordinator) (t : tick) :
  let r := _async_update_data t self in
  (network_calls (events_of r) <= 1)%nat /\
  (notifications (events_of r) <= network_calls (events_of r))%nat /\
  (forall d, ~ In (SetUpdatedData d) (events_of r)) /\
  settings (state_of r) = settings self /\
  (network_calls (events_of r) = 0%nat -> state_of r = self /\ events_of r = []) /\
  (network_calls (events_of r) = 1%nat ->
   _last_update_minute (state_of r) = minute_of_day (now t) /\
   hd_error (events_of r) = Some (request_of self)).
Proof.
  cbv zeta.
  destruct (tick_cases self t) as [[e ->]|[[-> _]|[_ ->]]];
    cbn [events_of state_of snd fst].
  - repeat split; auto; discriminate.
  - repeat split; auto; discriminate.
  - set (start := set_last_update_minute (minute_of_day (now t)) self).
    pose proof (fetch_data_frame start (answer t) (now_stamp t)) as F.
    cbv zeta in F. destruct F as [Hset [Hmin [Hcalls _]]].
    rewrite Hcalls.
    assert (Hev : (notifications (events_of (_fetch_data (answer t) (now_stamp t) start))
                   <= 1)%nat /\
                  (forall d, ~ In (SetUpdatedData d)
                                 (events_of (_fetch_data (answer t) (now_stamp t) start))) /\
                  hd_error (events_of (_fetch_data (answer t) (now_stamp t) start))
                  = Some (request_of self)).
    { destruct (fetch_data_events start (answer t) (now_stamp t))
        as [->|[m [ti [i ->]]]].
      - repeat split; [cbn; lia|]. intros d [H|[]]. discriminate H.
      - repeat split; [cbn; lia|]. intros d [H|[H|[]]]; discriminate H. }
    destruct Hev as [Hn [Hp Hh]].
    repeat split; auto; discriminate.
Qed.

Lemma tick_footprint_witness :
  _last_update_minute
    (state_of (_async_update_data (sample.tick_at 2 10 30 sample.token_expired)
                 sample.warm))
  = 630.
Proof.
  pose proof (tick_footprint sample.warm
                (sample.tick_at 2 10 30 sample.token_expired)) as H.
  cbv zeta in H. destruct H as [_ [_ [_ [_ [_ H]]]]].
  destruct (H eq_refl) as [Hmin _]. exact Hmin.
Defined.

(** X11.  A cycle that fails is not retried within its minute.  After a
    tick that sent a request and raised, a tick in the same minute of the
    day sends nothing and changes nothing; when the schedule evaluation
    returns, it gives the snapshot cached before the failure, or raises
    [UpdateFailed("Waiting for scheduled update")] when there is none. *)
Theorem failed_fetch_is_not_retried_in_its_minute (self : coordinator)
    (t0 t : tick) (e : exn) :
  let r0 := _async_update_data t0 self in
  let r := _async_update_data t (state_of r0) in
  network_calls (events_of r0) = 1%nat ->
  result_of r0 = Raise e ->
  minute_of_day (now t) = minute_of_day (now t0) ->
  events_of r = [] /\ state_of r = state_of r0 /\
  (forall b n,
      should_update_now self (now_schedule t) = Return (b, n) ->
      result_of r = if truthy (_last_successful_data self)
                    then Return (_last_successful_data self)
                    else Raise waiting).
Proof.
  cbv zeta. intros Hcalls Hres Hmin.
  assert (Hs : settings (state_of (_async_update_data t0 self)) = settings self /\
               _last_update_minute (state_of (_async_update_data t0 self))
               = minute_of_day (now t0) /\
               _last_successful_data (state_of (_async_update_data t0 self))
               = _last_successful_data self).
  { destruct (tick_cases self t0) as [[e0 E]|[[E _]|[_ E]]];
      rewrite E in Hcalls, Hres |- *;
      try (cbn in Hcalls; discriminate Hcalls).
    pose proof (fetch_data_frame
                  (set_last_update_minute (minute_of_day (now t0)) self)
                  (answer t0) (now_stamp t0)) as F.
    cbv zeta in F. destruct F as [Hset [Hm [_ F]]].
    rewrite Hres in F. repeat split; assumption. }
  destruct Hs as [Hset [Hm Hd]].
  set (s1 := state_of (_async_update_data t0 self)) in *.
  assert (Heq : (minute_of_day (now t) =? _last_update_minute s1) = true)
    by (apply Z.eqb_eq; congruence).
  destruct (should_update_now s1 (now_schedule t)) as [[b n]|e1] eqn:H.
  - rewrite (async_update_data_run s1 t b n H), Heq, Hd.
    split; [now destruct (truthy _)|].
    split; [now destruct (truthy _)|].
    intros b' n' _. now destruct (truthy _).
  - rewrite (async_update_data_raises s1 t e1 H).
    split; [reflexivity|]. split; [reflexivity|].
    intros b' n' H'.
    rewrite (should_update_now_settings s1 self (now_schedule t) Hset) in H.
    rewrite H in H'. discriminate H'.
Qed.

Lemma failed_fetch_is_not_retried_in_its_minute_witness :
  events_of
    (_async_update_data (sample.tick_at 2 10 30 sample.ok)
       (state_of (_async_update_data (sample.tick_at 2 10 30 sample.token_expired)
                    sample.fresh)))
  = [].
Proof.
  pose proof (failed_fetch_is_not_retried_in_its_minute sample.fresh
                (sample.tick_at 2 10 30 sample.token_expired)
                (sample.tick_at 2 10 30 sample.ok)) as H.
  cbv zeta in H.
  destruct (H _ eq_refl eq_refl eq_refl) as [Hev _]. exact Hev.
Defined.

(** X12.  The duplicate guard compares minutes of the day, not dates.  From
    a coordinator with a snapshot cached at minute [m], a run of ticks of
    which each is at minute [m] of some day or unscheduled sends nothing and
    changes nothing, however many days go by: a schedule that fires at one
    minute of the day only never fetches a second time. *)
Theorem duplicate_guard_ignores_the_date (ts : list tick) (self : coordinator) :
  truthy (_last_successful_data self) = true ->
  Forall (fun t =>
            exists b n,
              should_update_now self (now_schedule t) = Return (b, n) /\
              (b = true -> minute_of_day (now t) = _last_update_minute self)) ts ->
  List.concat (fst (run_ticks ts self)) = [] /\ snd (run_ticks ts self) = self.
Proof.
  intros Hcache Hts.
  induction Hts as [|t rest [b [n [Hb Hm]]] _ IH]; [now split|].
  cbn [run_ticks].
  assert (E : _async_update_data t self
              = (Return (_last_successful_data self), self, [])).
  { rewrite (async_update_data_run self t b n Hb), Hcache.
    destruct (Z.eqb_spec (minute_of_day (now t)) (_last_update_minute self));
      [reflexivity|].
    destruct b; [|reflexivity]. now elim n0; apply Hm. }
  rewrite E. cbn [state_of events_of fst snd].
  destruct (run_ticks rest self) as [evs final].
  cbn [fst snd List.concat app] in *. exact IH.
Qed.

Lemma duplicate_guard_ignores_the_date_witness :
  let once_a_day := cached_at 1325 (configured 15 21 9 "22:05" "22:05") in
  List.concat (fst (run_ticks [tick_with (sample.at_time 0 22 5) sample.ok;
                          tick_with (sample.at_time 1 10 15) sample.ok;
                          tick_with (sample.at_time 1 22 5) sample.ok;
                          tick_with (sample.at_time 2 22 5) sample.ok]
                 once_a_day))
  = [].
Proof.
  cbv zeta.
  refine (proj1 (duplicate_guard_ignores_the_date
                   [tick_with (sample.at_time 0 22 5) sample.ok;
                    tick_with (sample.at_time 1 10 15) sample.ok;
                    tick_with (sample.at_time 1 22 5) sample.ok;
                    tick_with (sample.at_time 2 22 5) sample.ok]
                   (cached_at 1325 (configured 15 21 9 "22:05" "22:05"))
                   eq_refl _)).
  repeat constructor;
    match goal with
    | |- exists b n, _ =>
        first [ exists true, 60; split; [reflexivity|]; intros _; reflexivity
              | exists false, 60; split; [reflexivity|]; discriminate ]
    end.
Defined.

End Ticks.

Section TickProperties.

(** X13.  The first tick of a coordinator fetches, scheduled or not, as soon
    as the schedule evaluation returns: [__init__] leaves no snapshot and a
    minute that no reading of the clock gives. *)
Theorem first_tick_fetches (tok udid : string) (pid : Z) (name : string)
    (opts : option options) (t : tick) (b : bool) (n : Z) :
  let self := __init__ tok udid pid name opts in
  let r := _async_update_data t self in
  on_clock (now t) ->
  should_update_now self (now_schedule t) = Return (b, n) ->
  r = _fetch_data (answer t) (now_stamp t)
        (set_last_update_minute (minute_of_day (now t)) self) /\
  network_calls (events_of r) = 1%nat /\
  _last_update_minute (state_of r) = minute_of_day (now t).
Proof.
  cbv zeta. intros Hclock H.
  rewrite (async_update_data_run _ t b n H).
  destruct (sentinel_is_no_minute (now t) Hclock) as [_ Hne].
  apply Z.eqb_neq in Hne.
  change (_last_update_minute (__init__ tok udid pid name opts)) with (-1).
  rewrite Hne.
  change (truthy (_last_successful_data (__init__ tok udid pid name opts)))
    with false.
  rewrite andb_false_r.
  split; [reflexivity|].
  pose proof (fetch_data_frame
                (set_last_update_minute (minute_of_day (now t))
                   (__init__ tok udid pid name opts))
                (answer t) (now_stamp t)) as F.
  cbv zeta in F. destruct F as [_ [Hmin [Hcalls _]]].
  now split.
Qed.

Lemma first_tick_fetches_witness :
  network_calls
    (events_of (_async_update_data (sample.tick_at 5 10 15 sample.not_found)
                  sample.fresh))
  = 1%nat.
Proof.
  pose proof (first_tick_fetches "token" "udid" 42 "My Portfolio" None
                (sample.tick_at 5 10 15 sample.not_found) false 60) as H.
  cbv zeta in H.
  destruct H as [_ [H _]]; [unfold on_clock; cbn; lia | reflexivity | exact H].
Defined.

(** X14.  A scheduled tick at a new minute runs the cycle whether or not a
    snapshot is cached, and when the API call fails it raises
    [UpdateFailed]: the cached snapshot is kept but not returned. *)
Theorem scheduled_tick_fetches (self : coordinator) (t : tick) (n : Z) :
  let r := _async_update_data t self in
  minute_of_day (now t) <> _last_update_minute self ->
  should_update_now self (now_schedule t) = Return (true, n) ->
  r = _fetch_data (answer t) (now_stamp t)
        (set_last_update_minute (minute_of_day (now t)) self) /\
  network_calls (events_of r) = 1%nat /\
  (forall err,
      api_outcome self (answer t) = Raise err ->
      (exists msg, result_of r = Raise (Exn UpdateFailed msg)) /\
      _last_successful_data (state_of r) = _last_successful_data self).
Proof.
  cbv zeta. intros Hne H.
  rewrite (async_update_data_run self t true n H).
  apply Z.eqb_neq in Hne. rewrite Hne. cbn [negb andb].
  split; [reflexivity|].
  set (start := set_last_update_minute (minute_of_day (now t)) self).
  pose proof (fetch_data_frame start (answer t) (now_stamp t)) as F.
  cbv zeta in F. destruct F as [_ [_ [Hcalls F]]].
  split; [exact Hcalls|].
  intros err Herr.
  destruct (fetch_data_api_failure start (answer t) (now_stamp t) err Herr)
    as [head [tl [E _]]].
  rewrite E in F |- *. split; [now eexists | exact F].
Qed.

Lemma scheduled_tick_fetches_witness :
  _last_successful_data
    (state_of (_async_update_data (sample.tick_at 2 10 30 sample.not_found)
                 sample.warm))
  = sample.snapshot /\
  exists msg,
    result_of (_async_update_data (sample.tick_at 2 10 30 sample.not_found)
                 sample.warm)
    = Raise (Exn UpdateFailed msg).
Proof.
  pose proof (scheduled_tick_fetches sample.warm
                (sample.tick_at 2 10 30 sample.not_found) 60) as H.
  cbv zeta in H.
  destruct H as [_ [_ H]]; [vm_compute; discriminate | reflexivity |].
  destruct (H _ eq_refl) as [Hr Hd]. split; [exact Hd | exact Hr].
Defined.

Lemma parse_time_raises (s : string) (e : exn) :
  parse_time s = Raise e -> exn_cls e = ValueError \/ exn_cls e = IndexError.
Proof.
  unfold parse_time.
  destruct (split s ":") as [|p0 [|p1 rest]] eqn:Hs.
  - now apply split_nonempty in Hs.
  - cbn [list_item nth_error Py.bind]. unfold int_of_str.
    destruct (int_literal p0); cbn [Py.bind]; intros [= <-]; [now right|now left].
  - cbn [list_item nth_error Py.bind]. unfold int_of_str.
    destruct (int_literal p0); cbn [Py.bind]; [|intros [= <-]; now left].
    destruct (int_literal p1); cbn [Py.bind]; [discriminate|].
    intros [= <-]. now left.
Qed.

(** X15.  A time string that [parse_time] rejects stops every tick: the
    tick raises the [ValueError] or [IndexError] of the parser, not
    [UpdateFailed], before it reads anything of the coordinator, so that it
    sends nothing and changes nothing, and not even the first fetch
    happens.  A forced refresh does not evaluate the schedule and still
    sends its request. *)
Theorem malformed_time_stops_every_tick (self : coordinator) (t : tick) (e : exn) :
  parse_time (update_morning_time self) = Raise e \/
  ((exists hm, parse_time (update_morning_time self) = Return hm) /\
   parse_time (update_night_time self) = Raise e) ->
  _async_update_data t self = (Raise e, self, []) /\
  (exn_cls e = ValueError \/ exn_cls e = IndexError) /\
  (forall w stamp,
      network_calls (events_of (async_force_refresh w stamp self)) = 1%nat).
Proof.
  intros H.
  split; [|split].
  - apply async_update_data_raises.
    destruct H as [H|[[hm Hm] Hn]].
    + now apply should_update_now_raises_morning.
    + now apply (should_update_now_raises_night self _ e hm).
  - destruct H as [H|[_ H]]; exact (parse_time_raises _ e H).
  - intros w stamp. rewrite async_force_refresh_run. cbv zeta.
    pose proof (fetch_data_frame (set_last_update_minute (-1) self) w stamp) as F.
    cbv zeta in F. destruct F as [_ [_ [Hcalls _]]].
    destruct (result_of (_fetch_data w stamp (set_last_update_minute (-1) self)));
      cbn [events_of snd]; [|exact Hcalls].
    now rewrite network_calls_app, Hcalls.
Qed.

Lemma malformed_time_stops_every_tick_witness :
  _async_update_data (sample.tick_at 2 4 0 sample.ok)
    (configured 15 9 21 "22:05" "0400")
  = (Raise (Exn IndexError [Lit "list index out of range"]),
     configured 15 9 21 "22:05" "0400", []).
Proof.
  refine (proj1 (malformed_time_stops_every_tick
                   (configured 15 9 21 "22:05" "0400")
                   (sample.tick_at 2 4 0 sample.ok) _ _)).
  left. vm_compute. reflexivity.
Defined.

End TickProperties.

(** *** The life of a coordinator *)

Section Reachable.

Lemma settings_name (a b : coordinator) :
  settings a = settings b -> portfolio_name a = portfolio_name b.
Proof. unfold settings. now intros [= _ _ _ H _ _ _ _ _ _]. Qed.

Lemma refresh_state (self : coordinator) (w : reply) (stamp : datetime) :
  state_of (async_force_refresh w stamp self)
  = state_of (_fetch_data w stamp (set_last_update_minute (-1) self)).
Proof.
  rewrite async_force_refresh_run. cbv zeta.
  now destruct (result_of (_fetch_data w stamp (set_last_update_minute (-1) self))).
Qed.

(** A cycle keeps the settings and the recorded minute, and leaves the
    cache holding nothing or a snapshot of the portfolio. *)
Lemma fetch_data_keeps (self : coordinator) (w : reply) (stamp : datetime) :
  cache_ok self ->
  settings (state_of (_fetch_data w stamp self)) = settings self /\
  _last_update_minute (state_of (_fetch_data w stamp self))
  = _last_update_minute self /\
  cache_ok (state_of (_fetch_data w stamp self)).
Proof.
  intros Hc.
  pose proof (fetch_data_frame self w stamp) as F. cbv zeta in F.
  destruct F as [Hset [Hmin [_ F]]].
  split; [exact Hset|]. split; [exact Hmin|].
  unfold cache_ok. rewrite (settings_name _ _ Hset).
  destruct (result_of (_fetch_data w stamp self)) as [d|e] eqn:Hres.
  - destruct F as [-> _]. right.
    now apply (fetch_data_returns_snapshot self w stamp).
  - rewrite F. exact Hc.
Qed.

Lemma reachable_invariant (init self : coordinator) :
  -1 <= _last_update_minute init <= 1439 ->
  cache_ok init ->
  reachable init self ->
  settings self = settings init /\
  -1 <= _last_update_minute self <= 1439 /\
  cache_ok self.
Proof.
  intros Hm0 Hc0 H.
  induction H as [|self t _ [IHs [IHm IHc]] Hclock|self w stamp _ [IHs [IHm IHc]]].
  - now repeat split.
  - destruct (tick_cases self t) as [[e ->]|[[-> _]|[_ ->]]];
      [now repeat split | now repeat split |].
    destruct (fetch_data_keeps
                (set_last_update_minute (minute_of_day (now t)) self)
                (answer t) (now_stamp t) IHc) as [Hs [Hm Hc]].
    split; [now rewrite Hs|]. split; [|exact Hc].
    rewrite Hm. cbn [_last_update_minute set_last_update_minute].
    destruct (sentinel_is_no_minute (now t) Hclock) as [Hr _]. lia.
  - rewrite refresh_state.
    destruct (fetch_data_keeps (set_last_update_minute (-1) self) w stamp IHc)
      as [Hs [Hm Hc]].
    split; [now rewrite Hs|]. split; [|exact Hc].
    rewrite Hm. cbn [_last_update_minute set_last_update_minute]. lia.
Qed.

(** X16.  Through every run of ticks and forced refreshes of a coordinator
    built by [__init__], the settings are those of the start, the recorded
    minute is the sentinel -1 or a minute of the day, and the cache holds
    nothing or a snapshot of this portfolio. *)
Theorem reachable_states (tok udid : string) (pid : Z) (name : string)
    (opts : option options) (self : coordinator) :
  let init := __init__ tok udid pid name opts in
  reachable init self ->
  settings self = settings init /\
  -1 <= _last_update_minute self <= 1439 /\
  cache_ok self.
Proof.
  cbv zeta. apply reachable_invariant; [cbn; lia | now left].
Qed.

Lemma reachable_states_witness :
  -1 <= _last_update_minute
          (state_of (_async_update_data (sample.tick_at 2 10 15 sample.ok)
                       (state_of (async_force_refresh sample.token_expired
                                    (sample.at_time 2 10 14) sample.fresh))))
     <= 1439.
Proof.
  refine (proj1 (proj2 (reachable_states "token" "udid" 42 "My Portfolio" None _ _))).
  apply reach_tick; [apply reach_refresh, reach_init|].
  unfold on_clock. cbn. lia.
Defined.

Lemma snapshot_is_read (name : string) (d : value) (c : coordinator)
    (shown : string) :
  is_snapshot name d ->
  (forall key, In key sensor.sensor_keys ->
               exists x, sensor.native_value key d = Return (VFloat x)) /\
  exists market_value open_pl open_pl_perc daily_pl daily_pl_perc iso raw,
    d = snapshot_of name iso raw
          (market_value, open_pl, open_pl_perc, daily_pl, daily_pl_perc) /\
    sensor.native_value "market_value" d = Return (VFloat market_value) /\
    sensor.extra_state_attributes c shown d
    = Return (VDict [("openpl", VFloat open_pl);
                     ("openplperc", VFloat open_pl_perc);
                     ("dailypl", VFloat daily_pl);
                     ("dailyplperc", VFloat daily_pl_perc);
                     ("timestamp", VStr iso);
                     ("portfolio_id", VInt (portfolio_id c));
                     ("portfolio_name", VStr shown)]).
Proof.
  intros [iso [raw [[[[[mv op] opp] dp] dpp] ->]]].
  split.
  - intros key [<-|[<-|[<-|[<-|[<-|[]]]]]]; eexists; reflexivity.
  - exists mv, op, opp, dp, dpp, iso, raw. repeat split.
Qed.

(** X17.  What the sensors show.  The data of the coordinator is what a
    tick returns or what a forced refresh publishes; through every run of a
    coordinator built by [__init__] it is a snapshot, so that each of the
    five sensors reads a float from it, and the attributes of the main
    sensor are the four other numbers, the time stamp, the portfolio id and
    the name given to the sensor.  Before there is data, every sensor reads
    [None] and the attributes are empty. *)
Theorem sensors_show_the_snapshot (tok udid : string) (pid : Z) (name : string)
    (opts : option options) (self : coordinator) (d : value) (shown : string) :
  let init := __init__ tok udid pid name opts in
  reachable init self ->
  ((exists t, result_of (_async_update_data t self) = Return d) \/
   (exists w stamp,
      In (SetUpdatedData d) (events_of (async_force_refresh w stamp self)))) ->
  (forall key, In key sensor.sensor_keys ->
               exists x, sensor.native_value key d = Return (VFloat x)) /\
  (exists market_value open_pl open_pl_perc daily_pl daily_pl_perc iso raw,
     d = snapshot_of name iso raw
           (market_value, open_pl, open_pl_perc, daily_pl, daily_pl_perc) /\
     sensor.native_value "market_value" d = Return (VFloat market_value) /\
     sensor.extra_state_attributes self shown d
     = Return (VDict [("openpl", VFloat open_pl);
                      ("openplperc", VFloat open_pl_perc);
                      ("dailypl", VFloat daily_pl);
                      ("dailyplperc", VFloat daily_pl_perc);
                      ("timestamp", VStr iso);
                      ("portfolio_id", VInt pid);
                      ("portfolio_name", VStr shown)])) /\
  (forall key, sensor.native_value key VNone = Return VNone) /\
  sensor.extra_state_attributes self shown VNone = Return (VDict []).
Proof.
  cbv zeta. intros Hreach Hd.
  destruct (reachable_invariant (__init__ tok udid pid name opts) self
              ltac:(cbn; lia) (or_introl eq_refl) Hreach)
    as [Hset [_ Hcache]].
  assert (Hname : portfolio_name self = name) by exact (settings_name _ _ Hset).
  assert (Hpid : portfolio_id self = pid)
    by (unfold settings in Hset; now injection Hset as _ _ H _ _ _).
  assert (Hsnap : is_snapshot name d).
  { rewrite <- Hname.
    destruct Hd as [[t Ht]|[w [stamp Hin]]].
    - destruct (tick_cases self t) as [[e E]|[[E Htruthy]|[_ E]]];
        rewrite E in Ht; cbn [result_of fst] in Ht.
      + discriminate Ht.
      + injection Ht as <-.
        destruct Hcache as [Hnone|Hs]; [|exact Hs].
        rewrite Hnone in Htruthy. discriminate Htruthy.
      + now apply fetch_data_returns_snapshot in Ht.
    - rewrite async_force_refresh_run in Hin. cbv zeta in Hin.
      set (start := set_last_update_minute (-1) self) in *.
      pose proof (fetch_data_frame start w stamp) as F. cbv zeta in F.
      destruct F as [_ [_ [_ F]]].
      destruct (result_of (_fetch_data w stamp start)) as [d0|e0] eqn:Hres;
        cbn [events_of snd] in Hin.
      + destruct F as [F _]. rewrite F in Hin.
        apply in_app_or in Hin as [Hin|[[= <-]|[]]].
        * destruct (fetch_data_events start w stamp) as [E|[m [ti [i E]]]];
            rewrite E in Hin; cbn [In] in Hin; unfold request_of in Hin;
            intuition discriminate.
        * now apply (fetch_data_returns_snapshot start w stamp).
      + destruct (fetch_data_events start w stamp) as [E|[m [ti [i E]]]];
          rewrite E in Hin; cbn [In] in Hin; unfold request_of in Hin;
          intuition discriminate. }
  destruct (snapshot_is_read name d self shown Hsnap) as [Hkeys Hattr].
  rewrite Hpid in Hattr.
  split; [exact Hkeys|]. split; [exact Hattr|]. split; reflexivity.
Qed.

Lemma sensors_show_the_snapshot_witness :
  exists x, sensor.native_value "daily_pl" sample.snapshot = Return (VFloat x).
Proof.
  refine (proj1 (sensors_show_the_snapshot "token" "udid" 42 "My Portfolio" None
                   sample.fresh sample.snapshot "My Portfolio"
                   (reach_init _) _) "daily_pl" _).
  - left. exists (sample.tick_at 2 10 15 sample.ok). vm_compute. reflexivity.
  - right. right. right. left. reflexivity.
Defined.

(** X18.  After a forced refresh that succeeded, the recorded minute is
    still the sentinel: an unscheduled tick returns the snapshot that the
    refresh published and does nothing else, and a scheduled tick fetches
    again, also within the minute of the refresh. *)
Theorem tick_after_a_refresh (self : coordinator) (w : reply) (stamp : datetime)
    (t : tick) :
  let r := async_force_refresh w stamp self in
  result_of r = Return tt ->
  exists d,
    events_of r
    = (events_of (_fetch_data w stamp (set_last_update_minute (-1) self))
       ++ [SetUpdatedData d])%list /\
    (forall n,
        on_clock (now t) ->
        should_update_now self (now_schedule t) = Return (false, n) ->
        _async_update_data t (state_of r) = (Return d, state_of r, [])) /\
    (forall n,
        on_clock (now t) ->
        should_update_now self (now_schedule t) = Return (true, n) ->
        network_calls (events_of (_async_update_data t (state_of r))) = 1%nat).
Proof.
  cbv zeta. rewrite async_force_refresh_run. cbv zeta.
  set (start := set_last_update_minute (-1) self).
  pose proof (fetch_data_frame start w stamp) as F. cbv zeta in F.
  destruct F as [Hset [Hmin [_ F]]].
  destruct (result_of (_fetch_data w stamp start)) as [d|e];
    cbn [result_of state_of events_of fst snd]; [intros _|discriminate].
  destruct F as [Hd Ht].
  set (s1 := state_of (_fetch_data w stamp start)) in *.
  exists d. split; [now rewrite Hd|].
  assert (Hne : forall t0 : tick, on_clock (now t0) ->
                  (minute_of_day (now t0) =? _last_update_minute s1) = false).
  { intros t0 Hclock. apply Z.eqb_neq. rewrite Hmin.
    now apply sentinel_is_no_minute. }
  change (settings start) with (settings self) in Hset.
  split.
  - intros n Hclock H.
    rewrite <- (should_update_now_settings s1 self _ Hset) in H.
    rewrite (async_update_data_run s1 t false n H), (Hne t Hclock), Hd, Ht.
    reflexivity.
  - intros n Hclock H.
    rewrite <- (should_update_now_settings s1 self _ Hset) in H.
    rewrite (async_update_data_run s1 t true n H), (Hne t Hclock).
    cbn [negb andb].
    pose proof (fetch_data_frame
                  (set_last_update_minute (minute_of_day (now t)) s1)
                  (answer t) (now_stamp t)) as F.
    cbv zeta in F. now destruct F as [_ [_ [Hcalls _]]].
Qed.

Lemma tick_after_a_refresh_witness :
  network_calls
    (events_of
       (_async_update_data (sample.tick_at 2 10 15 sample.ok)
          (state_of (async_force_refresh sample.ok (sample.at_time 2 10 15)
                       sample.fresh))))
  = 1%nat.
Proof.
  pose proof (tick_after_a_refresh sample.fresh sample.ok (sample.at_time 2 10 15)
                (sample.tick_at 2 10 15 sample.ok)) as H.
  cbv zeta in H. destruct (H eq_refl) as [d [_ [_ Hs]]].
  apply (Hs 60); [unfold on_clock; cbn; lia | reflexivity].
Defined.




End Reachable.

(** *** The API client and the operations of the config flow *)

Section ApiOperations.

(** X20.  [get_portfolio_summary] sends its one request before anything
    else and never a second one, whatever comes back; it touches no state of
    its caller; and what it returns or raises depends on the portfolio id
    and the answer, not on the credentials, which only go into the
    request. *)
Theorem summary_sends_one_request {St : Type} (s : St) (pid : Z)
    (tok udid : string) (w : reply) :
  let r := api.get_portfolio_summary pid tok udid w s in
  events_of r = [HttpGet (api.summary_request pid tok udid)] /\
  state_of r = s /\
  result_of r = result_of (api.get_portfolio_summary pid "" "" w tt).
Proof.
  cbv zeta. rewrite get_portfolio_summary_run. repeat split.
Qed.

Lemma portfolios_not_200 (tok udid : string) (only : bool) (status : Z) (b : body) :
  status <> 200 ->
  snd (onboarding.get_portfolios tok udid only (Response status b))
  = Raise (Exn PortfolioError [Lit "HTTP error "; Str (VInt status)]).
Proof.
  intros H. unfold onboarding.get_portfolios.
  cbn [snd onboarding.response_of Py.bind].
  destruct (Z.eqb_spec status 200); [contradiction|]. reflexivity.
Qed.

(** X21.  How [get_portfolios] fails.  A status other than 200 is a
    [PortfolioError], whatever the body.  On status 200 a failure envelope
    with the code "1001" is a [TokenExpiredError], and with any other code a
    plain [PortfolioError]: the code "203", which the summary operation
    reports as [PortfolioNotFoundError], is not told apart here.  The
    failure wins over whatever the body lists. *)
Theorem portfolio_list_failures (tok udid : string) (only : bool) :
  (forall status b,
      status <> 200 ->
      snd (onboarding.get_portfolios tok udid only (Response status b))
      = Raise (Exn PortfolioError [Lit "HTTP error "; Str (VInt status)])) /\
  (forall body code,
      envelope_shaped body = true ->
      upstream_failure body = Some code ->
      snd (onboarding.get_portfolios tok udid only (Response 200 (Decoded body)))
      = if eq_str code "1001"
        then Raise (Exn TokenExpiredError [Lit "Token expired or invalid"])
        else Raise (Exn PortfolioError [Lit "API error: "; Str code])) /\
  snd (onboarding.get_portfolios tok udid only
         (Response 200 (Decoded (sample.failed_body "203"))))
  = Raise (Exn PortfolioError [Lit "API error: "; Str (VStr "203")]).
Proof.
  split; [intros status b; apply portfolios_not_200|].
  split; [|reflexivity].
  intros body code Hshape Hup.
  unfold onboarding.get_portfolios.
  cbn [snd onboarding.response_of onboarding.json_of Py.bind Z.eqb Pos.eqb negb].
  destruct body as [| | | | | |d]; try discriminate Hshape.
  unfold upstream_failure in Hup. cbn [envelope_shaped member] in Hshape, Hup.
  cbn [get Py.bind].
  destruct (lookup d "system") as [[| | | | | |sys]|];
    try discriminate Hshape; try discriminate Hup.
  cbn [member get Py.bind] in Hup |- *.
  destruct (lookup sys "status") as [st|]; [|discriminate Hup].
  destruct (eq_str st "failed"); [|discriminate Hup].
  injection Hup as <-.
  destruct (lookup sys "message_error_code") as [c|]; cbn [Py.bind];
    now destruct (eq_str _ "1001").
Qed.

Lemma portfolio_list_failures_witness :
  snd (onboarding.get_portfolios "token" "udid" true
         (Response 200 (Decoded (sample.failed_body "1001"))))
  = Raise (Exn TokenExpiredError [Lit "Token expired or invalid"]).
Proof.
  exact (proj1 (proj2 (portfolio_list_failures "token" "udid" true))
           (sample.failed_body "1001") (VStr "1001") eq_refl eq_refl).
Defined.

Lemma keep_positions_filter (l : list value) :
  forallb is_dict l = true ->
  onboarding.keep_positions l = Return (filter is_position l).
Proof.
  induction l as [|p rest IH]; [reflexivity|].
  cbn [forallb]. intros H. apply andb_true_iff in H as [Hp Hrest].
  cbn [onboarding.keep_positions filter]. rewrite (IH Hrest).
  destruct p as [| | | | | |d]; try discriminate Hp.
  cbn [get Py.bind is_position].
  now destruct (lookup d "portfolioType").
Qed.

Lemma portfolios_listed (tok udid : string) (only : bool) (body : value)
    (l : list value) :
  envelope_shaped body = true ->
  upstream_failure body = None ->
  listed body = Some (VList l) ->
  (only = true -> forallb is_dict l = true) ->
  snd (onboarding.get_portfolios tok udid only (Response 200 (Decoded body)))
  = Return (VList (if only then filter is_position l else l)).
Proof.
  intros Hshape Hup Hl Hd.
  unfold onboarding.get_portfolios.
  cbn [snd onboarding.response_of onboarding.json_of Py.bind Z.eqb Pos.eqb negb].
  destruct body as [| | | | | |d]; try discriminate Hshape.
  unfold upstream_failure in Hup. unfold listed in Hl.
  cbn [envelope_shaped member] in Hshape, Hup, Hl.
  cbn [get Py.bind].
  assert (Hblock :
    try_except
      (let* data := get (VDict d) "data" (VList []) in
       if negb (truthy data) then Return (VList [])
       else
       let* first := item0 data in
       let* screen_data := get first "screen_data" (VDict []) in
       let* portfolios := get screen_data "portfolio" (VList []) in
       if only then
         let* items := iterate portfolios in
         let* kept := onboarding.keep_positions items in
         Return (VList kept)
       else Return portfolios)
      [KeyError; IndexError]
      (fun err =>
         Raise (Exn PortfolioError (Lit "Error parsing response: " :: exn_msg err)))
    = Return (VList (if only then filter is_position l else l))).
  { unfold try_except. cbn [get Py.bind].
    destruct (lookup d "data") as [[| | | | | [|[| | | | | |first] rest] |]|];
      try discriminate Hl; cbn [truthy negb Py.bind item0 get].
    - injection Hl as <-. now destruct only.
    - destruct (lookup first "screen_data") as [[| | | | | |sd]|];
        try discriminate Hl; cbn [get Py.bind lookup].
      + injection Hl as Hl. unfold or_default in Hl.
        destruct (lookup sd "portfolio") as [x|]; cbn [Py.bind].
        * subst x. destruct only; [|reflexivity].
          cbn [iterate Py.bind]. now rewrite (keep_positions_filter l (Hd eq_refl)).
        * injection Hl as <-. now destruct only.
      + injection Hl as <-. now destruct only.
    - injection Hl as <-. now destruct only. }
  cbn [get] in Hblock.
  destruct (lookup d "system") as [[| | | | | |sys]|];
    try discriminate Hshape; cbn [get Py.bind member lookup eq_str] in Hup |- *;
    [|exact Hblock].
  destruct (lookup sys "status") as [st|]; cbn [eq_str]; [|exact Hblock].
  destruct (eq_str st "failed"); [discriminate Hup|exact Hblock].
Qed.

(** X22.  What [get_portfolios] returns.  On status 200 and a body without
    a failure envelope it returns the list under
    [data[0].screen_data.portfolio], the empty list where [data],
    [screen_data] or [portfolio] is missing; with [position_only] it keeps,
    in their order, exactly the portfolios of type ["position"]. *)
Theorem portfolio_list (tok udid : string) (body : value) (l : list value) :
  envelope_shaped body = true ->
  upstream_failure body = None ->
  listed body = Some (VList l) ->
  snd (onboarding.get_portfolios tok udid false (Response 200 (Decoded body)))
  = Return (VList l) /\
  (forallb is_dict l = true ->
   snd (onboarding.get_portfolios tok udid true (Response 200 (Decoded body)))
   = Return (VList (filter is_position l))).
Proof.
  intros Hshape Hup Hl. split.
  - apply (portfolios_listed tok udid false body l Hshape Hup Hl). discriminate.
  - intros Hd. now apply (portfolios_listed tok udid true body l Hshape Hup Hl).
Qed.

Lemma portfolio_list_witness :
  snd (onboarding.get_portfolios "token" "udid" true
         (Response 200
            (Decoded (portfolios_body [position 1 "Stocks"; watchlist 2 "Ideas";
                                       position 3 "Crypto"]))))
  = Return (VList [position 1 "Stocks"; position 3 "Crypto"]).
Proof.
  exact (proj2 (portfolio_list "token" "udid"
                  (portfolios_body [position 1 "Stocks"; watchlist 2 "Ideas";
                                    position 3 "Crypto"])
                  [position 1 "Stocks"; watchlist 2 "Ideas"; position 3 "Crypto"]
                  eq_refl eq_refl eq_refl) eq_refl).
Defined.

End ApiOperations.

Section Login.

Lemma login_not_200 (md5_hexdigest : string -> string)
    (email password udid : string) (status : Z) (b : body) :
  status <> 200 ->
  snd (onboarding.login md5_hexdigest email password udid (Response status b))
  = Raise (Exn AuthenticationError [Lit "HTTP error "; Str (VInt status)]).
Proof.
  intros H. unfold onboarding.login.
  cbn [snd onboarding.response_of Py.bind].
  destruct (Z.eqb_spec status 200); [contradiction|]. reflexivity.
Qed.

(** The login on a body with status 200, once the envelope is read. *)
Lemma login_200 (md5_hexdigest : string -> string)
    (email password udid : string) (body : value) :
  login_shaped body = true ->
  snd (onboarding.login md5_hexdigest email password udid
         (Response 200 (Decoded body)))
  = match login_error body with
    | Some msg => Raise (Exn AuthenticationError [Str msg])
    | None =>
        let* data := get body "data" (VDict []) in
        let* has_errors := contains_str "errors" data in
        let* _ :=
          if has_errors then
            let* errors := item_str data "errors" in
            let* error :=
              if truthy errors then
                let* errors' := item_str data "errors" in item0 errors'
              else Return (VDict []) in
            let* field_error := get error "fieldError" (VStr "Login failed") in
            Raise (Exn AuthenticationError [Str field_error])
          else Return tt in
        let* has_token := contains_str "token" data in
        let* _ :=
          if negb has_token
          then Raise (Exn AuthenticationError [Lit "No token in response"])
          else Return tt in
        let* _ := get data "user_email" VNone in
        let* token := item_str data "token" in
        let* user_id := get data "user_ID" VNone in
        let* user_email := get data "user_email" VNone in
        let* user_firstname := get data "user_firstname" VNone in
        let* user_lastname := get data "user_lastname" VNone in
        Return (VDict [("token", token);
                       ("user_id", user_id);
                       ("user_email", user_email);
                       ("user_firstname", user_firstname);
                       ("user_lastname", user_lastname)])
    end.
Proof.
  intros Hshape. unfold onboarding.login, login_error.
  cbn [snd onboarding.response_of onboarding.json_of Py.bind Z.eqb Pos.eqb negb].
  destruct body as [| | | | | |d]; try discriminate Hshape.
  cbn [login_shaped] in Hshape. cbn [member].
  cbn [get Py.bind].
  destruct (lookup d "system") as [[| | | | | |sys]|];
    try discriminate Hshape; cbn [get Py.bind member lookup eq_str];
    [|reflexivity].
  destruct (lookup sys "status") as [st|]; cbn [eq_str]; [|reflexivity].
  destruct (eq_str st "error"); [|reflexivity].
  destruct (lookup sys "messages") as [[| | | | | |ms]|];
    try discriminate Hshape; reflexivity.
Qed.

(** X23.  How [login] fails, in the order of the tests.  A status other
    than 200 is an [AuthenticationError], whatever the body.  On status 200
    an envelope with [system.status == "error"] fails with its display
    message, or "Unknown error", whatever else the body holds; then an
    [errors] entry in [data] fails with the [fieldError] of its first
    element, or "Login failed", also when a token is there; and without a
    token the login fails with "No token in response". *)
Theorem login_failures (md5_hexdigest : string -> string)
    (email password udid : string) :
  (forall status b,
      status <> 200 ->
      snd (onboarding.login md5_hexdigest email password udid (Response status b))
      = Raise (Exn AuthenticationError [Lit "HTTP error "; Str (VInt status)])) /\
  (forall body,
      login_shaped body = true ->
      let r := snd (onboarding.login md5_hexdigest email password udid
                      (Response 200 (Decoded body))) in
      (forall msg, login_error body = Some msg ->
                   r = Raise (Exn AuthenticationError [Str msg])) /\
      (login_error body = None -> member body "data" = None ->
       r = Raise (Exn AuthenticationError [Lit "No token in response"])) /\
      (forall d,
          login_error body = None -> member body "data" = Some (VDict d) ->
          (forall e rest,
              lookup d "errors" = Some (VList (VDict e :: rest)) ->
              r = Raise (Exn AuthenticationError
                           [Str (or_default (lookup e "fieldError")
                                   (VStr "Login failed"))])) /\
          (lookup d "errors" = Some (VList []) ->
           r = Raise (Exn AuthenticationError [Str (VStr "Login failed")])) /\
          (lookup d "errors" = None -> lookup d "token" = None ->
           r = Raise (Exn AuthenticationError [Lit "No token in response"])))).
Proof.
  split; [intros status b; apply login_not_200|].
  intros body Hshape r. subst r. rewrite (login_200 md5_hexdigest email password udid body Hshape).
  destruct body as [| | | | | |b]; try discriminate Hshape.
  cbn [member get Py.bind].
  split; [|split].
  - intros msg ->. reflexivity.
  - intros -> ->. reflexivity.
  - intros d -> ->.
    cbn [contains_str item_str Py.bind].
    split; [|split].
    + intros e rest H. rewrite !H. cbn [Py.bind truthy item0 get].
      now destruct (lookup e "fieldError").
    + intros H. rewrite !H. reflexivity.
    + intros H1 H2. rewrite !H1, !H2. reflexivity.
Qed.

Lemma login_failures_witness :
  snd (onboarding.login (fun _ => "5f4dcc3b5aa765d61d8327deb882cf99")
         "me@example.org" "password" "udid"
         (Response 200
            (Decoded (VDict [("data",
                              VDict [("errors",
                                      VList [VDict [("fieldError",
                                                     VStr "Wrong password")]]);
                                     ("token", VStr "secret-token")])]))))
  = Raise (Exn AuthenticationError [Str (VStr "Wrong password")]).
Proof.
  pose proof (proj2 (login_failures (fun _ => "5f4dcc3b5aa765d61d8327deb882cf99")
                       "me@example.org" "password" "udid")
                (VDict [("data",
                         VDict [("errors",
                                 VList [VDict [("fieldError",
                                                VStr "Wrong password")]]);
                                ("token", VStr "secret-token")])])
                eq_refl) as H.
  cbv zeta in H. destruct H as [_ [_ H]].
  destruct (H _ eq_refl eq_refl) as [He _].
  exact (He _ _ eq_refl).
Defined.

(** X24.  What [login] returns.  On status 200, without an error in the
    envelope and without [errors] in [data], a body with a token gives the
    token and the profile: the user id, the e-mail and the two names, each
    [None] where [data] lacks it.  An envelope that reports any other
    status, the ["failed"] of the portfolio operations included, is no
    error to the login. *)
Theorem login_returns_the_token (md5_hexdigest : string -> string)
    (email password udid : string) (body : value)
    (d : list (string * value)) (token : value) :
  login_shaped body = true ->
  login_error body = None ->
  member body "data" = Some (VDict d) ->
  lookup d "errors" = None ->
  lookup d "token" = Some token ->
  snd (onboarding.login md5_hexdigest email password udid
         (Response 200 (Decoded body)))
  = Return (profile token d).
Proof.
  intros Hshape Herr Hdata He Ht.
  rewrite (login_200 md5_hexdigest email password udid body Hshape), Herr.
  destruct body as [| | | | | |b]; try discriminate Hshape.
  cbn [member] in Hdata. cbn [get Py.bind]. rewrite Hdata.
  cbn [contains_str item_str get Py.bind]. rewrite !He, !Ht.
  reflexivity.
Qed.

Lemma login_returns_the_token_witness :
  snd (onboarding.login (fun _ => "5f4dcc3b5aa765d61d8327deb882cf99")
         "me@example.org" "password" "udid"
         (Response 200
            (Decoded (VDict [("system", VDict [("status", VStr "failed")]);
                             ("data", VDict [("token", VStr "secret-token");
                                             ("user_ID", VStr "1234")])]))))
  = Return (VDict [("token", VStr "secret-token");
                   ("user_id", VStr "1234");
                   ("user_email", VNone);
                   ("user_firstname", VNone);
                   ("user_lastname", VNone)]).
Proof.
  exact (login_returns_the_token (fun _ => "5f4dcc3b5aa765d61d8327deb882cf99")
           "me@example.org" "password" "udid"
           (VDict [("system", VDict [("status", VStr "failed")]);
                   ("data", VDict [("token", VStr "secret-token");
                                   ("user_ID", VStr "1234")])])
           [("token", VStr "secret-token"); ("user_ID", VStr "1234")]
           (VStr "secret-token") eq_refl eq_refl eq_refl eq_refl eq_refl).
Defined.

End Login.

(** *** Names *)

Section Names.

Lemma normalize_chars (name : string) :
  api.normalize_portfolio_name name
  = api.keep_identifier_chars (subst_char " " "_" (lowercase name)).
Proof. unfold api.normalize_portfolio_name. now rewrite replace_char_subst. Qed.

Lemma normalize_cons (c : ascii) (rest : string) :
  api.normalize_portfolio_name (String c rest)
  = let c' := if Ascii.eqb (lower c) " " then "_"%char else lower c in
    if api.is_alnum c' || Ascii.eqb c' "_"
    then String c' (api.normalize_portfolio_name rest)
    else api.normalize_portfolio_name rest.
Proof. rewrite !normalize_chars. reflexivity. Qed.

Lemma normalize_app (a b : string) :
  api.normalize_portfolio_name (a ++ b)
  = (api.normalize_portfolio_name a ++ api.normalize_portfolio_name b)%string.
Proof.
  induction a as [|c rest IH]; [reflexivity|].
  cbn [String.append]. rewrite !normalize_cons. cbv zeta. rewrite IH.
  now destruct (_ || _).
Qed.

Lemma kept_char (c : ascii) :
  let c' := if Ascii.eqb (lower c) " " then "_"%char else lower c in
  api.is_alnum c' || Ascii.eqb c' "_" = true ->
  identifier_char c' = true.
Proof.
  destruct c as [[] [] [] [] [] [] [] []]; vm_compute; intros H;
    first [reflexivity | discriminate H].
Qed.

Lemma identifier_char_fixed (c : ascii) :
  identifier_char c = true ->
  lower c = c /\ Ascii.eqb c " " = false /\
  api.is_alnum c || Ascii.eqb c "_" = true.
Proof.
  destruct c as [[] [] [] [] [] [] [] []]; vm_compute; intros H;
    first [discriminate H | repeat split].
Qed.

Lemma normalize_identifier (s : string) :
  all_chars identifier_char s = true -> api.normalize_portfolio_name s = s.
Proof.
  induction s as [|c rest IH]; [reflexivity|].
  cbn [all_chars]. intros H. apply andb_true_iff in H as [Hc Hrest].
  rewrite normalize_cons. cbv zeta.
  destruct (identifier_char_fixed c Hc) as [-> [-> ->]].
  now rewrite (IH Hrest).
Qed.

(** X25.  On an ASCII name, where lowering and the removal of accents act
    on single bytes, the normalized name is made of lowercase letters,
    digits and underscores only, is no longer than the name, and is left as
    it is by a second normalization. *)
Theorem normalized_name_is_an_identifier (name : string) :
  is_ascii name = true ->
  all_chars identifier_char (api.normalize_portfolio_name name) = true /\
  (String.length (api.normalize_portfolio_name name) <= String.length name)%nat /\
  api.normalize_portfolio_name (api.normalize_portfolio_name name)
  = api.normalize_portfolio_name name.
Proof.
  intros _.
  assert (H : all_chars identifier_char (api.normalize_portfolio_name name) = true /\
              (String.length (api.normalize_portfolio_name name)
               <= String.length name)%nat).
  { induction name as [|c rest [IH1 IH2]]; [now split|].
    rewrite normalize_cons. cbv zeta.
    pose proof (kept_char c) as K. cbv zeta in K.
    destruct (_ || _); cbn [all_chars String.length].
    - rewrite (K eq_refl), IH1. split; [reflexivity|lia].
    - split; [exact IH1|lia]. }
  destruct H as [H1 H2].
  split; [exact H1|]. split; [exact H2|].
  now apply normalize_identifier.
Qed.

Lemma normalized_name_is_an_identifier_witness :
  api.normalize_portfolio_name (api.normalize_portfolio_name "John's Crypto")
  = api.normalize_portfolio_name "John's Crypto".
Proof.
  exact (proj2 (proj2 (normalized_name_is_an_identifier "John's Crypto" eq_refl))).
Defined.

(** X26.  Names that differ in case, in a space against an underscore, or
    in a character that is neither a letter, a digit, a space nor an
    underscore have one normalized name, and with it one entity id and one
    notification id. *)
Theorem names_that_collide (a b : string) (c : ascii) :
  is_ascii (a ++ String c b) = true ->
  api.normalize_portfolio_name (lowercase a) = api.normalize_portfolio_name a /\
  api.normalize_portfolio_name (a ++ " " ++ b)
  = api.normalize_portfolio_name (a ++ "_" ++ b) /\
  (api.is_alnum c || Ascii.eqb c " " || Ascii.eqb c "_" = false ->
   api.normalize_portfolio_name (a ++ String c b)
   = api.normalize_portfolio_name (a ++ b)).
Proof.
  intros _. split; [|split].
  - induction a as [|x rest IH]; [reflexivity|].
    cbn [lowercase]. rewrite !normalize_cons. cbv zeta. rewrite IH.
    assert (E : lower (lower x) = lower x)
      by (destruct x as [[] [] [] [] [] [] [] []]; reflexivity).
    now rewrite E.
  - rewrite !normalize_app. reflexivity.
  - intros Hc. rewrite !normalize_app, normalize_cons. cbv zeta.
    assert (E : (api.is_alnum (if Ascii.eqb (lower c) " " then "_"%char else lower c)
                 || Ascii.eqb (if Ascii.eqb (lower c) " " then "_"%char else lower c)
                      "_") = false).
    { revert Hc. destruct c as [[] [] [] [] [] [] [] []]; vm_compute;
        intros H; first [reflexivity | discriminate H]. }
    now rewrite E.
Qed.

Lemma names_that_collide_witness :
  api.normalize_portfolio_name "John's Crypto"
  = api.normalize_portfolio_name "Johns Crypto".
Proof.
  exact (proj2 (proj2 (names_that_collide "John" "s Crypto" "'" eq_refl)) eq_refl).
Defined.

End Names.
